(** * taxi timesheets: line parser and synchronized entries collection

    A shallow embedding of [taxi/timesheet/parser.py] and
    [taxi/timesheet/entry.py].

    Conventions.
    - Python text is modelled by [string]; a character is a code point
      below 256.  The character classes are the ones Python uses for
      [unicode] text on that range.
    - Python integers are [Z]; a Python float is the exact rational its
      decimal literal denotes (Python rounds it to the nearest double).
    - An exception is a value of [exn]; a call that can raise returns a
      [result].
    - Line objects are mutable and compared by identity: they live in a
      store ([list Line], the address is the position) and the document is
      a list of addresses. *)

From Stdlib Require Import ZArith QArith Lia List String Ascii Bool.
From stdpp Require Import base option list gmap strings pretty.

Local Close Scope Q_scope.
Local Open Scope string_scope.
Local Open Scope list_scope.

(** ** Exceptions *)

Inductive exn : Type :=
| ParseError (message : string)
| ValueError (message : string)
| TypeError (message : string)
| AttributeError (message : string)
| IndexError (message : string)
| KeyError (message : string)
| UnboundLocalError (message : string).

Inductive result (A : Type) : Type :=
| Ok (a : A)
| Raise (e : exn).
Arguments Ok {A} a.
Arguments Raise {A} e.

#[global] Instance result_ret : MRet result := fun A a => Ok a.
#[global] Instance result_bind : MBind result := fun A B f r =>
  match r with
  | Ok a => f a
  | Raise e => Raise e
  end.
#[global] Instance result_fmap : FMap result := fun A B f r =>
  match r with
  | Ok a => Ok (f a)
  | Raise e => Raise e
  end.

(** ** Characters and the string methods the parser calls *)

Module Py.

Definition code (c : ascii) : N := N_of_ascii c.

(** [\d] *)
Definition isdigit (c : ascii) : bool :=
  ((48 <=? code c) && (code c <=? 57))%N.

(** [unicode.isspace], the class [strip] and [split(None)] remove. *)
Definition isspace (c : ascii) : bool :=
  (((9 <=? code c) && (code c <=? 13)) || ((28 <=? code c) && (code c <=? 32))
   || (code c =? 133) || (code c =? 160))%N.

(** Line boundaries of [unicode.splitlines]. *)
Definition islinebreak (c : ascii) : bool :=
  (((10 <=? code c) && (code c <=? 13)) || ((28 <=? code c) && (code c <=? 30))
   || (code c =? 133))%N.

Definition CR : ascii := ascii_of_N 13.
Definition LF : ascii := ascii_of_N 10.

Fixpoint lstrip (s : string) : string :=
  match s with
  | String c s' => if isspace c then lstrip s' else s
  | EmptyString => EmptyString
  end.

Definition rstrip (s : string) : string := String.rev (lstrip (String.rev s)).

(** [s.strip()] *)
Definition strip (s : string) : string := rstrip (lstrip s).

(** [s.splitlines()]: a line boundary ends the current line, [\r\n] counts
    once, and there is no empty last line after a final boundary. *)
Fixpoint splitlines (s : string) : list string :=
  match s with
  | EmptyString => []
  | String c s' =>
      if islinebreak c then
        EmptyString ::
          match s' with
          | String c2 s2 =>
              if Ascii.eqb c CR && Ascii.eqb c2 LF then splitlines s2
              else splitlines s'
          | EmptyString => splitlines s'
          end
      else
        match splitlines s' with
        | [] => [String c EmptyString]
        | l :: ls => String c l :: ls
        end
  end.

(** The maximal prefix without whitespace, and what follows it. *)
Fixpoint take_word (s : string) : string * string :=
  match s with
  | String c s' =>
      if isspace c then (EmptyString, s)
      else let '(w, r) := take_word s' in (String c w, r)
  | EmptyString => (EmptyString, EmptyString)
  end.

(** [s.split(None, maxsplit)] *)
Fixpoint split (s : string) (maxsplit : nat) : list string :=
  match lstrip s with
  | EmptyString => []
  | s1 =>
      match maxsplit with
      | O => [s1]
      | S n => let '(w, r) := take_word s1 in w :: split r n
      end
  end.

(** ["\n".join(parts)] *)
Fixpoint join (sep : string) (parts : list string) : string :=
  match parts with
  | [] => EmptyString
  | [p] => p
  | p :: ps => p +:+ sep +:+ join sep ps
  end.

(** The longest prefix of digits, and the rest. *)
Fixpoint span_digits (s : string) : string * string :=
  match s with
  | String c s' =>
      if isdigit c then let '(d, r) := span_digits s' in (String c d, r)
      else (EmptyString, s)
  | EmptyString => (EmptyString, EmptyString)
  end.

Definition digit_val (c : ascii) : Z := (Z.of_N (code c) - 48)%Z.

Fixpoint digits_val (acc : Z) (s : string) : Z :=
  match s with
  | String c s' => digits_val (10 * acc + digit_val c)%Z s'
  | EmptyString => acc
  end.

Definition all_digits (s : string) : bool :=
  match span_digits s with
  | (String _ _, EmptyString) => true
  | _ => false
  end.

Definition split_sign (s : string) : bool * string :=
  match s with
  | String "-" s' => (true, s')
  | String "+" s' => (false, s')
  | _ => (false, s)
  end.

(** [int(s)] on text: surrounding whitespace, a sign, decimal digits. *)
Definition int (s : string) : result Z :=
  let '(neg, body) := split_sign (strip s) in
  if all_digits body then
    Ok (if neg then - digits_val 0 body else digits_val 0 body)%Z
  else Raise (ValueError "invalid literal for int() with base 10").

(** [int(x)] where [x] may be [None], as [match.group(n)] can be. *)
Definition int_opt (x : option string) : result Z :=
  match x with
  | Some s => int s
  | None => Raise (TypeError "int() argument must be a string or a number, not 'NoneType'")
  end.

Inductive pyfloat : Type :=
| Finite (q : Q)
| Inf (negative : bool)
| NaN.

Definition tolower (c : ascii) : ascii :=
  if ((65 <=? code c) && (code c <=? 90))%N then ascii_of_N (code c + 32) else c.

Fixpoint lower (s : string) : string :=
  match s with
  | String c s' => String (tolower c) (lower s')
  | EmptyString => EmptyString
  end.

(** The exponent part of a float literal: nothing, or [e], a sign and
    digits up to the end of the text. *)
Definition float_exponent (s : string) : option Z :=
  match s with
  | EmptyString => Some 0%Z
  | String c s' =>
      if Ascii.eqb (tolower c) "e" then
        let '(neg, body) := split_sign s' in
        if all_digits body then
          Some (if neg then - digits_val 0 body else digits_val 0 body)%Z
        else None
      else None
  end.

Definition pow10 (e : Z) : Q :=
  match e with
  | Zneg p => (1 # (10 ^ p))%Q
  | _ => inject_Z (10 ^ e)%Z
  end.

(** The finite literals: digits, an optional point and digits (one digit at
    least on either side), an optional exponent. *)
Definition float_decimal (s : string) : option Q :=
  let '(ip, r1) := span_digits s in
  let '(fp, r2) :=
    match r1 with
    | String "." r => span_digits r
    | _ => (EmptyString, r1)
    end in
  match ip, fp with
  | EmptyString, EmptyString => None
  | _, _ =>
      match float_exponent r2 with
      | Some e =>
          let mant := digits_val (digits_val 0%Z ip) fp in
          Some (Qred (inject_Z mant * pow10 (e - Z.of_nat (String.length fp))%Z)%Q)
      | None => None
      end
  end.

(** [float(s)] on text. *)
Definition float (s : string) : result pyfloat :=
  let '(neg, body) := split_sign (strip s) in
  let name := lower body in
  if String.eqb name "inf" || String.eqb name "infinity" then Ok (Inf neg)
  else if String.eqb name "nan" then Ok NaN
  else
    match float_decimal body with
    | Some q => Ok (Finite (if neg then Qred (- q)%Q else q))
    | None => Raise (ValueError "could not convert string to float")
    end.

End Py.

(** ** Regular expressions: the fragment of [re] the parser uses

    [re.match] is a backtracking matcher anchored at the start of the text:
    alternatives are tried left to right, quantifiers are greedy, and the
    first way that lets the whole pattern succeed wins.  The matcher below is
    written in continuation-passing style, which gives exactly this
    order. *)

Module Re.

Inductive regex : Type :=
| Digit                                   (* \d *)
| NonDigit                                (* \D *)
| Char (c : ascii)                        (* a literal character *)
| Seq (r1 r2 : regex)                     (* r1r2 *)
| Alt (r1 r2 : regex)                     (* r1|r2 *)
| Opt (r : regex)                         (* r? *)
| Rep (r : regex) (lo hi : nat)           (* r{lo,hi} *)
| Group (n : nat) (r : regex).            (* the n-th capturing group *)

(** The text of the groups that took part in the match. *)
Abbreviation groups := (gmap nat string).

Fixpoint string_take (n : nat) (s : string) : string :=
  match n, s with
  | S n', String c s' => String c (string_take n' s')
  | _, _ => EmptyString
  end.

(** What was read between the text [s] and its suffix [s']. *)
Definition consumed (s s' : string) : string :=
  string_take (String.length s - String.length s') s.

Section Matcher.
Context {A : Type}.

Fixpoint rmatch (r : regex) (s : string) (caps : groups)
    (k : string -> groups -> option A) {struct r} : option A :=
  match r with
  | Digit =>
      match s with
      | String c s' => if Py.isdigit c then k s' caps else None
      | EmptyString => None
      end
  | NonDigit =>
      match s with
      | String c s' => if Py.isdigit c then None else k s' caps
      | EmptyString => None
      end
  | Char a =>
      match s with
      | String c s' => if Ascii.eqb c a then k s' caps else None
      | EmptyString => None
      end
  | Seq r1 r2 => rmatch r1 s caps (fun s' caps' => rmatch r2 s' caps' k)
  | Alt r1 r2 =>
      match rmatch r1 s caps k with
      | Some x => Some x
      | None => rmatch r2 s caps k
      end
  | Opt r1 =>
      match rmatch r1 s caps k with
      | Some x => Some x
      | None => k s caps
      end
  | Rep r1 lo hi =>
      (fix rep (lo hi : nat) (s : string) (caps : groups) {struct hi}
         : option A :=
         match hi with
         | O => match lo with O => k s caps | S _ => None end
         | S hi' =>
             match rmatch r1 s caps (rep (Nat.pred lo) hi') with
             | Some x => Some x
             | None => match lo with O => k s caps | S _ => None end
             end
         end) lo hi s caps
  | Group n r1 =>
      rmatch r1 s caps (fun s' caps' => k s' (<[n := consumed s s']> caps'))
  end.
End Matcher.

(** [re.match(r, s)]: the groups of the match, or [None]. *)
Definition re_match (r : regex) (s : string) : option groups :=
  rmatch r s ∅ (fun _ caps => Some caps).

(** [m.group(n)] *)
Definition group (m : groups) (n : nat) : option string := m !! n.

End Re.

(** ** [datetime.time] and [datetime.date] *)

Module datetime.

Local Open Scope Z_scope.

Record time : Type := mk_time {
  hour : Z;
  minute : Z;
  second : Z;
  microsecond : Z
}.

(** [datetime.time(hour, minute)] *)
Definition time_ (h m : Z) : result time :=
  if negb ((0 <=? h) && (h <=? 23)) then
    Raise (ValueError "hour must be in 0..23")
  else if negb ((0 <=? m) && (m <=? 59)) then
    Raise (ValueError "minute must be in 0..59")
  else Ok (mk_time h m 0 0).

Record date : Type := mk_date {
  year : Z;
  month : Z;
  day : Z
}.

Definition is_leap (y : Z) : bool :=
  (y mod 4 =? 0) && (negb (y mod 100 =? 0) || (y mod 400 =? 0)).

Definition days_in_month (y m : Z) : Z :=
  if m =? 2 then (if is_leap y then 29 else 28)
  else if (m =? 4) || (m =? 6) || (m =? 9) || (m =? 11) then 30
  else 31.

(** [datetime.date(year, month, day)] *)
Definition date_ (y m d : Z) : result date :=
  if negb ((1 <=? y) && (y <=? 9999)) then
    Raise (ValueError "year is out of range")
  else if negb ((1 <=? m) && (m <=? 12)) then
    Raise (ValueError "month must be in 1..12")
  else if negb ((1 <=? d) && (d <=? days_in_month y m)) then
    Raise (ValueError "day is out of range for month")
  else Ok (mk_date y m d).

#[global] Instance date_eq_dec : EqDecision date.
Proof. solve_decision. Defined.

#[global] Instance date_countable : Countable date.
Proof.
  refine (inj_countable' (fun d => (year d, month d, day d))
            (fun t => mk_date t.1.1 t.1.2 t.2) _).
  by intros [].
Defined.

#[global] Instance time_eq_dec : EqDecision time.
Proof. solve_decision. Defined.

End datetime.

(** ** Lines ([parser.py]) *)

(** A duration is a float, or a pair of times either of which may be
    [None]. *)
Inductive Duration : Type :=
| Hours (h : Py.pyfloat)
| Range (start stop : option datetime.time).

(** [EntryLine]: the instance attributes.  [_alias] keeps the alias as
    written, [_text] the original text of the line. *)
Record EntryLine : Type := mk_EntryLine {
  _alias : string;
  el_duration : Duration;
  el_description : string;
  el_commented : bool;
  el_ignored : bool;
  el_text : option string
}.

(** The three line classes.  [EntryLine] and [DateLine] are subclasses of
    [TextLine]. *)
Inductive Line : Type :=
| TextLine (text : string)
| EntryLine_ (e : EntryLine)
| DateLine (date : datetime.date) (text : string).

Definition is_EntryLine (l : Line) : bool :=
  match l with EntryLine_ _ => true | _ => false end.

Definition is_DateLine (l : Line) : bool :=
  match l with DateLine _ _ => true | _ => false end.

(** [isinstance(line, TextLine)]: true of the three classes. *)
Definition is_TextLine (l : Line) : bool := true.

(** [line.text], the property of [TextLine] that returns [_text]; [None] on
    an entry line whose text was cleared.  ([EntryLine.generate_text] builds
    a text from the fields, but nothing in the two modules calls it.) *)
Definition text (l : Line) : option string :=
  match l with
  | TextLine t => Some t
  | EntryLine_ e => el_text e
  | DateLine _ t => Some t
  end.

(** *** [EntryLine]: construction and attribute assignment *)

(** An assignment [line.<name> = value].  [alias] and [text] are properties
    with a setter; the other names are instance attributes. *)
Inductive EntryLine_assign : Type :=
| set__alias (v : string)
| set_alias (v : string)
| set_duration (v : Duration)
| set_description (v : string)
| set_commented (v : bool)
| set_ignored (v : bool)
| set__text (v : option string)
| set_text (v : option string).

Definition attr_name (a : EntryLine_assign) : string :=
  match a with
  | set__alias _ => "_alias"
  | set_alias _ => "alias"
  | set_duration _ => "duration"
  | set_description _ => "description"
  | set_commented _ => "commented"
  | set_ignored _ => "ignored"
  | set__text _ => "_text"
  | set_text _ => "text"
  end.

(** Storing an instance attribute in the object. *)
Definition EntryLine_store (self : EntryLine) (a : EntryLine_assign) : EntryLine :=
  match a with
  | set__alias v =>
      mk_EntryLine v (el_duration self) (el_description self)
        (el_commented self) (el_ignored self) (el_text self)
  | set_duration v =>
      mk_EntryLine (_alias self) v (el_description self)
        (el_commented self) (el_ignored self) (el_text self)
  | set_description v =>
      mk_EntryLine (_alias self) (el_duration self) v
        (el_commented self) (el_ignored self) (el_text self)
  | set_commented v =>
      mk_EntryLine (_alias self) (el_duration self) (el_description self)
        v (el_ignored self) (el_text self)
  | set_ignored v =>
      mk_EntryLine (_alias self) (el_duration self) (el_description self)
        (el_commented self) v (el_text self)
  | set__text v =>
      mk_EntryLine (_alias self) (el_duration self) (el_description self)
        (el_commented self) (el_ignored self) v
  | set_alias _ | set_text _ => self
  end.

(** [EntryLine.__setattr__] on an instance attribute: the attribute is
    stored and, unless it is [_text], [self._text = None] follows (itself an
    assignment to [_text], which stops there). *)
Definition EntryLine_setattr_plain (self : EntryLine) (a : EntryLine_assign)
    : EntryLine :=
  let self := EntryLine_store self a in
  if String.eqb (attr_name a) "_text" then self
  else EntryLine_store self (set__text None).

(** [EntryLine.__setattr__(self, name, value)].  The call to the parent's
    [__setattr__] stores an instance attribute or runs the setter of a
    property (the setters assign [_alias] and [_text], through
    [__setattr__] again); then every name but [_text] clears [_text]. *)
Definition EntryLine___setattr__ (self : EntryLine) (a : EntryLine_assign)
    : EntryLine :=
  let self :=
    match a with
    | set_alias v => EntryLine_setattr_plain self (set__alias v)
    | set_text v => EntryLine_setattr_plain self (set__text v)
    | _ => EntryLine_store self a
    end in
  if String.eqb (attr_name a) "_text" then self
  else EntryLine_setattr_plain self (set__text None).

(** The object before [__init__] has run: no attribute is set, and
    [__init__] assigns every one of them before it is read. *)
Definition EntryLine_blank : EntryLine :=
  mk_EntryLine "" (Range None None) "" false false None.

(** [EntryLine.__init__(self, alias, duration, description, text=None)] *)
Definition EntryLine___init__ (alias : string) (duration : Duration)
    (description : string) (text : option string) : EntryLine :=
  let self := EntryLine_blank in
  let self := EntryLine___setattr__ self (set__alias alias) in
  let self := EntryLine___setattr__ self (set_duration duration) in
  let self := EntryLine___setattr__ self (set_description description) in
  let self := EntryLine___setattr__ self (set_commented false) in
  let self := EntryLine___setattr__ self (set_ignored false) in
  match text with
  | Some t => EntryLine___setattr__ self (set__text (Some t))
  | None => self
  end.

Fixpoint remove_char (a : ascii) (s : string) : string :=
  match s with
  | String c s' => if Ascii.eqb c a then remove_char a s' else String c (remove_char a s')
  | EmptyString => EmptyString
  end.

(** The [alias] property: [self._alias.replace('?', '')]. *)
Definition el_alias (self : EntryLine) : string := remove_char "?" (_alias self).

(** ** The parser ([TimesheetParser]) *)

Module TimesheetParser.

Import Re.

(** [(?:(\d{1,2}):?(\d{1,2}))?-(?:(?:(\d{1,2}):?(\d{1,2}))|\?)] *)
Definition time_re : regex :=
  Seq (Opt (Seq (Group 1 (Rep Digit 1 2))
              (Seq (Opt (Char ":")) (Group 2 (Rep Digit 1 2)))))
    (Seq (Char "-")
       (Alt (Seq (Group 3 (Rep Digit 1 2))
               (Seq (Opt (Char ":")) (Group 4 (Rep Digit 1 2))))
            (Char "?"))).

(** [except ValueError as e: raise ParseError(e.message)] *)
Definition reraise_ValueError {A} (r : result A) : result A :=
  match r with
  | Raise (ValueError message) => Raise (ParseError message)
  | _ => r
  end.

Definition is_None {A} (x : option A) : bool :=
  match x with None => true | Some _ => false end.

(** [time_end], set when groups 3 and 4 took part in the match. *)
Definition parse_time_end (time : groups) : result (option datetime.time) :=
  if negb (is_None (group time 3)) && negb (is_None (group time 4)) then
    h ← Py.int_opt (group time 3);
    m ← Py.int_opt (group time 4);
    t ← datetime.time_ h m;
    mret (Some t)
  else mret None.

Definition parse_time (str_time : string) : result Duration :=
  match re_match time_re str_time with
  | Some time =>
      reraise_ValueError
        (if is_None (group time 1) && is_None (group time 2) then
           time_end ← parse_time_end time;
           mret (Range None time_end)
         else
           h ← Py.int_opt (group time 1);
           m ← Py.int_opt (group time 2);
           time_start ← datetime.time_ h m;
           time_end ← parse_time_end time;
           mret (Range (Some time_start) time_end))
  | None =>
      match Py.float str_time with
      | Ok total_hours => Ok (Hours total_hours)
      | Raise (ValueError _) =>
          Raise (ParseError "The duration must be a float number or a HH:mm string")
      | Raise e => Raise e
      end
  end.

(** [(\d{1,2})\D(\d{1,2})\D(\d{4}|\d{2})] *)
Definition date_re_dmy : regex :=
  Seq (Group 1 (Rep Digit 1 2))
    (Seq NonDigit
       (Seq (Group 2 (Rep Digit 1 2))
          (Seq NonDigit (Group 3 (Alt (Rep Digit 4 4) (Rep Digit 2 2)))))).

(** [(\d{4})\D(\d{1,2})\D(\d{1,2})] *)
Definition date_re_ymd : regex :=
  Seq (Group 1 (Rep Digit 4 4))
    (Seq NonDigit
       (Seq (Group 2 (Rep Digit 1 2))
          (Seq NonDigit (Group 3 (Rep Digit 1 2))))).

(** [len(x)] where [x] may be [None]. *)
Definition len_opt (x : option string) : result nat :=
  match x with
  | Some s => Ok (String.length s)
  | None => Raise (TypeError "object of type 'NoneType' has no len()")
  end.

(** [extract_date(line)]; [today_year] is [datetime.date.today().year]. *)
Definition extract_date (today_year : Z) (line : string) : result datetime.date :=
  let date_matches := re_match date_re_dmy line in
  let date_matches :=
    if is_None date_matches then re_match date_re_ymd line else date_matches in
  match date_matches with
  | None => Raise (ValueError "No date could be extracted from the given value")
  | Some m =>
      n1 ← len_opt (group m 1);
      if Nat.eqb n1 4 then
        y ← Py.int_opt (group m 1);
        mo ← Py.int_opt (group m 2);
        d ← Py.int_opt (group m 3);
        datetime.date_ y mo d
      else
        n3 ← len_opt (group m 3);
        year ←
          (if Nat.eqb n3 2 then
             let current_year := today_year in
             let current_millennium := (current_year - current_year mod 1000)%Z in
             y ← Py.int_opt (group m 3);
             mret (current_millennium + y)%Z
           else Py.int_opt (group m 3));
        mo ← Py.int_opt (group m 2);
        d ← Py.int_opt (group m 1);
        datetime.date_ year mo d
  end.

(** [_parse_entry_line(line)] *)
Definition _parse_entry_line (line : string) : result Line :=
  match Py.split line 2 with
  | [alias; time_token; description] =>
      time ← parse_time time_token;
      mret (EntryLine_ (EntryLine___init__ alias time description (Some line)))
  | _ => Raise (ParseError "Couldn't split line into 3 chunks")
  end.

Definition starts_with_hash (line : string) : bool :=
  match line with
  | String c _ => Ascii.eqb c "#"
  | EmptyString => false
  end.

(** [parser(lines)]: the generator, run to its end.  [current_date] is the
    local variable of that name. *)
Fixpoint parser_from (today_year : Z) (current_date : option datetime.date)
    (lines : list string) : result (list Line) :=
  match lines with
  | [] => mret []
  | line :: rest =>
      let line := Py.strip line in
      if Nat.eqb (String.length line) 0 || starts_with_hash line then
        ls ← parser_from today_year current_date rest;
        mret (TextLine line :: ls)
      else
        match extract_date today_year line with
        | Raise (ValueError _) =>
            if is_None current_date then
              Raise (ParseError "Entries must be defined inside a date section")
            else
              l ← _parse_entry_line line;
              ls ← parser_from today_year current_date rest;
              mret (l :: ls)
        | Raise e => Raise e
        | Ok date =>
            ls ← parser_from today_year (Some date) rest;
            mret (DateLine date line :: ls)
        end
  end.

Definition parser (today_year : Z) (lines : list string) : result (list Line) :=
  parser_from today_year None lines.

(** [parse(text)] *)
Definition parse (today_year : Z) (text : string) : result (list Line) :=
  parser today_year (Py.splitlines text).

End TimesheetParser.

(** ** Entries and the synchronized collection ([entry.py]) *)

(** The address of a line object in the store. *)
Definition loc : Type := nat.

(** [TimesheetEntry]: the instance attributes.  An entry is passed and
    returned by value; the line it is bound to is shared with the document
    through the store. *)
Record TimesheetEntry : Type := mk_TimesheetEntry {
  line : option loc;
  ignored : bool;
  commented : bool;
  alias : string;
  description : string;
  duration : Duration
}.

(** [EntriesList]: a list of entries that knows its date and whether it is
    bound to the collection ([entries_collection is not None]). *)
Record EntriesList : Type := mk_EntriesList {
  entries_collection : bool;
  el_date : datetime.date;
  items : list TimesheetEntry
}.

(** [EntriesCollection]: the dictionary from dates to lists, the document
    [lines], the two flags, and the store of the line objects. *)
Record EntriesCollection : Type := mk_EntriesCollection {
  heap : list Line;
  dict : gmap datetime.date EntriesList;
  lines : list loc;
  synchronized : bool;
  add_date_to_bottom : bool
}.

(** The object at an address.  Every address of a document was returned by
    [alloc] (see [wf]); the default is never read on such a state. *)
Definition deref (h : list Line) (l : loc) : Line :=
  default (TextLine "") (h !! l).

Definition alloc (h : list Line) (x : Line) : list Line * loc :=
  (h ++ [x], length h).

(** The document as line values. *)
Definition document (self : EntriesCollection) : list Line :=
  map (deref (heap self)) (lines self).

(** Every address in the document is allocated. *)
Definition wf (self : EntriesCollection) : Prop :=
  Forall (fun l => l < length (heap self)) (lines self).

(** *** The monad of the methods: state, exceptions, fuel

    A method transforms the collection and returns or raises; what it did
    before raising stays done.  [None] means that the loop of
    [init_from_str] did not finish within the fuel it was given. *)

Definition M (A : Type) : Type :=
  EntriesCollection -> option (EntriesCollection * result A).

#[global] Instance M_ret : MRet M := fun A a s => Some (s, Ok a).
#[global] Instance M_bind : MBind M := fun A B f m s =>
  match m s with
  | Some (s', Ok a) => f a s'
  | Some (s', Raise e) => Some (s', Raise e)
  | None => None
  end.

Definition raise {A} (e : exn) : M A := fun s => Some (s, Raise e).
Definition get {A} (f : EntriesCollection -> A) : M A := fun s => Some (s, Ok (f s)).
Definition modify (f : EntriesCollection -> EntriesCollection) : M unit :=
  fun s => Some (f s, Ok tt).
Definition lift {A} (r : result A) : M A := fun s => Some (s, r).

(** [try: body finally: cleanup] *)
Definition try_finally {A} (body : M A) (cleanup : M unit) : M A := fun s =>
  match body s with
  | Some (s', r) =>
      match cleanup s' with
      | Some (s'', Ok _) => Some (s'', r)
      | Some (s'', Raise e) => Some (s'', Raise e)
      | None => None
      end
  | None => None
  end.

Definition set_heap (h : list Line) (self : EntriesCollection) :=
  mk_EntriesCollection h (dict self) (lines self) (synchronized self)
    (add_date_to_bottom self).
Definition set_dict (d : gmap datetime.date EntriesList) (self : EntriesCollection) :=
  mk_EntriesCollection (heap self) d (lines self) (synchronized self)
    (add_date_to_bottom self).
Definition set_lines (ls : list loc) (self : EntriesCollection) :=
  mk_EntriesCollection (heap self) (dict self) ls (synchronized self)
    (add_date_to_bottom self).
Definition set_synchronized (b : bool) (self : EntriesCollection) :=
  mk_EntriesCollection (heap self) (dict self) (lines self) b
    (add_date_to_bottom self).

(** Creating a line object. *)
Definition new_line (x : Line) : M loc := fun s =>
  let '(h, l) := alloc (heap s) x in Some (set_heap h s, Ok l).

(** The [synchronized] decorator: the body runs only when the flag of the
    object is set; otherwise the call returns [None]. *)
Definition synchronized_ {A} (dflt : A) (func : M A) : M A :=
  b ← get synchronized;
  if b : bool then func else mret dflt.

(** *** [TimesheetEntry] *)

Inductive TimesheetEntry_assign : Type :=
| set_e_line (v : option loc)
| set_e_ignored (v : bool)
| set_e_commented (v : bool)
| set_e_alias (v : string)
| set_e_description (v : string)
| set_e_duration (v : Duration).

Definition TimesheetEntry_store (self : TimesheetEntry)
    (a : TimesheetEntry_assign) : TimesheetEntry :=
  match a with
  | set_e_line v =>
      mk_TimesheetEntry v (ignored self) (commented self) (alias self)
        (description self) (duration self)
  | set_e_ignored v =>
      mk_TimesheetEntry (line self) v (commented self) (alias self)
        (description self) (duration self)
  | set_e_commented v =>
      mk_TimesheetEntry (line self) (ignored self) v (alias self)
        (description self) (duration self)
  | set_e_alias v =>
      mk_TimesheetEntry (line self) (ignored self) (commented self) v
        (description self) (duration self)
  | set_e_description v =>
      mk_TimesheetEntry (line self) (ignored self) (commented self)
        (alias self) v (duration self)
  | set_e_duration v =>
      mk_TimesheetEntry (line self) (ignored self) (commented self)
        (alias self) (description self) v
  end.

(** [setattr(self.line, name, value)] under [hasattr(self.line, name)]: an
    entry line has every attribute an entry has, except [line]; the other
    line classes have none of them. *)
Definition mirrored (a : TimesheetEntry_assign) : option EntryLine_assign :=
  match a with
  | set_e_line _ => None
  | set_e_ignored v => Some (set_ignored v)
  | set_e_commented v => Some (set_commented v)
  | set_e_alias v => Some (set_alias v)
  | set_e_description v => Some (set_description v)
  | set_e_duration v => Some (set_duration v)
  end.

(** [TimesheetEntry.__setattr__(self, name, value)] *)
Definition TimesheetEntry___setattr__ (h : list Line) (self : TimesheetEntry)
    (a : TimesheetEntry_assign) : list Line * TimesheetEntry :=
  let self := TimesheetEntry_store self a in
  match line self with
  | Some l =>
      match h !! l, mirrored a with
      | Some (EntryLine_ e), Some la =>
          (<[l := EntryLine_ (EntryLine___setattr__ e la)]> h, self)
      | _, _ => (h, self)
      end
  | None => (h, self)
  end.

(** [TimesheetEntry.__init__(self, alias, duration, description)]: the
    entry is not bound yet, so nothing is mirrored. *)
Definition TimesheetEntry___init__ (alias : string) (duration : Duration)
    (description : string) : TimesheetEntry :=
  mk_TimesheetEntry None false false alias description duration.

(** [datetime.datetime] values of one day and their difference, as far as
    [hours] needs them. *)
Record datetime_ : Type := mk_datetime {
  dt_ordinal : Z;
  dt_hour : Z;
  dt_minute : Z;
  dt_second : Z;
  dt_microsecond : Z
}.

Record timedelta : Type := mk_timedelta {
  days : Z;
  seconds : Z;
  microseconds : Z
}.

(** [now.replace(hour=h, minute=m, second=0)] *)
Definition replace_hms (now : datetime_) (h m : Z) : datetime_ :=
  mk_datetime (dt_ordinal now) h m 0 (dt_microsecond now).

Definition to_microseconds (d : datetime_) : Z :=
  ((((dt_ordinal d * 24 + dt_hour d) * 60 + dt_minute d) * 60 + dt_second d)
   * 1000000 + dt_microsecond d)%Z.

(** [a - b]: a normalized [timedelta], with [0 <= seconds < 86400] and
    [0 <= microseconds < 1000000]. *)
Definition datetime_sub (a b : datetime_) : timedelta :=
  let us := (to_microseconds a - to_microseconds b)%Z in
  mk_timedelta (us / 86400000000)%Z ((us mod 86400000000) / 1000000)%Z
    (us mod 1000000)%Z.

(** The [hours] property; [now] is [datetime.datetime.now()]. *)
Definition hours (now : datetime_) (self : TimesheetEntry) : Py.pyfloat :=
  match duration self with
  | Range start stop =>
      match start, stop with
      | Some t0, Some t1 =>
          let time_start := replace_hms now (datetime.hour t0) (datetime.minute t0) in
          let time_end := replace_hms now (datetime.hour t1) (datetime.minute t1) in
          let total_time := datetime_sub time_end time_start in
          Py.Finite (Qred (Qmake (seconds total_time) 3600))
      | _, _ => Py.Finite 0%Q
      end
  | Hours h => h
  end.

Definition pyfloat_is_zero (x : Py.pyfloat) : bool :=
  match x with
  | Py.Finite q => Qeq_bool q 0%Q
  | _ => false
  end.

Definition is_ignored (now : datetime_) (self : TimesheetEntry) : bool :=
  ignored self || pyfloat_is_zero (hours now self).

(** *** [DateLine] *)

Definition pad2 (n : Z) : string :=
  let s := pretty n in
  if Nat.ltb (String.length s) 2 then "0" +:+ s else s.

(** Modelled from the spec: [taxi.utils.date.unicode_strftime] is not among
    the sources.  The text of a date line that was given none is "generated
    from [date] using a fixed display format", which [DateLine.__init__]
    sets to [%d.%m.%Y]. *)
Definition unicode_strftime (d : datetime.date) : string :=
  pad2 (datetime.day d) +:+ "." +:+ pad2 (datetime.month d) +:+ "."
  +:+ pretty (datetime.year d).

(** [DateLine.__init__(self, date, text=None)] *)
Definition DateLine___init__ (date : datetime.date) (text : option string) : Line :=
  match text with
  | Some t => DateLine date t
  | None => DateLine date (unicode_strftime date)
  end.

Definition line_date (l : Line) : option datetime.date :=
  match l with DateLine d _ => Some d | _ => None end.

(** *** [EntriesCollection] *)

(** [l.insert(i, x)] for [i >= 0]; past the end it appends. *)
Definition list_insert_at {A} (i : nat) (x : A) (l : list A) : list A :=
  take i l ++ x :: drop i l.

(** [l[:k]], where a negative [k] counts from the end. *)
Definition slice_to {A} (k : Z) (l : list A) : list A :=
  if (k <? 0)%Z then take (Z.to_nat (Z.of_nat (length l) + k)) l
  else take (Z.to_nat k) l.

(** [isinstance(line, DateLine) and line.date == date] *)
Definition is_date_line_of (date : datetime.date) (l : Line) : bool :=
  is_DateLine l && bool_decide (line_date l = Some date).

(** The loop of [add_entry] from line number [lineno] on, with the local
    variables [in_date] and [insert_at]; the result is the final
    [insert_at]. *)
Fixpoint add_entry_scan (h : list Line) (date : datetime.date) (ls : list loc)
    (lineno : nat) (in_date : bool) (insert_at : option nat) : option nat :=
  match ls with
  | [] => insert_at
  | l :: rest =>
      let line := deref h l in
      if is_date_line_of date line then
        add_entry_scan h date rest (S lineno) true (Some lineno)
      else if in_date then
        if is_EntryLine line then
          add_entry_scan h date rest (S lineno) in_date (Some lineno)
        else if is_DateLine line then insert_at
        else add_entry_scan h date rest (S lineno) in_date insert_at
      else add_entry_scan h date rest (S lineno) in_date insert_at
  end.

(** [entry.<name> = value] on the entry [entry], with its effect on the
    bound line. *)
Definition entry_setattr (entry : TimesheetEntry) (a : TimesheetEntry_assign)
    : M TimesheetEntry := fun s =>
  let '(h, entry') := TimesheetEntry___setattr__ (heap s) entry a in
  Some (set_heap h s, Ok entry').

(** [add_entry(self, date, entry)], with the entry as the call leaves it.
    The body assigns [entry.line] before it inserts the line, so the entry
    is bound to the new line also when the insertion raises.  The entry is
    an object of the caller: it comes back with what the call did, [Ok tt]
    when it returned and [Raise e] when it raised [e], and the caller goes
    on from there. *)
Definition add_entry_call (date : datetime.date) (entry : TimesheetEntry)
    : M (TimesheetEntry * result unit) :=
  synchronized_ (entry, Ok tt)
    (ls ← get lines;
     h ← get heap;
     let insert_at := add_entry_scan h date ls 0 false None in
     new ← new_line (EntryLine_ (EntryLine___init__ (alias entry)
                       (duration entry) (description entry) None));
     entry ← entry_setattr entry (set_e_line (Some new));
     match insert_at with
     | None =>
         mret (entry,
               Raise (TypeError "unsupported operand type(s) for +: 'NoneType' and 'int'"))
     | Some insert_at =>
         modify (fun s => set_lines (list_insert_at (insert_at + 1) new (lines s)) s);;
         ls ← get lines;
         h ← get heap;
         match ls !! insert_at with
         | None => mret (entry, Raise (IndexError "list index out of range"))
         | Some l0 =>
             if negb (is_EntryLine (deref h l0)) then
               blank ← new_line (TextLine "");
               modify (fun s =>
                 set_lines (list_insert_at (insert_at + 1) blank (lines s)) s);;
               mret (entry, Ok tt)
             else mret (entry, Ok tt)
         end
     end).

(** [add_entry(self, date, entry)] as a call that returns the entry or
    raises. *)
Definition add_entry (date : datetime.date) (entry : TimesheetEntry)
    : M TimesheetEntry :=
  '(entry, r) ← add_entry_call date entry;
  lift r;;
  mret entry.

(** [isinstance(line, TextLine) and not line.text.strip()] *)
Definition is_blank (l : Line) : result bool :=
  if is_TextLine l then
    match text l with
    | Some t => Ok (Nat.eqb (String.length (Py.strip t)) 0)
    | None => Raise (AttributeError "'NoneType' object has no attribute 'strip'")
    end
  else Ok false.

(** One of the two loops of [trim]: the number of the last line of the
    leading run of blank lines of [ls], counting from [lineno]. *)
Fixpoint trim_scan (h : list Line) (ls : list loc) (lineno : nat)
    (found : option nat) : result (option nat) :=
  match ls with
  | [] => Ok found
  | l :: rest =>
      b ← is_blank (deref h l);
      if b : bool then trim_scan h rest (S lineno) (Some lineno)
      else Ok found
  end.

(** [trim(self)] *)
Definition trim : M unit :=
  ls ← get lines;
  h ← get heap;
  trim_top ← lift (trim_scan h ls 0 None);
  trim_bottom ← lift (trim_scan h (reverse ls) 0 None);
  match trim_top with
  | Some t => modify (fun s => set_lines (drop (t + 1) (lines s)) s)
  | None => mret tt
  end;;
  match trim_bottom with
  | Some b =>
      modify (fun s =>
        let trim_bottom := (Z.of_nat (length (lines s)) - Z.of_nat b - 1)%Z in
        set_lines (slice_to trim_bottom (lines s)) s)
  | None => mret tt
  end.

(** [delete_entries(self, entries)]: [line not in lines_to_delete] compares
    objects, that is addresses. *)
Definition delete_entries (entries : list TimesheetEntry) : M unit :=
  synchronized_ tt
    (let lines_to_delete := map line entries in
     modify (fun s =>
       set_lines
         (List.filter
            (fun l => negb (is_EntryLine (deref (heap s) l))
                      || negb (bool_decide (Some l ∈ lines_to_delete)))
            (lines s)) s);;
     trim).

(** [delete_entry(self, entry)] *)
Definition delete_entry (entry : TimesheetEntry) : M unit :=
  delete_entries [entry].

(** [delete_date(self, date)] *)
Definition delete_date (date : datetime.date) : M unit :=
  synchronized_ tt
    (modify (fun s =>
       set_lines
         (List.filter
            (fun l => negb (is_DateLine (deref (heap s) l))
                      || negb (bool_decide (line_date (deref (heap s) l) = Some date)))
            (lines s)) s);;
     trim).

(** [add_date(self, date)] *)
Definition add_date (date : datetime.date) : M unit :=
  synchronized_ tt
    (bottom ← get add_date_to_bottom;
     if bottom : bool then
       l ← new_line (DateLine___init__ date None);
       modify (fun s => set_lines (lines s ++ [l]) s)
     else
       b ← new_line (TextLine "");
       modify (fun s => set_lines (list_insert_at 0 b (lines s)) s);;
       l ← new_line (DateLine___init__ date None);
       modify (fun s => set_lines (list_insert_at 0 l (lines s)) s)).

(** [__missing__(self, key)]; the list it returns is the one now stored
    under [key]. *)
Definition __missing__ (key : datetime.date) : M unit :=
  modify (fun s => set_dict (<[key := mk_EntriesList true key []]> (dict s)) s);;
  b ← get synchronized;
  if b : bool then add_date key else mret tt.

(** [self[key]] of a [defaultdict]. *)
Definition __getitem__ (key : datetime.date) : M unit :=
  d ← get dict;
  match d !! key with
  | Some _ => mret tt
  | None => __missing__ key
  end.

Definition entries_of (key : datetime.date) (self : EntriesCollection)
    : list TimesheetEntry :=
  match dict self !! key with
  | Some l => items l
  | None => []
  end.

(** [EntriesCollection.__delitem__(self, key)] *)
Definition EntriesCollection___delitem__ (key : datetime.date) : M unit :=
  b ← get synchronized;
  (if b : bool then
     __getitem__ key;;
     entries ← get (entries_of key);
     delete_entries entries;;
     delete_date key
   else mret tt);;
  d ← get dict;
  match d !! key with
  | Some _ => modify (fun s => set_dict (delete key (dict s)) s)
  | None => raise (KeyError "key")
  end.

(** *** [EntriesList]

    The list object a method is called on is the one stored under [key] in
    the dictionary of the collection. *)

Definition set_items (its : list TimesheetEntry) (self : EntriesList) : EntriesList :=
  mk_EntriesList (entries_collection self) (el_date self) its.

Definition the_list (key : datetime.date) : M EntriesList :=
  d ← get dict;
  match d !! key with
  | Some self => mret self
  | None => raise (KeyError "key")
  end.

Definition put_items (key : datetime.date) (its : list TimesheetEntry) : M unit :=
  modify (fun s => set_dict (alter (set_items its) key (dict s)) s).

Definition is_tuple (d : Duration) : bool :=
  match d with Range _ _ => true | Hours _ => false end.

(** [self[-2]] of a list of at least two items. *)
Definition item_m2 (its : list TimesheetEntry) : option TimesheetEntry :=
  its !! (length its - 2).

(** The range chaining of [append]: the condition and the new duration. *)
Definition chained (its : list TimesheetEntry) (x : TimesheetEntry)
    : option Duration :=
  if Nat.ltb 1 (length its) then
    match duration x, item_m2 its with
    | Range None stop, Some prev =>
        match duration prev with
        | Range _ prev_stop => Some (Range prev_stop stop)
        | Hours _ => None
        end
    | _, _ => None
    end
  else None.

(** [EntriesList.append(self, x)]; [x] is stored last in the list and every
    later assignment to it is seen there, that of [add_entry] also when
    [add_entry] raises. *)
Definition EntriesList_append (key : datetime.date) (x : TimesheetEntry)
    : M TimesheetEntry :=
  self ← the_list key;
  let its := items self ++ [x] in
  put_items key its;;
  x ← match chained its x with
      | Some d =>
          x ← entry_setattr x (set_e_duration d);
          put_items key (items self ++ [x]);;
          mret x
      | None => mret x
      end;
  if entries_collection self then
    '(x, r) ← add_entry_call (el_date self) x;
    put_items key (items self ++ [x]);;
    lift r;;
    mret x
  else mret x.

(** [self[key]] and [del self[key]] of a list, for an integer [key]. *)
Definition list_index {A} (l : list A) (key : Z) : option nat :=
  let i := (if (key <? 0)%Z then key + Z.of_nat (length l) else key)%Z in
  if ((0 <=? i) && (i <? Z.of_nat (length l)))%Z then Some (Z.to_nat i) else None.

(** [EntriesList.__delitem__(self, key)] *)
Definition EntriesList___delitem__ (d : datetime.date) (key : Z) : M unit :=
  self ← the_list d;
  match list_index (items self) key with
  | None => raise (IndexError "list index out of range")
  | Some i =>
      match items self !! i with
      | None => raise (IndexError "list index out of range")
      | Some entry =>
          (if entries_collection self then delete_entry entry else mret tt);;
          let its := delete i (items self) in
          put_items d its;;
          if Nat.eqb (length its) 0 && entries_collection self then
            delete_date (el_date self)
          else mret tt
      end
  end.

(** *** Bulk load *)

Fixpoint new_lines (xs : list Line) : M (list loc) :=
  match xs with
  | [] => mret []
  | x :: xs' =>
      l ← new_line x;
      ls ← new_lines xs';
      mret (l :: ls)
  end.

(** The loop of [init_from_str]: [for line in self.lines] reads the list
    by position, so lines inserted while it runs are visited too.  [i] is
    the position reached. *)
Fixpoint init_from_str_loop (fuel : nat) (i : nat)
    (current_date : option datetime.date) : M unit :=
  match fuel with
  | O => fun _ => None
  | S fuel' =>
      ls ← get lines;
      match ls !! i with
      | None => mret tt
      | Some l =>
          h ← get heap;
          match deref h l with
          | DateLine d _ => init_from_str_loop fuel' (S i) (Some d)
          | EntryLine_ e =>
              let timesheet_entry :=
                TimesheetEntry___init__ (el_alias e) (el_duration e)
                  (el_description e) in
              timesheet_entry ← entry_setattr timesheet_entry (set_e_line (Some l));
              match current_date with
              | None =>
                  raise (UnboundLocalError
                    "local variable 'current_date' referenced before assignment")
              | Some cd =>
                  __getitem__ cd;;
                  EntriesList_append cd timesheet_entry;;
                  init_from_str_loop fuel' (S i) current_date
              end
          | TextLine _ => init_from_str_loop fuel' (S i) current_date
          end
      end
  end.

(** [init_from_str(self, entries)] *)
Definition init_from_str (today_year : Z) (fuel : nat) (entries : string) : M unit :=
  parsed ← lift (TimesheetParser.parse today_year entries);
  ls ← new_lines parsed;
  modify (set_lines ls);;
  init_from_str_loop fuel 0 None.

Definition truthy (entries : option string) : bool :=
  match entries with
  | Some (String _ _) => true
  | _ => false
  end.

(** The object as [__init__] finds it. *)
Definition EntriesCollection_blank : EntriesCollection :=
  mk_EntriesCollection [] ∅ [] true false.

(** [EntriesCollection.__init__(self, entries=None)]: the collection as the
    constructor leaves it, and whether it returned or raised. *)
Definition EntriesCollection___init__ (today_year : Z) (fuel : nat)
    (entries : option string) : option (EntriesCollection * result unit) :=
  (modify (set_lines []);;
   modify (set_synchronized true);;
   (if truthy entries then
      modify (set_synchronized false);;
      try_finally (init_from_str today_year fuel (default "" entries))
        (modify (set_synchronized true))
    else mret tt)) EntriesCollection_blank.

(** Modelled from the spec: the function that writes the document back is
    not among the sources.  Serializing is "joining the texts of the
    resulting Document's lines with newlines"; a line without text cannot be
    joined. *)
Definition serialize (self : EntriesCollection) : option string :=
  texts ← mapM text (document self);
  Some (Py.join (String Py.LF "") texts).

(** ** Notions used to state the properties *)

(** What [datetime.time] guarantees of its fields. *)
Definition valid_time (t : datetime.time) : Prop :=
  (0 <= datetime.hour t <= 23)%Z /\ (0 <= datetime.minute t <= 59)%Z.


(** [datetime.time(h, m)] for valid [h] and [m]. *)
Definition at_ (h m : Z) : datetime.time := datetime.mk_time h m 0 0.

(** The minute of the day a time falls in. *)
Definition minute_of_day (t : datetime.time) : Z :=
  (60 * datetime.hour t + datetime.minute t)%Z.

(** The language of a pattern, with the groups it sets: [matches r p g g']
    holds when [r] can read exactly the text [p], taking the groups from [g]
    to [g'].  It says which matches exist, not which one [re.match] picks. *)
Module ReSem.
Import Re.

Inductive matches : regex -> string -> groups -> groups -> Prop :=
| m_digit c g :
    Py.isdigit c = true -> matches Digit (String c EmptyString) g g
| m_nondigit c g :
    Py.isdigit c = false -> matches NonDigit (String c EmptyString) g g
| m_char c g :
    matches (Char c) (String c EmptyString) g g
| m_seq r1 r2 p1 p2 g g1 g2 :
    matches r1 p1 g g1 -> matches r2 p2 g1 g2 ->
    matches (Seq r1 r2) (p1 +:+ p2) g g2
| m_alt_l r1 r2 p g g' :
    matches r1 p g g' -> matches (Alt r1 r2) p g g'
| m_alt_r r1 r2 p g g' :
    matches r2 p g g' -> matches (Alt r1 r2) p g g'
| m_opt_some r p g g' :
    matches r p g g' -> matches (Opt r) p g g'
| m_opt_none r g :
    matches (Opt r) EmptyString g g
| m_rep_stop r hi g :
    matches (Rep r 0 hi) EmptyString g g
| m_rep_step r lo hi p1 p2 g g1 g2 :
    matches r p1 g g1 -> matches (Rep r (Nat.pred lo) hi) p2 g1 g2 ->
    matches (Rep r lo (S hi)) (p1 +:+ p2) g g2
| m_group n r p g g' :
    matches r p g g' -> matches (Group n r) p g (<[n := p]> g').

(** The pattern of a time of day, [(\d{1,2}):?(\d{1,2})], with its groups
    numbered [n1] and [n2]. *)
Definition hm (n1 n2 : nat) : regex :=
  Seq (Group n1 (Rep Digit 1 2)) (Seq (Opt (Char ":")) (Group n2 (Rep Digit 1 2))).

(** A text of digits. *)
Fixpoint digits (s : string) : Prop :=
  match s with
  | String c s' => Py.isdigit c = true /\ digits s'
  | EmptyString => True
  end.

End ReSem.

(** A line that [trim] takes for blank, one it does not, and one that has a
    text to look at. *)
Definition blank_at (h : list Line) (l : loc) : Prop :=
  is_blank (deref h l) = Ok true.

Definition not_blank_at (h : list Line) (l : loc) : Prop :=
  is_blank (deref h l) = Ok false.

Definition has_text (h : list Line) (l : loc) : Prop :=
  is_Some (text (deref h l)).

(** Example documents. *)

(** A comment line, a date line and a blank line. *)
Definition commented_document : EntriesCollection :=
  mk_EntriesCollection
    [TextLine "# c"; DateLine (datetime.mk_date 2010 1 1) "01.01.2010"; TextLine ""]
    ∅ [0; 1; 2] true false.

(** Two blank lines, a date with two entries a blank line apart, and a blank
    line at the end. *)
Definition blank_edged_document : EntriesCollection :=
  mk_EntriesCollection
    [TextLine ""; TextLine "";
     DateLine (datetime.mk_date 2010 1 1) "01.01.2010";
     EntryLine_ (EntryLine___init__ "foo" (Hours (Py.Finite 1)) "bar" (Some "foo 1 bar"));
     TextLine "";
     EntryLine_ (EntryLine___init__ "baz" (Hours (Py.Finite 2)) "qux" (Some "baz 2 qux"));
     TextLine ""]
    ∅ [0; 1; 2; 3; 4; 5; 6] true false.

(** A date, a blank line and one entry. *)
Definition one_entry_text : string :=
  "01.01.2010" +:+ String Py.LF "" +:+ String Py.LF "" +:+ "foo 1 bar".

(** The collection that the bulk load of [one_entry_text] builds. *)
Definition one_entry_collection : EntriesCollection :=
  mk_EntriesCollection
    [DateLine (datetime.mk_date 2010 1 1) "01.01.2010"; TextLine "";
     EntryLine_ (EntryLine___init__ "foo" (Hours (Py.Finite 1)) "bar"
                   (Some "foo 1 bar"))]
    {[ datetime.mk_date 2010 1 1 :=
         mk_EntriesList true (datetime.mk_date 2010 1 1)
           [mk_TimesheetEntry (Some 2) false false "foo" "bar" (Hours (Py.Finite 1))] ]}
    [0; 1; 2] true false.

(** A method that leaves the [synchronized] flag as it found it, whether it
    returns or raises. *)
Definition keeps_flag {A} (m : M A) : Prop :=
  forall s s' r, m s = Some (s', r) -> synchronized s' = synchronized s.

(** A list of lines in which every entry line comes after a date line,
    [current_date] telling whether one came before the list. *)
Fixpoint dated (current_date : bool) (ls : list Line) : Prop :=
  match ls with
  | [] => True
  | DateLine _ _ :: rest => dated true rest
  | EntryLine_ _ :: rest => current_date = true /\ dated current_date rest
  | TextLine _ :: rest => dated current_date rest
  end.

(** An entry line whose range has no start, the kind [append] may chain to
    the entry before it. *)
Definition open_start (l : Line) : bool :=
  match l with
  | EntryLine_ e =>
      match el_duration e with
      | Range None _ => true
      | _ => false
      end
  | _ => false
  end.

(** What the bulk load may do to a line object: nothing, or clear the text
    of an entry line whose range has no start. *)
Definition evolved (x y : Line) : Prop :=
  y = x \/ (open_start x = true /\ is_EntryLine y = true /\ text y = None).

(** A date with one entry, and the same date once more. *)
Definition twice_dated_text : string :=
  "01.01.2010" +:+ String Py.LF "" +:+ "foo 1 bar" +:+ String Py.LF ""
  +:+ "01.01.2010".

(** A date and an indented entry, and the same without the indentation. *)
Definition indented_text : string :=
  "01.01.2010" +:+ String Py.LF "" +:+ "  foo 1 bar".

Definition unindented_text : string :=
  "01.01.2010" +:+ String Py.LF "" +:+ "foo 1 bar".

(** ** The text an entry line generates ([EntryLine.generate_text]) *)

(** [t.strftime('%H:%M')] *)
Definition strftime_HM (t : datetime.time) : string :=
  pad2 (datetime.hour t) +:+ ":" +:+ pad2 (datetime.minute t).

Section GenerateText.

(** The text Python writes for a float under [%s]; it is not part of the
    sources, so it is left open. *)
Variable float_text : Py.pyfloat -> string.

(** The local variable [duration] of [generate_text]. *)
Definition duration_text (d : Duration) : string :=
  match d with
  | Range start stop =>
      let start :=
        match start with Some t => strftime_HM t | None => "" end in
      let end_ :=
        match stop with Some t => strftime_HM t | None => "?" end in
      start +:+ "-" +:+ end_
  | Hours h => float_text h
  end.

(** [generate_text(self)] *)
Definition generate_text (self : EntryLine) : string :=
  let duration := duration_text (el_duration self) in
  let commented_prefix := if el_commented self then "# " else "" in
  let alias :=
    if el_ignored self then el_alias self +:+ "?" else el_alias self in
  commented_prefix +:+ alias +:+ " " +:+ duration +:+ " " +:+ el_description self.

End GenerateText.

(** ** Notions used to state further properties *)

(** What [datetime.date] guarantees of its fields. *)
Definition valid_date (d : datetime.date) : Prop :=
  (1 <= datetime.year d <= 9999)%Z
  /\ (1 <= datetime.month d <= 12)%Z
  /\ (1 <= datetime.day d <= datetime.days_in_month (datetime.year d) (datetime.month d))%Z.

(** A line the parser takes for blank or for a comment, once stripped. *)
Definition blank_or_comment (line : string) : bool :=
  Nat.eqb (String.length (Py.strip line)) 0
  || TimesheetParser.starts_with_hash (Py.strip line).

(** A time as [parse_time] builds it: on the clock, without seconds. *)
Definition whole_minute (t : datetime.time) : Prop :=
  valid_time t /\ datetime.second t = 0%Z /\ datetime.microsecond t = 0%Z.

(** A range whose times are such times. *)
Definition clock_range (d : Duration) : Prop :=
  match d with
  | Range start stop =>
      forall t, start = Some t \/ stop = Some t -> whole_minute t
  | Hours _ => False
  end.

(** A text without whitespace. *)
Fixpoint no_space (s : string) : bool :=
  match s with
  | String c s' => negb (Py.isspace c) && no_space s'
  | EmptyString => true
  end.

(** What the line of an entry shows after [entry.<name> = value]: the value
    under the same name, the alias through the [alias] property. *)
Definition line_shows (e : EntryLine) (a : TimesheetEntry_assign) : Prop :=
  match a with
  | set_e_line _ => True
  | set_e_ignored v => el_ignored e = v
  | set_e_commented v => el_commented e = v
  | set_e_alias v => el_alias e = remove_char "?" v
  | set_e_description v => el_description e = v
  | set_e_duration v => el_duration e = v
  end.

(** The attributes of an entry line that [entry.<name> = value] does not
    name stay as they are. *)
Definition line_keeps (e e' : EntryLine) (a : TimesheetEntry_assign) : Prop :=
  ((forall v, a <> set_e_ignored v) -> el_ignored e' = el_ignored e)
  /\ ((forall v, a <> set_e_commented v) -> el_commented e' = el_commented e)
  /\ ((forall v, a <> set_e_alias v) -> _alias e' = _alias e)
  /\ ((forall v, a <> set_e_description v) -> el_description e' = el_description e)
  /\ ((forall v, a <> set_e_duration v) -> el_duration e' = el_duration e).

(** ** Notions for the methods of the collection *)

(** A method that leaves a part [f] of the collection as it found it,
    whether it returns or raises. *)
Definition leaves {B} (f : EntriesCollection -> B) {A} (m : M A) : Prop :=
  forall s s' r, m s = Some (s', r) -> f s' = f s.

(** The same of a call made while the collection is not synchronized, which
    it still is not afterwards. *)
Definition unsynchronized_leaves {B} (f : EntriesCollection -> B) {A}
    (m : M A) : Prop :=
  forall s s' r,
    synchronized s = false -> m s = Some (s', r) ->
    synchronized s' = false /\ f s' = f s.

(** The methods of the collection and of its lists, with their arguments;
    [init_from_str] with the current year and the fuel of its loop. *)
Inductive method : forall A, M A -> Prop :=
| method_add_entry date entry : method _ (add_entry date entry)
| method_delete_entry entry : method _ (delete_entry entry)
| method_delete_entries entries : method _ (delete_entries entries)
| method_delete_date date : method _ (delete_date date)
| method_trim : method _ trim
| method_add_date date : method _ (add_date date)
| method___missing__ key : method _ (__missing__ key)
| method___getitem__ key : method _ (__getitem__ key)
| method___delitem__ key : method _ (EntriesCollection___delitem__ key)
| method_append key x : method _ (EntriesList_append key x)
| method_list___delitem__ date key : method _ (EntriesList___delitem__ date key)
| method_init_from_str today_year fuel entries :
    method _ (init_from_str today_year fuel entries).

(** The methods that change the document only through a method under the
    [synchronized] decorator.  [mirrors] tells whether the method assigns to
    an entry, which shows in the line the entry is bound to. *)
Inductive guarded : bool -> forall A, M A -> Prop :=
| guarded_add_entry date entry : guarded false _ (add_entry date entry)
| guarded_delete_entry entry : guarded false _ (delete_entry entry)
| guarded_delete_entries entries : guarded false _ (delete_entries entries)
| guarded_delete_date date : guarded false _ (delete_date date)
| guarded_add_date date : guarded false _ (add_date date)
| guarded___missing__ key : guarded false _ (__missing__ key)
| guarded___getitem__ key : guarded false _ (__getitem__ key)
| guarded___delitem__ key : guarded false _ (EntriesCollection___delitem__ key)
| guarded_append key x : guarded true _ (EntriesList_append key x)
| guarded_list___delitem__ date key :
    guarded false _ (EntriesList___delitem__ date key).

(** ** Notions for the entries of a loaded document *)

(** The entry that stands for the entry line [e] at address [l]: bound to
    it, with its alias, description and duration. *)
Definition entry_of_line (l : loc) (e : EntryLine) : TimesheetEntry :=
  mk_TimesheetEntry (Some l) false false (el_alias e) (el_description e)
    (el_duration e).

(** The date of the last date line of [ls], or [cd] when it has none. *)
Fixpoint date_after (h : list Line) (cd : option datetime.date)
    (ls : list loc) : option datetime.date :=
  match ls with
  | [] => cd
  | l :: rest =>
      date_after h (match deref h l with DateLine d _ => Some d | _ => cd end)
        rest
  end.

(** The entry lines of [ls] that stand under a date line of [key], as
    entries, in their order; [cd] is the date of the last date line before
    [ls]. *)
Fixpoint entries_under (h : list Line) (key : datetime.date)
    (cd : option datetime.date) (ls : list loc) : list TimesheetEntry :=
  match ls with
  | [] => []
  | l :: rest =>
      match deref h l with
      | DateLine d _ => entries_under h key (Some d) rest
      | EntryLine_ e =>
          if bool_decide (cd = Some key)
          then entry_of_line l e :: entries_under h key cd rest
          else entries_under h key cd rest
      | TextLine _ => entries_under h key cd rest
      end
  end.

(** * Properties *)

(** ** The duration grammar on the documented cases *)

Module ParseTimeCases.
Import TimesheetParser.

(** C2: [parse_time] maps the literal cases of its documentation as
    written there: ["1.75"] to 1.75, ["3"] to 3.0, ["0900"] to the number
    900.0, ["0900-1015"] and ["09:00-10:15"] to (09:00, 10:15), ["09:00-?"]
    to (09:00, None), ["-10:15"] to (None, 10:15), and it raises
    [ParseError] on ["foo"], ["-2500"] (hour), ["-1061"] (minute) and
    ["-"]. *)
Theorem parse_time_literal_cases :
  parse_time "1.75" = Ok (Hours (Py.Finite (7 # 4)))
  /\ parse_time "3" = Ok (Hours (Py.Finite (3 # 1)))
  /\ parse_time "0900" = Ok (Hours (Py.Finite (900 # 1)))
  /\ parse_time "0900-1015" = Ok (Range (Some (at_ 9 0)) (Some (at_ 10 15)))
  /\ parse_time "09:00-10:15" = Ok (Range (Some (at_ 9 0)) (Some (at_ 10 15)))
  /\ parse_time "09:00-?" = Ok (Range (Some (at_ 9 0)) None)
  /\ parse_time "-10:15" = Ok (Range None (Some (at_ 10 15)))
  /\ parse_time "foo"
     = Raise (ParseError "The duration must be a float number or a HH:mm string")
  /\ parse_time "-2500" = Raise (ParseError "hour must be in 0..23")
  /\ parse_time "-1061" = Raise (ParseError "minute must be in 0..59")
  /\ parse_time "-"
     = Raise (ParseError "The duration must be a float number or a HH:mm string").
Proof. repeat split; vm_compute; reflexivity. Qed.

End ParseTimeCases.

(** ** The cached text of an entry line *)

Section EntryLineCache.

Lemma parse_entry_line_text (line : string) (l : Line) :
  TimesheetParser._parse_entry_line line = Ok l -> text l = Some line.
Proof.
  unfold TimesheetParser._parse_entry_line.
  destruct (Py.split line 2) as [|a [|tok [|desc [|]]]]; try discriminate.
  destruct (TimesheetParser.parse_time tok); simpl; try discriminate.
  intros [= <-]. reflexivity.
Qed.

(** C6: assigning any attribute of an entry line other than [_text]
    (among them alias, duration, description, commented and ignored) leaves
    the cached text cleared, assigning [_text] stores the text, and a line
    as the parser built it carries its original text. *)
Theorem EntryLine_setattr_clears_text (self : EntryLine) (a : EntryLine_assign) :
  attr_name a <> "_text" ->
  el_text (EntryLine___setattr__ self a) = None
  /\ (forall v, el_text (EntryLine___setattr__ self (set_alias v)) = None)
  /\ (forall v, el_text (EntryLine___setattr__ self (set_duration v)) = None)
  /\ (forall v, el_text (EntryLine___setattr__ self (set_description v)) = None)
  /\ (forall v, el_text (EntryLine___setattr__ self (set_commented v)) = None)
  /\ (forall v, el_text (EntryLine___setattr__ self (set_ignored v)) = None)
  /\ (forall v, el_text (EntryLine___setattr__ self (set__text v)) = v)
  /\ (forall line l,
        TimesheetParser._parse_entry_line line = Ok l -> text l = Some line).
Proof.
  intros Hname. split.
  - destruct a; try reflexivity. now contradiction Hname.
  - repeat split; try reflexivity. apply parse_entry_line_text.
Qed.

Lemma EntryLine_setattr_clears_text_witness :
  let self := EntryLine___init__ "foo" (Hours (Py.Finite 1)) "bar" (Some "foo 1 bar") in
  el_text self = Some "foo 1 bar"
  /\ el_text (EntryLine___setattr__ self (set_description "baz")) = None.
Proof.
  split; [reflexivity |].
  apply (EntryLine_setattr_clears_text _ (set_description "baz")).
  simpl. discriminate.
Defined.

End EntryLineCache.

(** ** The hours of a time range *)

Section Hours.
Local Open Scope Z_scope.

Lemma seconds_of_sub (now : datetime_) (h0 m0 h1 m1 : Z) :
  seconds (datetime_sub (replace_hms now h1 m1) (replace_hms now h0 m0))
  = ((60 * h1 + m1 - (60 * h0 + m0)) mod 1440) * 60.
Proof.
  unfold datetime_sub, to_microseconds, replace_hms; simpl.
  set (delta := 60 * h1 + m1 - (60 * h0 + m0)).
  replace ((((dt_ordinal now * 24 + h1) * 60 + m1) * 60 + 0) * 1000000
           + dt_microsecond now
           - ((((dt_ordinal now * 24 + h0) * 60 + m0) * 60 + 0) * 1000000
              + dt_microsecond now))
    with ((delta * 60) * 1000000) by (unfold delta; ring).
  change 86400000000 with (86400 * 1000000).
  rewrite Z.mul_mod_distr_r by lia.
  rewrite Z.div_mul by lia.
  change 86400 with (1440 * 60).
  rewrite Z.mul_mod_distr_r by lia.
  reflexivity.
Qed.




End Hours.

(** ** The matcher finds only matches of the pattern *)

Module ReFacts.
Import Re ReSem.

Lemma append_cons (c : ascii) (a b : string) :
  String c a +:+ b = String c (a +:+ b).
Proof. reflexivity. Qed.

Lemma append_nil_l (b : string) : "" +:+ b = b.
Proof. reflexivity. Qed.

Lemma append_assoc (a b c : string) : (a +:+ b) +:+ c = a +:+ (b +:+ c).
Proof.
  induction a as [|x a IH]; [reflexivity |].
  rewrite !append_cons. f_equal. exact IH.
Qed.

Lemma append_nil_r (a : string) : a +:+ "" = a.
Proof.
  induction a as [|x a IH]; [reflexivity |].
  rewrite append_cons. f_equal. exact IH.
Qed.

Lemma length_append (a b : string) :
  String.length (a +:+ b) = String.length a + String.length b.
Proof.
  induction a as [|x a IH]; [reflexivity |].
  rewrite append_cons. simpl. f_equal. exact IH.
Qed.

Lemma string_take_append (p s : string) :
  string_take (String.length p) (p +:+ s) = p.
Proof.
  induction p as [|x p IH]; [now destruct s |].
  rewrite append_cons. simpl. f_equal. exact IH.
Qed.

Create Rewrite HintDb str.
#[export] Hint Rewrite append_cons append_nil_l append_nil_r append_assoc : str.

Lemma consumed_append (p s : string) : consumed (p +:+ s) s = p.
Proof.
  unfold consumed. rewrite length_append.
  replace (String.length p + String.length s - String.length s)
    with (String.length p) by lia.
  apply string_take_append.
Qed.

(** Soundness of the matcher: an answer of [rmatch] is the answer of the
    continuation after some match of the pattern on a prefix of the text. *)
Lemma rmatch_sound {A} (r : regex) :
  forall (s : string) (g : groups) (k : string -> groups -> option A) (x : A),
    rmatch r s g k = Some x ->
    exists p s' g', s = p +:+ s' /\ matches r p g g' /\ k s' g' = Some x.
Proof.
  induction r as [ | | a | r1 IH1 r2 IH2 | r1 IH1 r2 IH2 | r1 IH1
                 | r1 IH1 lo hi | n r1 IH1 ]; intros s g k x H; simpl in H.
  - destruct s as [|c s]; [discriminate |].
    destruct (Py.isdigit c) eqn:E; [| discriminate].
    exists (String c ""), s, g. repeat split; auto. now constructor.
  - destruct s as [|c s]; [discriminate |].
    destruct (Py.isdigit c) eqn:E; [discriminate |].
    exists (String c ""), s, g. repeat split; auto. now constructor.
  - destruct s as [|c s]; [discriminate |].
    destruct (Ascii.eqb c a) eqn:E; [| discriminate].
    apply Ascii.eqb_eq in E. subst c.
    exists (String a ""), s, g. repeat split; auto. constructor.
  - apply IH1 in H as (p1 & s1 & g1 & -> & M1 & H).
    apply IH2 in H as (p2 & s2 & g2 & -> & M2 & H).
    exists (p1 +:+ p2), s2, g2. rewrite append_assoc.
    repeat split; auto. econstructor; eauto.
  - destruct (rmatch r1 s g k) eqn:E.
    + injection H as ->. apply IH1 in E as (p & s' & g' & -> & M & E).
      exists p, s', g'. repeat split; auto. now apply m_alt_l.
    + apply IH2 in H as (p & s' & g' & -> & M & E').
      exists p, s', g'. repeat split; auto. now apply m_alt_r.
  - destruct (rmatch r1 s g k) eqn:E.
    + injection H as ->. apply IH1 in E as (p & s' & g' & -> & M & E).
      exists p, s', g'. repeat split; auto. now apply m_opt_some.
    + exists "", s, g. repeat split; auto. apply m_opt_none.
  - revert lo s g H. induction hi as [|hi IHhi]; intros lo s g H.
    + destruct lo; [| discriminate].
      exists "", s, g. repeat split; auto. apply m_rep_stop.
    + match type of H with
      | match ?t with _ => _ end = _ => destruct t eqn:E
      end.
      * injection H as ->.
        apply IH1 in E as (p1 & s1 & g1 & -> & M1 & E).
        apply IHhi in E as (p2 & s2 & g2 & -> & M2 & E).
        exists (p1 +:+ p2), s2, g2. rewrite append_assoc.
        repeat split; auto. econstructor; eauto.
      * destruct lo; [| discriminate].
        exists "", s, g. repeat split; auto. apply m_rep_stop.
  - apply IH1 in H as (p & s' & g' & -> & M & H).
    rewrite consumed_append in H.
    exists p, s', (<[n := p]> g'). repeat split; auto. now constructor.
Qed.

Lemma re_match_sound (r : regex) (s : string) (m : groups) :
  re_match r s = Some m ->
  exists p s', s = p +:+ s' /\ matches r p ∅ m.
Proof.
  unfold re_match. intros H.
  apply rmatch_sound in H as (p & s' & g' & -> & M & [= ->]).
  eauto.
Qed.

(** Inversion of a match of a pattern whose head is known. *)
Ltac inv_matches :=
  repeat match goal with
    | H : matches Digit _ _ _ |- _ => inversion H; subst; clear H
    | H : matches NonDigit _ _ _ |- _ => inversion H; subst; clear H
    | H : matches (Char _) _ _ _ |- _ => inversion H; subst; clear H
    | H : matches (Seq _ _) _ _ _ |- _ => inversion H; subst; clear H
    | H : matches (Alt _ _) _ _ _ |- _ => inversion H; subst; clear H
    | H : matches (Opt _) _ _ _ |- _ => inversion H; subst; clear H
    | H : matches (Group _ _) _ _ _ |- _ => inversion H; subst; clear H
    | H : matches (Rep _ _ _) _ _ _ |- _ =>
        inversion H; subst; clear H; simpl Nat.pred in *
    end.

Lemma digits_range_1_2 (p : string) (g g' : groups) :
  matches (Rep Digit 1 2) p g g' ->
  g' = g /\ digits p /\ (String.length p = 1 \/ String.length p = 2).
Proof. intros H. inv_matches; autorewrite with str; simpl; auto. Qed.

Lemma digits_exactly_4 (p : string) (g g' : groups) :
  matches (Rep Digit 4 4) p g g' -> g' = g /\ digits p /\ String.length p = 4.
Proof. intros H. inv_matches; autorewrite with str; simpl; auto 10. Qed.

Lemma digits_exactly_2 (p : string) (g g' : groups) :
  matches (Rep Digit 2 2) p g g' -> g' = g /\ digits p /\ String.length p = 2.
Proof. intros H. inv_matches; autorewrite with str; simpl; auto. Qed.

End ReFacts.

(** ** Which time ranges the duration grammar produces *)

Module ParseTimeRange.
Import Re ReSem ReFacts TimesheetParser.

Lemma time_re_hm :
  time_re = Seq (Opt (hm 1 2)) (Seq (Char "-") (Alt (hm 3 4) (Char "?"))).
Proof. reflexivity. Qed.

Lemma opt_colon_groups (p : string) (g g' : groups) :
  matches (Opt (Char ":")) p g g' -> g' = g.
Proof. intros H. inv_matches; reflexivity. Qed.

Lemma hm_groups (n1 n2 : nat) (p : string) (g g' : groups) :
  matches (hm n1 n2) p g g' ->
  exists a b, g' = <[n2 := b]> (<[n1 := a]> g) /\ digits a /\ digits b.
Proof.
  unfold hm. intros H.
  inversion H as [ | | | ? ? p1 p23 ? g1 ? H1 H23 | | | | | | | ]; subst; clear H.
  inversion H23 as [ | | | ? ? p2 p3 ? g2 ? H2 H3 | | | | | | | ]; subst; clear H23.
  inversion H1 as [ | | | | | | | | | | ? ? ? ? g1' H1' ]; subst; clear H1.
  inversion H3 as [ | | | | | | | | | | ? ? ? ? g3' H3' ]; subst; clear H3.
  apply digits_range_1_2 in H1' as (-> & D1 & _).
  apply opt_colon_groups in H2 as ->.
  apply digits_range_1_2 in H3' as (-> & D3 & _).
  eauto.
Qed.

(** The shapes of a match of the time pattern. *)
Lemma time_re_shapes (p : string) (m : groups) :
  matches time_re p ∅ m ->
  (exists a b, m !! 1 = Some a /\ m !! 2 = Some b)
  \/ (m !! 1 = None /\ m !! 2 = None
      /\ ((exists c d, m !! 3 = Some c /\ m !! 4 = Some d)
          \/ (m !! 3 = None /\ m !! 4 = None /\ p = "-?"))).
Proof.
  rewrite time_re_hm. intros H.
  inversion H as [ | | | ? ? p1 p2 ? g1 ? H1 H2 | | | | | | | ]; subst; clear H.
  inversion H2 as [ | | | ? ? p3 p4 ? g2 ? H3 H4 | | | | | | | ]; subst; clear H2.
  inversion H3; subst; clear H3.
  inversion H1; subst; clear H1.
  - match goal with H : matches (hm 1 2) _ _ _ |- _ =>
      apply hm_groups in H as (a & b & -> & _ & _) end.
    left. exists a, b.
    inversion H4; subst; clear H4.
    + match goal with H : matches (hm 3 4) _ _ _ |- _ =>
        apply hm_groups in H as (c & d & -> & _ & _) end.
      by simplify_map_eq.
    + match goal with H : matches (Char _) _ _ _ |- _ => inversion H; subst end.
      by simplify_map_eq.
  - right.
    inversion H4; subst; clear H4.
    + match goal with H : matches (hm 3 4) _ _ _ |- _ =>
        apply hm_groups in H as (c & d & -> & _ & _) end.
      repeat split; try by simplify_map_eq.
      left. exists c, d. by simplify_map_eq.
    + match goal with H : matches (Char _) _ _ _ |- _ => inversion H; subst end.
      repeat split; try by simplify_map_eq.
      right. repeat split; by simplify_map_eq.
Qed.

(** With a start, the result has a start. *)
Lemma with_start_not_unset (time : groups) (d : Duration) :
  reraise_ValueError
    (h ← Py.int_opt (group time 1);
     m ← Py.int_opt (group time 2);
     time_start ← datetime.time_ h m;
     time_end ← parse_time_end time;
     mret (Range (Some time_start) time_end)) = Ok d ->
  exists t e, d = Range (Some t) e.
Proof.
  destruct (Py.int_opt (group time 1)) as [h|[]]; simpl; try discriminate.
  destruct (Py.int_opt (group time 2)) as [m|[]]; simpl; try discriminate.
  destruct (datetime.time_ h m) as [t|[]]; simpl; try discriminate.
  destruct (parse_time_end time) as [e|[]]; simpl; try discriminate.
  intros [= <-]. eauto.
Qed.

(** With an end, the result has an end. *)
Lemma with_end_not_unset (time : groups) (c d : string) (e : option datetime.time) :
  group time 3 = Some c -> group time 4 = Some d ->
  parse_time_end time = Ok e -> exists t, e = Some t.
Proof.
  unfold parse_time_end. intros -> ->. simpl.
  destruct (Py.int c) as [h|]; simpl; try discriminate.
  destruct (Py.int d) as [m|]; simpl; try discriminate.
  destruct (datetime.time_ h m) as [t|]; simpl; try discriminate.
  intros [= <-]. eauto.
Qed.

Lemma float_branch_not_range (s : string) (d : Duration) :
  match Py.float s with
  | Ok total_hours => Ok (Hours total_hours)
  | Raise (ValueError _) =>
      Raise (ParseError "The duration must be a float number or a HH:mm string")
  | Raise e => Raise e
  end = Ok d -> exists h, d = Hours h.
Proof.
  destruct (Py.float s) as [h|[]]; try discriminate. intros [= <-]. eauto.
Qed.

(** A counterexample to C7: ["-?"] is accepted by the time-range branch and
    gives a range with neither end set. *)
Lemma parse_time_both_unset_example :
  parse_time "-?" = Ok (Range None None).
Proof. vm_compute. reflexivity. Qed.

(** C7, amended: the time-range branch gives a range with neither end set
    on exactly the tokens that begin with ["-?"]; every other range it
    produces has its start or its end. *)
Theorem parse_time_both_unset_iff (s : string) :
  parse_time s = Ok (Range None None) <-> exists rest, s = "-?" +:+ rest.
Proof.
  split.
  - unfold parse_time. destruct (re_match time_re s) as [m|] eqn:E.
    + apply re_match_sound in E as (p & s' & -> & M).
      apply time_re_shapes in M as [(a & b & Ha & Hb) | (H1 & H2 & M)].
      * unfold group at 1 2. rewrite Ha, Hb. simpl.
        intros H. apply with_start_not_unset in H as (t & e & H). discriminate.
      * unfold group at 1 2. rewrite H1, H2. simpl.
        destruct M as [(c & d & Hc & Hd) | (H3 & H4 & ->)].
        -- destruct (parse_time_end m) as [e|err] eqn:Ee; simpl.
           ++ destruct (with_end_not_unset m c d e Hc Hd Ee) as [t ->].
              discriminate.
           ++ destruct err; discriminate.
        -- intros _. exists s'. reflexivity.
    + intros H. apply float_branch_not_range in H as [h H]. discriminate.
  - intros [rest ->]. vm_compute. reflexivity.
Qed.

End ParseTimeRange.

(** ** The date grammar *)

Module ExtractDate.
Import Re ReSem ReFacts TimesheetParser.

Lemma isdigit_not_space (c : ascii) : Py.isdigit c = true -> Py.isspace c = false.
Proof.
  destruct c as [[] [] [] [] [] [] [] []]; vm_compute; congruence.
Qed.

Lemma isdigit_no_sign (c : ascii) (s : string) :
  Py.isdigit c = true -> Py.split_sign (String c s) = (false, String c s).
Proof.
  destruct c as [[] [] [] [] [] [] [] []]; vm_compute; congruence.
Qed.

Lemma rev_app_digits (s acc : string) :
  digits s -> digits acc -> digits (String.rev_app s acc).
Proof.
  revert acc. induction s as [|c s IH]; simpl; intros acc Hs Hacc; [exact Hacc |].
  destruct Hs as [Hc Hs]. apply IH; simpl; auto.
Qed.

Lemma rev_app_rev_app (s a b : string) :
  String.rev_app (String.rev_app s a) b = String.rev_app a (s +:+ b).
Proof.
  revert a b. induction s as [|c s IH]; intros a b; simpl.
  - revert b. induction a as [|x a IHa]; intros b; simpl; [reflexivity |].
    rewrite IHa. reflexivity.
  - rewrite IH. simpl. reflexivity.
Qed.

Lemma rev_rev (s : string) : String.rev (String.rev s) = s.
Proof.
  unfold String.rev. rewrite rev_app_rev_app. simpl. apply append_nil_r.
Qed.

Lemma lstrip_digits (s : string) : digits s -> Py.lstrip s = s.
Proof.
  destruct s as [|c s]; simpl; [reflexivity |].
  intros [Hc _]. now rewrite (isdigit_not_space c Hc).
Qed.

Lemma strip_digits (s : string) : digits s -> Py.strip s = s.
Proof.
  intros H. unfold Py.strip, Py.rstrip.
  rewrite (lstrip_digits s H).
  rewrite lstrip_digits; [apply rev_rev |].
  unfold String.rev. apply rev_app_digits; simpl; auto.
Qed.

Lemma span_digits_all (s : string) : digits s -> Py.span_digits s = (s, "").
Proof.
  induction s as [|c s IH]; simpl; [reflexivity |].
  intros [Hc Hs]. rewrite Hc, (IH Hs). reflexivity.
Qed.

(** [int] on a group of digits. *)
Lemma int_digits (s : string) :
  digits s -> 0 < String.length s -> Py.int s = Ok (Py.digits_val 0 s).
Proof.
  intros H Hlen. unfold Py.int. rewrite (strip_digits s H).
  destruct s as [|c s]; [simpl in Hlen; lia |].
  destruct H as [Hc Hs].
  rewrite (isdigit_no_sign c s Hc).
  unfold Py.all_digits. rewrite (span_digits_all (String c s)); simpl; auto.
Qed.

Lemma year_group (p : string) (g g' : groups) :
  matches (Alt (Rep Digit 4 4) (Rep Digit 2 2)) p g g' ->
  g' = g /\ digits p /\ (String.length p = 4 \/ String.length p = 2).
Proof.
  intros H. inversion H; subst; clear H.
  - match goal with H : matches _ _ _ _ |- _ =>
      apply digits_exactly_4 in H as (-> & D & L) end. auto.
  - match goal with H : matches _ _ _ _ |- _ =>
      apply digits_exactly_2 in H as (-> & D & L) end. auto.
Qed.

(** The groups of a match of the day/month/year pattern. *)
Lemma dmy_groups (p : string) (m : groups) :
  matches date_re_dmy p ∅ m ->
  exists d mo y,
    m = <[3 := y]> (<[2 := mo]> (<[1 := d]> ∅))
    /\ digits d /\ (String.length d = 1 \/ String.length d = 2)
    /\ digits mo /\ (String.length mo = 1 \/ String.length mo = 2)
    /\ digits y /\ (String.length y = 4 \/ String.length y = 2).
Proof.
  unfold date_re_dmy. intros H.
  inversion H as [ | | | ? ? p1 q1 ? g1 ? H1 K1 | | | | | | | ]; subst; clear H.
  inversion K1 as [ | | | ? ? p2 q2 ? g2 ? H2 K2 | | | | | | | ]; subst; clear K1.
  inversion K2 as [ | | | ? ? p3 q3 ? g3 ? H3 K3 | | | | | | | ]; subst; clear K2.
  inversion K3 as [ | | | ? ? p4 q4 ? g4 ? H4 K4 | | | | | | | ]; subst; clear K3.
  inversion H1 as [ | | | | | | | | | | ? ? ? ? ? H1' ]; subst; clear H1.
  inversion H3 as [ | | | | | | | | | | ? ? ? ? ? H3' ]; subst; clear H3.
  inversion K4 as [ | | | | | | | | | | ? ? ? ? ? K4' ]; subst; clear K4.
  inversion H2; subst; clear H2. inversion H4; subst; clear H4.
  apply digits_range_1_2 in H1' as (-> & D1 & L1).
  apply digits_range_1_2 in H3' as (-> & D3 & L3).
  apply year_group in K4' as (-> & D4 & L4).
  eauto 12.
Qed.

(** The groups of a match of the year/month/day pattern. *)
Lemma ymd_groups (p : string) (m : groups) :
  matches date_re_ymd p ∅ m ->
  exists y mo d,
    m = <[3 := d]> (<[2 := mo]> (<[1 := y]> ∅))
    /\ digits y /\ String.length y = 4
    /\ digits mo /\ (String.length mo = 1 \/ String.length mo = 2)
    /\ digits d /\ (String.length d = 1 \/ String.length d = 2).
Proof.
  unfold date_re_ymd. intros H.
  inversion H as [ | | | ? ? p1 q1 ? g1 ? H1 K1 | | | | | | | ]; subst; clear H.
  inversion K1 as [ | | | ? ? p2 q2 ? g2 ? H2 K2 | | | | | | | ]; subst; clear K1.
  inversion K2 as [ | | | ? ? p3 q3 ? g3 ? H3 K3 | | | | | | | ]; subst; clear K2.
  inversion K3 as [ | | | ? ? p4 q4 ? g4 ? H4 K4 | | | | | | | ]; subst; clear K3.
  inversion H1 as [ | | | | | | | | | | ? ? ? ? ? H1' ]; subst; clear H1.
  inversion H3 as [ | | | | | | | | | | ? ? ? ? ? H3' ]; subst; clear H3.
  inversion K4 as [ | | | | | | | | | | ? ? ? ? ? K4' ]; subst; clear K4.
  inversion H2; subst; clear H2. inversion H4; subst; clear H4.
  apply digits_exactly_4 in H1' as (-> & D1 & L1).
  apply digits_range_1_2 in H3' as (-> & D3 & L3).
  apply digits_range_1_2 in K4' as (-> & D4 & L4).
  eauto 12.
Qed.



(** The documented dates, the third one resolved in the year 2012. *)
Lemma extract_date_examples :
  extract_date 2012 "1.1.2010" = Ok (datetime.mk_date 2010 1 1)
  /\ extract_date 2012 "05/08/2012" = Ok (datetime.mk_date 2012 8 5)
  /\ extract_date 2012 "05/08/12" = Ok (datetime.mk_date 2012 8 5)
  /\ extract_date 2012 "2013/08/09" = Ok (datetime.mk_date 2013 8 9)
  /\ extract_date 2012 "05082012"
     = Raise (ValueError "No date could be extracted from the given value").
Proof. repeat split; vm_compute; reflexivity. Qed.

End ExtractDate.

(** ** Trimming the document *)

Section Trim.

Lemma is_blank_has_text (h : list Line) (l : loc) :
  has_text h l -> exists b, is_blank (deref h l) = Ok b.
Proof.
  unfold has_text, is_blank. intros [t Ht]. rewrite Ht. simpl. eauto.
Qed.

Lemma trim_scan_total (h : list Line) (ls : list loc) :
  Forall (has_text h) ls ->
  forall n found, exists r, trim_scan h ls n found = Ok r.
Proof.
  induction 1 as [|l ls Hl Hls IH]; intros n found; simpl; [eauto |].
  destruct (is_blank_has_text h l Hl) as [b ->]. simpl.
  destruct b; [apply IH | eauto].
Qed.

(** What a loop of [trim] found: the leading run of blank lines. *)
Lemma trim_scan_spec (h : list Line) (ls : list loc) :
  forall n found r,
    trim_scan h ls n found = Ok r ->
    exists top rest,
      ls = top ++ rest
      /\ Forall (blank_at h) top
      /\ (forall l, head rest = Some l -> not_blank_at h l)
      /\ r = match top with [] => found | _ :: _ => Some (n + length top - 1) end.
Proof.
  induction ls as [|l ls IH]; intros n found r H; simpl in H.
  - injection H as <-. exists [], []. repeat split; auto. intros l [=].
  - destruct (is_blank (deref h l)) as [[|]|e] eqn:E; simpl in H.
    + apply IH in H as (top & rest & -> & Htop & Hrest & ->).
      exists (l :: top), rest. repeat split; auto.
      destruct top; simpl; f_equal; lia.
    + injection H as <-. exists [], (l :: ls). repeat split; auto.
      intros l' [= <-]. exact E.
    + discriminate.
Qed.

Lemma trim_unfold (c : EntriesCollection) :
  trim c =
  match trim_scan (heap c) (lines c) 0 None with
  | Raise e => Some (c, Raise e)
  | Ok trim_top =>
      match trim_scan (heap c) (reverse (lines c)) 0 None with
      | Raise e => Some (c, Raise e)
      | Ok trim_bottom =>
          let c1 :=
            match trim_top with
            | Some t => set_lines (drop (t + 1) (lines c)) c
            | None => c
            end in
          let c2 :=
            match trim_bottom with
            | Some b =>
                set_lines
                  (slice_to (Z.of_nat (length (lines c1)) - Z.of_nat b - 1)
                     (lines c1)) c1
            | None => c1
            end in
          Some (c2, Ok tt)
      end
  end.
Proof.
  unfold trim, mbind, M_bind, get, lift, modify, mret, M_ret.
  destruct (trim_scan (heap c) (lines c) 0 None) as [[t|]|e]; simpl; auto;
    destruct (trim_scan (heap c) (reverse (lines c)) 0 None) as [[b|]|e'];
    simpl; auto.
Qed.

Lemma set_lines_same (c : EntriesCollection) : set_lines (lines c) c = c.
Proof. destruct c; reflexivity. Qed.

Lemma slice_to_app (mid bottom : list loc) (b : nat) :
  length bottom = S b ->
  slice_to (Z.of_nat (length (mid ++ bottom)) - Z.of_nat b - 1) (mid ++ bottom)
  = mid.
Proof.
  intros Hb. unfold slice_to. rewrite length_app, Hb.
  replace (Z.of_nat (length mid + S b) - Z.of_nat b - 1)%Z
    with (Z.of_nat (length mid)) by lia.
  destruct (Z.ltb_spec (Z.of_nat (length mid)) 0); [lia |].
  rewrite Nat2Z.id. apply take_app_length.
Qed.

Lemma slice_to_nil (k : Z) : slice_to k ([] : list loc) = [].
Proof. unfold slice_to. destruct (k <? 0)%Z; apply take_nil. Qed.

(** A counterexample to C9: [trim] removes the blank line at the end of
    [commented_document] and keeps the comment line it begins with. *)
Lemma trim_keeps_comment_example :
  document commented_document
  = [TextLine "# c"; DateLine (datetime.mk_date 2010 1 1) "01.01.2010"; TextLine ""]
  /\ exists c', trim commented_document = Some (c', Ok tt)
       /\ document c'
          = [TextLine "# c"; DateLine (datetime.mk_date 2010 1 1) "01.01.2010"].
Proof.
  split; [reflexivity |].
  eexists. split; [vm_compute; reflexivity | reflexivity].
Qed.

(** C9, amended: [trim] returns when every line has a text, and when it
    returns it has removed the longest run of blank lines (lines whose text
    is empty or whitespace) at the start of the document and the longest
    such run at its end, and nothing else: a comment line is not blank, it
    stays and ends the run, and the lines in between are untouched. *)
Theorem trim_blank_runs (c : EntriesCollection) :
  (Forall (has_text (heap c)) (lines c) -> exists c', trim c = Some (c', Ok tt))
  /\ (forall c', trim c = Some (c', Ok tt) ->
      exists top mid bottom,
        lines c = top ++ mid ++ bottom
        /\ c' = set_lines mid c
        /\ Forall (blank_at (heap c)) top
        /\ Forall (blank_at (heap c)) bottom
        /\ (forall l, head mid = Some l -> not_blank_at (heap c) l)
        /\ (forall l, last mid = Some l -> not_blank_at (heap c) l)).
Proof.
  split.
  - intros Htext. rewrite trim_unfold.
    destruct (trim_scan_total (heap c) (lines c) Htext 0 None) as [r1 ->].
    assert (Hrev : Forall (has_text (heap c)) (reverse (lines c)))
      by now apply Forall_reverse.
    destruct (trim_scan_total (heap c) (reverse (lines c)) Hrev 0 None) as [r2 ->].
    eauto.
  - intros c' H. rewrite trim_unfold in H.
    destruct (trim_scan (heap c) (lines c) 0 None) as [r1|] eqn:E1;
      [| discriminate].
    destruct (trim_scan (heap c) (reverse (lines c)) 0 None) as [r2|] eqn:E2;
      [| discriminate].
    apply trim_scan_spec in E1 as (top & rest & Hls & Htop & Hrest & ->).
    apply trim_scan_spec in E2 as (topr & restr & Hrev & Htopr & Hrestr & ->).
    assert (Hls' : lines c = reverse restr ++ reverse topr).
    { rewrite <- reverse_app, <- Hrev. symmetry. apply reverse_involutive. }
    assert (Hbot : Forall (blank_at (heap c)) (reverse topr))
      by now apply Forall_reverse.
    assert (Hlast : forall l, last (reverse restr) = Some l -> not_blank_at (heap c) l).
    { intros l. rewrite last_reverse. apply Hrestr. }
    simpl in H.
    assert (Hc1 : match match top with [] => None | _ :: _ => Some (length top - 1) end with
                  | Some t => set_lines (drop (t + 1) (lines c)) c
                  | None => c
                  end = set_lines rest c).
    { destruct top as [|t0 top].
      - simpl in Hls. rewrite <- Hls. symmetry. apply set_lines_same.
      - rewrite Hls. f_equal.
        replace (length (t0 :: top) - 1 + 1) with (length (t0 :: top))
          by (simpl; lia).
        apply drop_app_length. }
    rewrite Hc1 in H. clear Hc1.
    destruct topr as [|b0 topr].
    + (* nothing to remove at the end *)
      injection H as <-.
      exists top, rest, []. rewrite app_nil_r.
      repeat split; auto.
      intros l Hl. apply Hlast. simpl in Hls'. rewrite app_nil_r in Hls'.
      rewrite <- Hls', Hls, last_app, Hl. reflexivity.
    + simpl in H. injection H as <-.
      destruct rest as [|x rest].
      * (* every line is blank *)
        rewrite slice_to_nil. exists top, [], []. rewrite !app_nil_r in *.
        repeat split; auto.
      * rewrite Hls in Hls'. apply app_eq_inv in Hls' as [(k & Hk1 & Hk2) | (k & Hk1 & Hk2)].
        -- (* the run at the end would reach into the run at the start *)
           exfalso. rewrite Hk2 in Hbot. apply Forall_app in Hbot as [_ Hx].
           apply Forall_cons in Hx as [Hx _].
           specialize (Hrest x eq_refl). unfold blank_at, not_blank_at in *.
           congruence.
        -- exists top, k, (reverse (b0 :: topr)).
           rewrite Hk2.
           rewrite slice_to_app
             by (rewrite length_reverse; simpl; lia).
           repeat split; auto.
           ++ rewrite Hls, Hk2. reflexivity.
           ++ intros l Hl. apply Hrest. rewrite Hk2.
              destruct k; [discriminate | exact Hl].
           ++ intros l Hl. apply Hlast. rewrite Hk1, last_app, Hl. reflexivity.
Qed.

Lemma trim_blank_runs_witness :
  exists c', trim blank_edged_document = Some (c', Ok tt).
Proof.
  apply (proj1 (trim_blank_runs blank_edged_document)).
  repeat constructor; eexists; reflexivity.
Defined.

End Trim.

(** ** Where [add_entry] puts the new line *)

Section AddEntry.

Variable h : list Line.
Variable date : datetime.date.

Lemma scan_before (pre rest : list loc) :
  Forall (fun l => is_date_line_of date (deref h l) = false) pre ->
  forall n acc,
    add_entry_scan h date (pre ++ rest) n false acc
    = add_entry_scan h date rest (n + length pre) false acc.
Proof.
  induction 1 as [|l pre Hl Hpre IH]; intros n acc; simpl.
  - f_equal. lia.
  - rewrite Hl. rewrite IH. f_equal. lia.
Qed.

Lemma scan_marker (dl : loc) (rest : list loc) (n : nat) (in_date : bool)
    (acc : option nat) :
  is_date_line_of date (deref h dl) = true ->
  add_entry_scan h date (dl :: rest) n in_date acc
  = add_entry_scan h date rest (S n) true (Some n).
Proof. intros H. simpl. now rewrite H. Qed.

Lemma not_date_line_of (l : Line) :
  is_DateLine l = false -> is_date_line_of date l = false.
Proof. unfold is_date_line_of. now intros ->. Qed.

(** Lines that are neither date lines nor entry lines leave [insert_at] as
    it is. *)
Lemma scan_others (s2 rest : list loc) :
  Forall (fun l => is_DateLine (deref h l) = false) s2 ->
  Forall (fun l => is_EntryLine (deref h l) = false) s2 ->
  forall n acc,
    add_entry_scan h date (s2 ++ rest) n true acc
    = add_entry_scan h date rest (n + length s2) true acc.
Proof.
  induction 1 as [|l s2 Hl Hs2 IH]; intros He n acc; simpl.
  - f_equal. lia.
  - apply Forall_cons in He as [He1 He2].
    rewrite (not_date_line_of _ Hl), Hl, He1, (IH He2). f_equal. lia.
Qed.

Lemma scan_entry (e : loc) (rest : list loc) (n : nat) (acc : option nat) :
  is_EntryLine (deref h e) = true ->
  add_entry_scan h date (e :: rest) n true acc
  = add_entry_scan h date rest (S n) true (Some n).
Proof.
  intros H. simpl.
  assert (Hd : is_DateLine (deref h e) = false)
    by (destruct (deref h e); simpl in *; congruence).
  now rewrite (not_date_line_of _ Hd), H.
Qed.

(** The loop ends at the end of the document or at the date line of another
    date. *)
Lemma scan_stop (post : list loc) (n : nat) (acc : option nat) :
  (forall l, head post = Some l ->
     is_DateLine (deref h l) = true /\ is_date_line_of date (deref h l) = false) ->
  add_entry_scan h date post n true acc = acc.
Proof.
  destruct post as [|l post]; simpl; [reflexivity |].
  intros H. destruct (H l eq_refl) as [Hd Hn]. rewrite Hn, Hd.
  assert (He : is_EntryLine (deref h l) = false)
    by (destruct (deref h l); simpl in *; congruence).
  now rewrite He.
Qed.

(** Lines of the stretch that are no date lines of another date are
    passed; a further date line of the same date restarts the search. *)
Lemma scan_run (s1 rest : list loc) :
  Forall (fun l => is_DateLine (deref h l) = true ->
                   is_date_line_of date (deref h l) = true) s1 ->
  forall n acc, exists acc',
    add_entry_scan h date (s1 ++ rest) n true acc
    = add_entry_scan h date rest (n + length s1) true acc'.
Proof.
  induction 1 as [|l s1 Hl Hs1 IH]; intros n acc; simpl.
  - exists acc. f_equal. lia.
  - destruct (is_date_line_of date (deref h l)) eqn:Eof.
    + destruct (IH (S n) (Some n)) as [acc' ->]. exists acc'. f_equal. lia.
    + destruct (is_DateLine (deref h l)) eqn:Ed; [specialize (Hl eq_refl); congruence |].
      destruct (is_EntryLine (deref h l)).
      * destruct (IH (S n) (Some n)) as [acc' ->]. exists acc'. f_equal. lia.
      * destruct (IH (S n) acc) as [acc' ->]. exists acc'. f_equal. lia.
Qed.

(** An entry line or a date line of the date, met inside the stretch,
    becomes the insertion point. *)
Lemma scan_anchor (x : loc) (rest : list loc) (n : nat) (acc : option nat) :
  is_EntryLine (deref h x) = true \/ is_date_line_of date (deref h x) = true ->
  add_entry_scan h date (x :: rest) n true acc
  = add_entry_scan h date rest (S n) true (Some n).
Proof.
  intros [H | H]; [now apply scan_entry | now apply scan_marker].
Qed.

(** [insert_at]: the last entry line or date line of the date between the
    first date line of the date and the next date line of another date. *)
Lemma scan_general (pre body post before after : list loc) (dl x : loc) :
  Forall (fun l => is_date_line_of date (deref h l) = false) pre ->
  is_date_line_of date (deref h dl) = true ->
  Forall (fun l => is_DateLine (deref h l) = true ->
                   is_date_line_of date (deref h l) = true) body ->
  (forall l, head post = Some l ->
     is_DateLine (deref h l) = true /\ is_date_line_of date (deref h l) = false) ->
  dl :: body = before ++ x :: after ->
  is_EntryLine (deref h x) = true \/ is_DateLine (deref h x) = true ->
  Forall (fun l => is_EntryLine (deref h l) = false
                   /\ is_DateLine (deref h l) = false) after ->
  add_entry_scan h date (pre ++ dl :: body ++ post) 0 false None
  = Some (length pre + length before).
Proof.
  intros Hpre Hdl Hbody Hpost Hsplit Hx Hafter.
  assert (Ha1 : Forall (fun l => is_DateLine (deref h l) = false) after)
    by (eapply Forall_impl; [exact Hafter | now intros ? []]).
  assert (Ha2 : Forall (fun l => is_EntryLine (deref h l) = false) after)
    by (eapply Forall_impl; [exact Hafter | now intros ? []]).
  rewrite (scan_before pre _ Hpre).
  destruct before as [|b0 before]; simpl in Hsplit; injection Hsplit as <- ->.
  - rewrite (scan_marker dl _ _ _ _ Hdl).
    rewrite (scan_others after post Ha1 Ha2), (scan_stop post _ _ Hpost).
    f_equal. simpl. lia.
  - rewrite (scan_marker dl _ _ _ _ Hdl).
    apply Forall_app in Hbody as [Hb1 Hb2]. apply Forall_cons in Hb2 as [Hbx _].
    rewrite <- app_assoc.
    destruct (scan_run before ((x :: after) ++ post) Hb1 (S (0 + length pre))
                (Some (0 + length pre))) as [acc' ->].
    rewrite <- app_comm_cons.
    rewrite scan_anchor by (destruct Hx as [Hx | Hx]; [now left | right; auto]).
    rewrite (scan_others after post Ha1 Ha2), (scan_stop post _ _ Hpost).
    f_equal. simpl. lia.
Qed.

End AddEntry.

Section AddEntryRun.

Lemma setattr_line (h : list Line) (entry : TimesheetEntry) (v : option loc) :
  TimesheetEntry___setattr__ h entry (set_e_line v)
  = (h, TimesheetEntry_store entry (set_e_line v)).
Proof.
  unfold TimesheetEntry___setattr__. simpl.
  destruct v as [l|]; [| reflexivity].
  destruct (h !! l) as [[]|]; reflexivity.
Qed.

Lemma insert_at_lookup_before {A} (i : nat) (x y : A) (l : list A) :
  l !! i = Some y -> list_insert_at (i + 1) x l !! i = Some y.
Proof.
  intros H. unfold list_insert_at.
  pose proof (lookup_lt_Some _ _ _ H) as Hlt.
  rewrite lookup_app_l by (rewrite length_take; lia).
  rewrite lookup_take_lt by lia. exact H.
Qed.

Lemma insert_at_app {A} (l1 l2 : list A) (x : A) (n : nat) :
  n = length l1 -> list_insert_at n x (l1 ++ l2) = l1 ++ x :: l2.
Proof.
  intros ->. unfold list_insert_at.
  now rewrite take_app_length, drop_app_length.
Qed.

(** [add_entry] in synchronized mode, once the loop has found
    [insert_at]: the call itself. *)
Lemma add_entry_call_run (c : EntriesCollection) (date : datetime.date)
    (entry : TimesheetEntry) (i : nat) (l0 : loc) :
  synchronized c = true ->
  add_entry_scan (heap c) date (lines c) 0 false None = Some i ->
  lines c !! i = Some l0 ->
  let new := length (heap c) in
  let obj := EntryLine_ (EntryLine___init__ (alias entry) (duration entry)
                           (description entry) None) in
  let entry' := TimesheetEntry_store entry (set_e_line (Some new)) in
  add_entry_call date entry c =
    if is_EntryLine (deref (heap c ++ [obj]) l0) then
      Some (set_lines (list_insert_at (i + 1) new (lines c))
              (set_heap (heap c ++ [obj]) c), Ok (entry', Ok tt))
    else
      Some (set_lines
              (list_insert_at (i + 1) (S new)
                 (list_insert_at (i + 1) new (lines c)))
              (set_heap ((heap c ++ [obj]) ++ [TextLine ""]) c),
            Ok (entry', Ok tt)).
Proof.
  intros Hsync Hscan Hl0 new obj entry'.
  unfold add_entry_call, synchronized_, mbind, M_bind, get, new_line,
    entry_setattr, alloc, modify, raise, mret, M_ret.
  fold obj. clearbody obj.
  rewrite Hsync. simpl. rewrite Hscan, setattr_line. simpl.
  rewrite (insert_at_lookup_before i _ l0 _ Hl0). simpl.
  destruct (is_EntryLine (deref (heap c ++ [obj]) l0)); simpl.
  - reflexivity.
  - rewrite length_app. simpl.
    replace (length (heap c) + 1) with (S new) by (unfold new; lia).
    reflexivity.
Qed.

(** [add_entry] returns the entry when the call returned. *)
Lemma add_entry_of_call (c c' : EntriesCollection) (date : datetime.date)
    (entry entry' : TimesheetEntry) (r : result unit) :
  add_entry_call date entry c = Some (c', Ok (entry', r)) ->
  add_entry date entry c
  = Some (c', match r with Ok _ => Ok entry' | Raise e => Raise e end).
Proof.
  intros H. unfold add_entry, mbind, M_bind. rewrite H.
  destruct r as [[]|e]; reflexivity.
Qed.

(** [add_entry] in synchronized mode, once the loop has found [insert_at]. *)
Lemma add_entry_run (c : EntriesCollection) (date : datetime.date)
    (entry : TimesheetEntry) (i : nat) (l0 : loc) :
  synchronized c = true ->
  add_entry_scan (heap c) date (lines c) 0 false None = Some i ->
  lines c !! i = Some l0 ->
  let new := length (heap c) in
  let obj := EntryLine_ (EntryLine___init__ (alias entry) (duration entry)
                           (description entry) None) in
  let entry' := TimesheetEntry_store entry (set_e_line (Some new)) in
  add_entry date entry c =
    if is_EntryLine (deref (heap c ++ [obj]) l0) then
      Some (set_lines (list_insert_at (i + 1) new (lines c))
              (set_heap (heap c ++ [obj]) c), Ok entry')
    else
      Some (set_lines
              (list_insert_at (i + 1) (S new)
                 (list_insert_at (i + 1) new (lines c)))
              (set_heap ((heap c ++ [obj]) ++ [TextLine ""]) c), Ok entry').
Proof.
  intros Hsync Hscan Hl0.
  pose proof (add_entry_call_run c date entry i l0 Hsync Hscan Hl0) as H.
  cbv zeta in H |- *.
  match type of H with
  | _ = if ?b then _ else _ => destruct b
  end; exact (add_entry_of_call _ _ _ _ _ _ H).
Qed.

Lemma deref_alloc (h : list Line) (xs : list Line) (l : loc) :
  l < length h -> deref (h ++ xs) l = deref h l.
Proof. intros H. unfold deref. now rewrite lookup_app_l. Qed.

Lemma deref_new (h : list Line) (x : Line) (xs : list Line) :
  deref (h ++ x :: xs) (length h) = x.
Proof. unfold deref. now rewrite list_lookup_middle. Qed.

End AddEntryRun.

Section AddEntryTheorem.

(** Equal up to the bracketing of appends. *)
Ltac same_app := repeat first [progress simpl | rewrite <- app_assoc]; reflexivity.

Lemma map_deref_alloc (h xs : list Line) (ls : list loc) :
  Forall (fun l => l < length h) ls ->
  map (deref (h ++ xs)) ls = map (deref h) ls.
Proof.
  induction 1 as [|l ls Hl Hls IH]; simpl; [reflexivity |].
  now rewrite deref_alloc, IH.
Qed.

Lemma date_line_of_marker (date : datetime.date) (t : string) :
  is_date_line_of date (DateLine date t) = true.
Proof. unfold is_date_line_of. simpl. now rewrite bool_decide_eq_true. Qed.

(** A counterexample to C3: [twice_dated_text] has an entry under its date
    and then a second date line of the same date.  The loop does not stop
    at that date line but starts again from it, so the new line does not go
    right after the entry: it goes after the second date line, behind a
    blank line. *)
Lemma add_entry_second_date_line_example :
  exists c c' entry',
    EntriesCollection___init__ 2012 4 (Some twice_dated_text) = Some (c, Ok tt)
    /\ map text (document c)
       = [Some "01.01.2010"; Some "foo 1 bar"; Some "01.01.2010"]
    /\ add_entry (datetime.mk_date 2010 1 1)
         (TimesheetEntry___init__ "zz" (Hours (Py.Finite 2)) "new") c
       = Some (c', Ok entry')
    /\ line entry' = Some 3
    /\ lines c' = [0; 1; 2; 4; 3]
    /\ map text (document c')
       = [Some "01.01.2010"; Some "foo 1 bar"; Some "01.01.2010"; Some ""; None].
Proof.
  do 3 eexists.
  split; [vm_compute; reflexivity |].
  split; [vm_compute; reflexivity |].
  split; [vm_compute; reflexivity |].
  split; [reflexivity |].
  split; vm_compute; reflexivity.
Qed.

(** C3, amended: [add_entry], called in synchronized mode for a date whose
    date line is in the document, creates an entry line and binds the entry
    to it.  The loop runs from the first date line of the date to the next
    date line of another date or the end of the document.  The new line
    goes right after the last line of that stretch that is an entry line or
    a date line of the date: after the last entry line, or, when no entry
    line follows the last date line of the date, after that date line with
    one blank line put between the two.  The lines that were there keep
    their order and their contents. *)
Theorem add_entry_insertion_point (c : EntriesCollection)
    (date : datetime.date) (entry : TimesheetEntry)
    (pre body post before after : list loc) (dl x : loc) :
  synchronized c = true ->
  wf c ->
  lines c = pre ++ dl :: body ++ post ->
  Forall (fun l => is_date_line_of date (deref (heap c) l) = false) pre ->
  is_date_line_of date (deref (heap c) dl) = true ->
  Forall (fun l => is_DateLine (deref (heap c) l) = true ->
                   is_date_line_of date (deref (heap c) l) = true) body ->
  (forall l, head post = Some l ->
     is_DateLine (deref (heap c) l) = true
     /\ is_date_line_of date (deref (heap c) l) = false) ->
  dl :: body = before ++ x :: after ->
  is_EntryLine (deref (heap c) x) = true \/ is_DateLine (deref (heap c) x) = true ->
  Forall (fun l => is_EntryLine (deref (heap c) l) = false
                   /\ is_DateLine (deref (heap c) l) = false) after ->
  let new := length (heap c) in
  let obj := EntryLine_ (EntryLine___init__ (alias entry) (duration entry)
                           (description entry) None) in
  let entry' := TimesheetEntry_store entry (set_e_line (Some new)) in
  let old := map (deref (heap c)) in
  line entry' = Some new
  /\ (is_EntryLine (deref (heap c) x) = true ->
      exists c',
        add_entry date entry c = Some (c', Ok entry')
        /\ heap c' = heap c ++ [obj]
        /\ lines c' = pre ++ before ++ x :: new :: after ++ post
        /\ document c' = old (pre ++ before ++ [x]) ++ obj :: old (after ++ post))
  /\ (is_DateLine (deref (heap c) x) = true ->
      exists c',
        add_entry date entry c = Some (c', Ok entry')
        /\ heap c' = heap c ++ [obj; TextLine ""]
        /\ lines c' = pre ++ before ++ x :: S new :: new :: after ++ post
        /\ document c'
           = old (pre ++ before ++ [x]) ++ TextLine "" :: obj :: old (after ++ post)).
Proof.
  intros Hsync Hwf Hlines Hpre Hdl Hbody Hpost Hsplit Hx Hafter new obj entry' old.
  assert (Hscan : add_entry_scan (heap c) date (lines c) 0 false None
                  = Some (length pre + length before)).
  { rewrite Hlines. eapply scan_general; eauto. }
  assert (Hlines' : lines c = (pre ++ before) ++ x :: after ++ post).
  { rewrite Hlines.
    replace (pre ++ dl :: body ++ post) with (pre ++ (dl :: body) ++ post)
      by reflexivity.
    rewrite Hsplit. same_app. }
  assert (Hat : lines c !! (length pre + length before) = Some x).
  { rewrite Hlines'. apply list_lookup_middle. now rewrite length_app. }
  unfold wf in Hwf. rewrite Hlines' in Hwf.
  apply Forall_app in Hwf as [Hw1 Hw2]. apply Forall_cons in Hw2 as [Hwx Hw3].
  assert (Hw1x : Forall (fun l => l < length (heap c)) (pre ++ before ++ [x])).
  { rewrite app_assoc. apply Forall_app; split; [exact Hw1 |].
    now apply Forall_cons. }
  rewrite (add_entry_run c date entry _ x Hsync Hscan Hat).
  fold new obj entry'. rewrite deref_alloc by exact Hwx.
  split; [reflexivity |]. split.
  - intros He. rewrite He.
    eexists. split; [reflexivity |]. simpl.
    assert (Hnew : list_insert_at (length pre + length before + 1) new (lines c)
                   = pre ++ before ++ x :: new :: after ++ post).
    { rewrite Hlines'.
      replace ((pre ++ before) ++ x :: after ++ post)
        with ((pre ++ before ++ [x]) ++ after ++ post) by same_app.
      rewrite insert_at_app
        by (rewrite !length_app; simpl; lia).
      same_app. }
    split; [reflexivity |]. split; [exact Hnew |].
    unfold document. simpl. rewrite Hnew.
    replace (pre ++ before ++ x :: new :: after ++ post)
      with ((pre ++ before ++ [x]) ++ new :: after ++ post) by same_app.
    rewrite map_app. simpl. unfold new at 1. rewrite deref_new.
    unfold old. f_equal; [| f_equal]; now apply map_deref_alloc.
  - intros Hd.
    assert (He : is_EntryLine (deref (heap c) x) = false)
      by (destruct (deref (heap c) x); simpl in *; congruence).
    rewrite He.
    eexists. split; [reflexivity |]. simpl.
    assert (Hnew : list_insert_at (length pre + length before + 1) (S new)
                     (list_insert_at (length pre + length before + 1) new (lines c))
                   = pre ++ before ++ x :: S new :: new :: after ++ post).
    { rewrite Hlines'.
      replace ((pre ++ before) ++ x :: after ++ post)
        with ((pre ++ before ++ [x]) ++ after ++ post) by same_app.
      rewrite insert_at_app by (rewrite !length_app; simpl; lia).
      rewrite insert_at_app by (rewrite !length_app; simpl; lia).
      same_app. }
    split; [same_app |]. split; [exact Hnew |].
    unfold document. simpl. rewrite Hnew.
    replace (pre ++ before ++ x :: S new :: new :: after ++ post)
      with ((pre ++ before ++ [x]) ++ S new :: new :: after ++ post) by same_app.
    rewrite map_app. simpl.
    replace ((heap c ++ [obj]) ++ [TextLine ""]) with (heap c ++ [obj; TextLine ""])
      by same_app.
    unfold new at 2. rewrite deref_new.
    replace (deref (heap c ++ [obj; TextLine ""]) (S new)) with (TextLine "").
    2:{ unfold deref, new. rewrite lookup_app_r by lia.
        replace (S (length (heap c)) - length (heap c)) with 1 by lia. reflexivity. }
    unfold old. f_equal; [| do 2 f_equal]; now apply map_deref_alloc.
Qed.

Lemma add_entry_insertion_point_witness :
  exists c',
    add_entry (datetime.mk_date 2010 1 1)
      (TimesheetEntry___init__ "zz" (Hours (Py.Finite 2)) "new")
      blank_edged_document
    = Some (c', Ok (mk_TimesheetEntry (Some 7) false false "zz" "new"
                      (Hours (Py.Finite 2))))
    /\ lines c' = [0; 1; 2; 3; 4; 5; 7; 6].
Proof.
  destruct (add_entry_insertion_point blank_edged_document
              (datetime.mk_date 2010 1 1)
              (TimesheetEntry___init__ "zz" (Hours (Py.Finite 2)) "new")
              [0; 1] [3; 4; 5; 6] [] [2; 3; 4] [6] 2 5) as (_ & H & _).
  - reflexivity.
  - unfold wf. simpl. repeat constructor.
  - reflexivity.
  - repeat constructor.
  - reflexivity.
  - repeat constructor; discriminate.
  - intros l [=].
  - reflexivity.
  - left. reflexivity.
  - repeat constructor.
  - destruct (H eq_refl) as (c' & Hrun & _ & Hlines & _).
    exists c'. split; [exact Hrun | exact Hlines].
Defined.

End AddEntryTheorem.

(** ** Deleting the last entry of a date *)

Section DeleteLast.

Lemma Forall_List_filter {A} (P : A -> Prop) (f : A -> bool) (l : list A) :
  Forall P l -> Forall P (List.filter f l).
Proof.
  induction 1 as [|x l Hx Hl IH]; simpl; [constructor |].
  destruct (f x); [constructor |]; auto.
Qed.

Lemma Forall_List_filter_true {A} (f : A -> bool) (l : list A) :
  Forall (fun x => f x = true) (List.filter f l).
Proof.
  induction l as [|x l IH]; simpl; [constructor |].
  destruct (f x) eqn:E; [constructor |]; auto.
Qed.

Lemma sublist_List_filter {A} (f : A -> bool) (l : list A) :
  sublist (List.filter f l) l.
Proof.
  induction l as [|x l IH]; simpl; [constructor |].
  destruct (f x); [now apply sublist_skip | now apply sublist_cons].
Qed.

(** [trim] returns when every line has a text, and keeps a stretch of the
    document. *)
Lemma trim_returns (c : EntriesCollection) :
  Forall (has_text (heap c)) (lines c) ->
  exists n k, trim c = Some (set_lines (take k (drop n (lines c))) c, Ok tt).
Proof.
  intros Htext. rewrite trim_unfold.
  destruct (trim_scan_total (heap c) (lines c) Htext 0 None) as [r1 ->].
  assert (Hrev : Forall (has_text (heap c)) (reverse (lines c)))
    by now apply Forall_reverse.
  destruct (trim_scan_total (heap c) (reverse (lines c)) Hrev 0 None) as [r2 ->].
  simpl.
  assert (H1 : exists n, match r1 with
                         | Some t => set_lines (drop (t + 1) (lines c)) c
                         | None => c
                         end = set_lines (drop n (lines c)) c).
  { destruct r1 as [t|]; [eauto |]. exists 0. simpl. symmetry. apply set_lines_same. }
  destruct H1 as [n ->]. exists n.
  destruct r2 as [b|]; simpl.
  - unfold slice_to. destruct (_ <? 0)%Z; eauto.
  - exists (length (drop n (lines c))). now rewrite take_ge.
Qed.

Lemma delete_entries_run (c : EntriesCollection) (es : list TimesheetEntry) :
  synchronized c = true ->
  delete_entries es c
  = trim (set_lines
            (List.filter
               (fun l => negb (is_EntryLine (deref (heap c) l))
                         || negb (bool_decide (Some l ∈ map line es)))
               (lines c)) c).
Proof.
  intros Hsync.
  unfold delete_entries, synchronized_, mbind, M_bind, get, modify.
  rewrite Hsync. reflexivity.
Qed.

Lemma delete_date_run (c : EntriesCollection) (d : datetime.date) :
  synchronized c = true ->
  delete_date d c
  = trim (set_lines
            (List.filter
               (fun l => negb (is_DateLine (deref (heap c) l))
                         || negb (bool_decide (line_date (deref (heap c) l) = Some d)))
               (lines c)) c).
Proof.
  intros Hsync.
  unfold delete_date, synchronized_, mbind, M_bind, get, modify.
  rewrite Hsync. reflexivity.
Qed.

Lemma sublist_take_drop {A} (n k : nat) (l : list A) : sublist (take k (drop n l)) l.
Proof.
  transitivity (drop n l); [apply sublist_take | apply sublist_drop].
Qed.

Lemma date_line_of_negb (d : datetime.date) (x : Line) :
  negb (is_DateLine x) || negb (bool_decide (line_date x = Some d)) = true ->
  is_date_line_of d x = false.
Proof.
  unfold is_date_line_of. rewrite <- negb_andb. now intros ->%negb_true_iff.
Qed.

(** C8, a defect of the code: after the only entry of the only date of
    [one_entry_text] is deleted through its list, the line of the entry and
    the date line are gone from the document, but the collection still
    holds a list, now empty, for that date.  The next [append] to that
    list finds no date line, so [add_entry] raises [TypeError], and the
    entry stays in the list, bound to a line that is not in the document.
    [EntriesCollection.__delitem__], the other deletion, does remove the
    date from the collection. *)
Lemma delete_last_entry_keeps_list_example :
  exists c c' c'' c3 x,
    EntriesCollection___init__ 2012 4 (Some one_entry_text) = Some (c, Ok tt)
    /\ length (entries_of (datetime.mk_date 2010 1 1) c) = 1
    /\ EntriesList___delitem__ (datetime.mk_date 2010 1 1) 0 c = Some (c', Ok tt)
    /\ dict c' !! datetime.mk_date 2010 1 1
       = Some (mk_EntriesList true (datetime.mk_date 2010 1 1) [])
    /\ document c' = []
    /\ EntriesList_append (datetime.mk_date 2010 1 1)
         (TimesheetEntry___init__ "zz" (Hours (Py.Finite 2)) "new") c'
       = Some (c'', Raise (TypeError
                 "unsupported operand type(s) for +: 'NoneType' and 'int'"))
    /\ entries_of (datetime.mk_date 2010 1 1) c'' = [x]
    /\ line x = Some 3
    /\ document c'' = []
    /\ EntriesCollection___delitem__ (datetime.mk_date 2010 1 1) c
       = Some (c3, Ok tt)
    /\ dict c3 !! datetime.mk_date 2010 1 1 = None.
Proof.
  do 5 eexists.
  split; [vm_compute; reflexivity |].
  split; [vm_compute; reflexivity |].
  split; [vm_compute; reflexivity |].
  split; [vm_compute; reflexivity |].
  split; [vm_compute; reflexivity |].
  split; [vm_compute; reflexivity |].
  split; [vm_compute; reflexivity |].
  split; [vm_compute; reflexivity |].
  split; [vm_compute; reflexivity |].
  split; vm_compute; reflexivity.
Qed.

End DeleteLast.

(** ** The [synchronized] flag *)

Section Flag.

Lemma keeps_ret {A} (a : A) : keeps_flag (mret a : M A).
Proof. intros s s' r [= <- _]. reflexivity. Qed.

Lemma keeps_bind {A B} (m : M A) (f : A -> M B) :
  keeps_flag m -> (forall a, keeps_flag (f a)) -> keeps_flag (m ≫= f).
Proof.
  intros Hm Hf s s' r. unfold mbind, M_bind.
  destruct (m s) as [[s1 [a|e]]|] eqn:E; [| | discriminate].
  - intros H. rewrite (Hf a _ _ _ H). exact (Hm _ _ _ E).
  - intros [= <- _]. exact (Hm _ _ _ E).
Qed.

Lemma keeps_get {A} (f : EntriesCollection -> A) : keeps_flag (get f).
Proof. intros s s' r [= <- _]. reflexivity. Qed.

Lemma keeps_raise {A} (e : exn) : keeps_flag (raise e : M A).
Proof. intros s s' r [= <- _]. reflexivity. Qed.

Lemma keeps_lift {A} (x : result A) : keeps_flag (lift x).
Proof. intros s s' r [= <- _]. reflexivity. Qed.

Lemma keeps_modify (f : EntriesCollection -> EntriesCollection) :
  (forall s, synchronized (f s) = synchronized s) -> keeps_flag (modify f).
Proof. intros Hf s s' r [= <- _]. apply Hf. Qed.

Lemma keeps_new_line (x : Line) : keeps_flag (new_line x).
Proof. intros s s' r [= <- _]. reflexivity. Qed.

Lemma keeps_entry_setattr (e : TimesheetEntry) (a : TimesheetEntry_assign) :
  keeps_flag (entry_setattr e a).
Proof.
  intros s s' r. unfold entry_setattr.
  destruct (TimesheetEntry___setattr__ (heap s) e a). intros [= <- _]. reflexivity.
Qed.

Lemma keeps_synchronized_ {A} (dflt : A) (m : M A) :
  keeps_flag m -> keeps_flag (synchronized_ dflt m).
Proof.
  intros Hm. unfold synchronized_. apply keeps_bind; [apply keeps_get |].
  intros []; [exact Hm | apply keeps_ret].
Qed.

Create HintDb keeps.
#[local] Hint Resolve keeps_ret keeps_get keeps_raise keeps_lift keeps_new_line
  keeps_entry_setattr : keeps.

(** Steps through a method built from the operations above. *)
Ltac keeps :=
  repeat first
    [ apply keeps_synchronized_
    | apply keeps_bind; [| intros ?]
    | apply keeps_modify; intros ?; reflexivity
    | solve [auto with keeps]
    | match goal with
      | |- keeps_flag (match ?x with _ => _ end) => destruct x
      | |- keeps_flag (if ?x then _ else _) => destruct x
      end ].

Lemma keeps_add_entry (d : datetime.date) (e : TimesheetEntry) :
  keeps_flag (add_entry d e).
Proof. unfold add_entry. keeps. Qed.

Lemma keeps_trim : keeps_flag trim.
Proof. unfold trim. keeps. Qed.

Lemma keeps_add_date (d : datetime.date) : keeps_flag (add_date d).
Proof. unfold add_date. keeps. Qed.

Lemma keeps___missing__ (d : datetime.date) : keeps_flag (__missing__ d).
Proof. unfold __missing__. keeps; try apply keeps_add_date. Qed.

Lemma keeps___getitem__ (d : datetime.date) : keeps_flag (__getitem__ d).
Proof. unfold __getitem__. keeps; try apply keeps___missing__. Qed.

Lemma keeps_append (d : datetime.date) (x : TimesheetEntry) :
  keeps_flag (EntriesList_append d x).
Proof.
  unfold EntriesList_append, the_list, put_items. keeps; try apply keeps_add_entry.
Qed.

Lemma keeps_new_lines (xs : list Line) : keeps_flag (new_lines xs).
Proof. induction xs as [|x xs IH]; simpl; keeps; try exact IH. Qed.

Lemma keeps_loop (fuel : nat) :
  forall i cd, keeps_flag (init_from_str_loop fuel i cd).
Proof.
  induction fuel as [|fuel IH]; intros i cd; simpl.
  - intros s s' r [=].
  - keeps; try apply IH; try apply keeps___getitem__; try apply keeps_append.
Qed.

(** The bulk load itself never touches the flag. *)
Lemma keeps_init_from_str (today_year : Z) (fuel : nat) (entries : string) :
  keeps_flag (init_from_str today_year fuel entries).
Proof.
  unfold init_from_str. keeps; try apply keeps_new_lines; try apply keeps_loop.
Qed.

End Flag.

(** ** The bulk load *)

Section BulkLoad.

Lemma bind_ok {A B} (m : M A) (f : A -> M B) (s s1 : EntriesCollection) (a : A) :
  m s = Some (s1, Ok a) -> (m ≫= f) s = f a s1.
Proof. intros H. unfold mbind, M_bind. now rewrite H. Qed.

Lemma set_heap_same (s : EntriesCollection) : set_heap (heap s) s = s.
Proof. destruct s; reflexivity. Qed.

Lemma add_entry_call_unsync (s : EntriesCollection) (d : datetime.date)
    (x : TimesheetEntry) :
  synchronized s = false -> add_entry_call d x s = Some (s, Ok (x, Ok tt)).
Proof.
  intros H. unfold add_entry_call, synchronized_, mbind, M_bind, get.
  now rewrite H.
Qed.

Lemma add_entry_unsync (s : EntriesCollection) (d : datetime.date)
    (x : TimesheetEntry) :
  synchronized s = false -> add_entry d x s = Some (s, Ok x).
Proof.
  intros H.
  exact (add_entry_of_call _ _ _ _ _ _ (add_entry_call_unsync s d x H)).
Qed.

Lemma getitem_unsync (s : EntriesCollection) (cd : datetime.date) :
  synchronized s = false ->
  exists D, __getitem__ cd s = Some (set_dict D s, Ok tt) /\ is_Some (D !! cd).
Proof.
  intros H. unfold __getitem__, __missing__, mbind, M_bind, get, modify, mret, M_ret.
  destruct (dict s !! cd) as [L|] eqn:E.
  - exists (dict s). split; [| now rewrite E].
    f_equal. f_equal. now destruct s.
  - simpl. rewrite H. eexists. split; [reflexivity |].
    rewrite lookup_insert_eq. eauto.
Qed.

Lemma the_list_ok (s : EntriesCollection) (key : datetime.date) (L : EntriesList) :
  dict s !! key = Some L -> the_list key s = Some (s, Ok L).
Proof. intros H. unfold the_list, mbind, M_bind, get. now rewrite H. Qed.

Lemma put_items_run (s : EntriesCollection) (key : datetime.date)
    (its : list TimesheetEntry) :
  put_items key its s = Some (set_dict (alter (set_items its) key (dict s)) s, Ok tt).
Proof. reflexivity. Qed.

Lemma setattr_duration_bound (h : list Line) (x : TimesheetEntry) (d : Duration)
    (l : loc) (e : EntryLine) :
  line x = Some l -> h !! l = Some (EntryLine_ e) ->
  TimesheetEntry___setattr__ h x (set_e_duration d)
  = (<[l := EntryLine_ (EntryLine___setattr__ e (set_duration d))]> h,
     TimesheetEntry_store x (set_e_duration d)).
Proof.
  intros Hline Hl. unfold TimesheetEntry___setattr__. simpl.
  rewrite Hline, Hl. reflexivity.
Qed.

Lemma entry_setattr_duration (s : EntriesCollection) (x : TimesheetEntry)
    (d : Duration) (l : loc) (e : EntryLine) :
  line x = Some l -> heap s !! l = Some (EntryLine_ e) ->
  entry_setattr x (set_e_duration d) s
  = Some (set_heap (<[l := EntryLine_ (EntryLine___setattr__ e (set_duration d))]>
                      (heap s)) s,
          Ok (TimesheetEntry_store x (set_e_duration d))).
Proof.
  intros Hline Hl. unfold entry_setattr.
  now rewrite (setattr_duration_bound (heap s) x d l e Hline Hl).
Qed.

(** Appending an entry bound to an entry line, outside synchronized mode:
    the document is not touched, and the only object the call may change
    is the bound line, whose text it clears when it chains the range. *)
Lemma append_unsync (s : EntriesCollection) (key : datetime.date)
    (x : TimesheetEntry) (l : loc) (e : EntryLine) :
  synchronized s = false ->
  is_Some (dict s !! key) ->
  line x = Some l ->
  heap s !! l = Some (EntryLine_ e) ->
  exists s' x',
    EntriesList_append key x s = Some (s', Ok x')
    /\ synchronized s' = false
    /\ lines s' = lines s
    /\ (heap s' = heap s
        \/ exists e' stop,
             duration x = Range None stop
             /\ el_text e' = None /\ heap s' = <[l := EntryLine_ e']> (heap s)).
Proof.
  intros Hsync [L HL] Hline Hl.
  unfold EntriesList_append.
  rewrite (bind_ok _ _ _ _ _ (the_list_ok s key L HL)).
  rewrite (bind_ok _ _ _ _ _ (put_items_run s key _)).
  destruct (chained (items L ++ [x]) x) as [d|] eqn:Ec.
  - assert (Hopen : exists stop, duration x = Range None stop).
    { unfold chained in Ec. destruct (Nat.ltb _ _); [| discriminate].
      destruct (duration x) as [|[|] stop]; try discriminate. eauto. }
    destruct Hopen as [stop Hopen].
    erewrite bind_ok.
    2:{ erewrite bind_ok by (apply (entry_setattr_duration _ x d l e Hline); exact Hl).
        rewrite (bind_ok _ _ _ _ _ (put_items_run _ key _)). reflexivity. }
    destruct (entries_collection L).
    + erewrite bind_ok by (apply add_entry_call_unsync; exact Hsync).
      cbv beta iota.
      rewrite (bind_ok _ _ _ _ _ (put_items_run _ key _)).
      do 2 eexists. split; [reflexivity |]. simpl.
      repeat split; auto. right. do 2 eexists. split; [exact Hopen |].
      split; [| reflexivity]. reflexivity.
    + do 2 eexists. split; [reflexivity |]. simpl.
      repeat split; auto. right. do 2 eexists. split; [exact Hopen |].
      split; [| reflexivity]. reflexivity.
  - erewrite bind_ok by reflexivity.
    destruct (entries_collection L).
    + erewrite bind_ok by (apply add_entry_call_unsync; exact Hsync).
      cbv beta iota.
      rewrite (bind_ok _ _ _ _ _ (put_items_run _ key _)).
      do 2 eexists. split; [reflexivity |]. simpl. auto.
    + do 2 eexists. split; [reflexivity |]. simpl. auto.
Qed.

Lemma parse_entry_line_kind (line : string) (l : Line) :
  TimesheetParser._parse_entry_line line = Ok l ->
  exists e, l = EntryLine_ e /\ el_text e = Some line.
Proof.
  unfold TimesheetParser._parse_entry_line.
  destruct (Py.split line 2) as [|a [|tok [|desc [|]]]]; try discriminate.
  destruct (TimesheetParser.parse_time tok); simpl; try discriminate.
  intros [= <-]. eexists. split; reflexivity.
Qed.

(** What the parser returns: one line for each line of the input, with the
    stripped input as its text, and no entry line before the first date
    line. *)
Lemma parser_from_spec (today_year : Z) (ls : list string) :
  forall cd out,
    TimesheetParser.parser_from today_year cd ls = Ok out ->
    map text out = map (fun l => Some (Py.strip l)) ls
    /\ dated (negb (TimesheetParser.is_None cd)) out.
Proof.
  induction ls as [|l ls IH]; intros cd out H; simpl in H.
  - injection H as <-. split; [reflexivity | exact I].
  - destruct (_ || _).
    + destruct (TimesheetParser.parser_from today_year cd ls) as [rest|] eqn:E;
        simpl in H; [| discriminate].
      injection H as <-. destruct (IH _ _ E) as [Ht Hd].
      simpl. rewrite Ht. auto.
    + destruct (TimesheetParser.extract_date today_year (Py.strip l))
        as [d|[]] eqn:Ed; try discriminate.
      * destruct (TimesheetParser.parser_from today_year (Some d) ls)
          as [rest|] eqn:E; simpl in H; [| discriminate].
        injection H as <-. destruct (IH _ _ E) as [Ht Hd].
        simpl. rewrite Ht. auto.
      * destruct cd as [d0|]; simpl in H; [| discriminate].
        destruct (TimesheetParser._parse_entry_line (Py.strip l)) as [x|] eqn:Ex;
          simpl in H; [| discriminate].
        destruct (TimesheetParser.parser_from today_year (Some d0) ls)
          as [rest|] eqn:E; simpl in H; [| discriminate].
        injection H as <-. destruct (IH _ _ E) as [Ht Hd].
        apply parse_entry_line_kind in Ex as (e & -> & He).
        simpl. rewrite Ht, He. auto.
Qed.

Lemma new_lines_run (xs : list Line) :
  forall s,
    new_lines xs s
    = Some (set_heap (heap s ++ xs) s, Ok (seq (length (heap s)) (length xs))).
Proof.
  induction xs as [|x xs IH]; intros s; simpl.
  - unfold mret, M_ret. rewrite app_nil_r, set_heap_same. reflexivity.
  - unfold mbind, M_bind, new_line, alloc. simpl. rewrite IH. simpl.
    unfold mret, M_ret. rewrite <- app_assoc. simpl.
    rewrite length_app. simpl.
    replace (length (heap s) + 1) with (S (length (heap s))) by lia.
    reflexivity.
Qed.

Lemma deref_lookup (h : list Line) (l : nat) (x : Line) :
  h !! l = Some x -> deref h l = x.
Proof. intros H. unfold deref, loc. now rewrite H. Qed.

Lemma entry_setattr_line (s : EntriesCollection) (x : TimesheetEntry)
    (v : option loc) :
  entry_setattr x (set_e_line v) s
  = Some (s, Ok (TimesheetEntry_store x (set_e_line v))).
Proof.
  unfold entry_setattr. rewrite setattr_line, set_heap_same. reflexivity.
Qed.

(** The loop of the bulk load, run outside synchronized mode on the lines
    [h0] the parser returned: it ends, it returns, it leaves the document
    alone, and all it may do to a line is to clear the text of an entry
    line. *)
Lemma loop_unsync (h0 : list Line) (fuel : nat) :
  forall i cd s,
    synchronized s = false ->
    lines s = seq 0 (length h0) ->
    Forall2 evolved h0 (heap s) ->
    (forall j, i <= j -> heap s !! j = h0 !! j) ->
    dated (negb (TimesheetParser.is_None cd)) (drop i h0) ->
    length h0 - i < fuel ->
    exists s',
      init_from_str_loop fuel i cd s = Some (s', Ok tt)
      /\ synchronized s' = false
      /\ lines s' = seq 0 (length h0)
      /\ Forall2 evolved h0 (heap s').
Proof.
  induction fuel as [|fuel IH]; intros i cd s Hsync Hlines Hev Hsuf Hdated Hfuel;
    [lia |].
  simpl. erewrite bind_ok by reflexivity. rewrite Hlines.
  destruct (decide (i < length h0)) as [Hi|Hi].
  - rewrite lookup_seq_lt by exact Hi. simpl.
    erewrite bind_ok by reflexivity.
    destruct (lookup_lt_is_Some_2 h0 i Hi) as [x Hx].
    rewrite (deref_lookup (heap s) i x) by (rewrite Hsuf by lia; exact Hx).
    rewrite (drop_S _ _ _ Hx) in Hdated.
    destruct x as [t|e|d t]; simpl in Hdated.
    + apply IH; auto; [intros j Hj; apply Hsuf; lia | lia].
    + destruct Hdated as [Hcd Hdated].
      destruct cd as [cd|]; [| discriminate].
      erewrite bind_ok by apply entry_setattr_line.
      destruct (getitem_unsync s cd Hsync) as (D & Hget & HD).
      erewrite bind_ok by exact Hget.
      destruct (append_unsync (set_dict D s) cd
                  (TimesheetEntry_store
                     (TimesheetEntry___init__ (el_alias e) (el_duration e)
                        (el_description e)) (set_e_line (Some i))) i e)
        as (s1 & x' & Happ & Hs1 & Hl1 & Hh1); auto.
      { simpl. etransitivity; [apply (Hsuf i); lia | exact Hx]. }
      erewrite bind_ok by exact Happ.
      simpl in Hl1, Hh1.
      assert (Hev1 : Forall2 evolved h0 (heap s1)).
      { destruct Hh1 as [Hh | (e' & stop & Hopen & He' & Hh)]; rewrite Hh;
          [exact Hev |].
        rewrite <- (list_insert_id h0 i (EntryLine_ e) Hx).
        apply Forall2_insert; [exact Hev |].
        right. simpl in Hopen. simpl. rewrite Hopen. auto. }
      assert (Hsuf1 : forall j, S i <= j -> heap s1 !! j = h0 !! j).
      { intros j Hj.
        destruct Hh1 as [Hh | (e' & stop & Hopen & He' & Hh)]; rewrite Hh.
        - apply Hsuf. lia.
        - rewrite list_lookup_insert_ne by lia. apply Hsuf. lia. }
      apply IH; auto; [congruence | lia].
    + apply IH; auto; [intros j Hj; apply Hsuf; lia | lia].
  - rewrite lookup_seq_ge by lia. eexists. split; [reflexivity |]. auto.
Qed.

(** More fuel does not change what the loop returns. *)
Lemma loop_fuel_mono (fuel : nat) :
  forall fuel' i cd s out,
    fuel <= fuel' ->
    init_from_str_loop fuel i cd s = Some out ->
    init_from_str_loop fuel' i cd s = Some out.
Proof.
  induction fuel as [|fuel IH]; intros fuel' i cd s out Hle H; [discriminate |].
  destruct fuel' as [|fuel']; [lia |].
  assert (Hle' : fuel <= fuel') by lia.
  simpl in H |- *. unfold mbind, M_bind, get in *.
  destruct (lines s !! i) as [l|]; [| exact H].
  destruct (deref (heap s) l) as [t|e|d t]; eauto.
  destruct (entry_setattr _ _ s) as [[s1 [x|err]]|]; try exact H.
  destruct cd as [cd|]; [| exact H].
  destruct (__getitem__ cd s1) as [[s2 [[]|err]]|]; try exact H.
  destruct (EntriesList_append cd x s2) as [[s3 [x'|err]]|]; try exact H.
  eauto.
Qed.

End BulkLoad.

Section Init.

(** The collection when the load begins: [__init__] has set the flag and
    then cleared it. *)
Lemma init_unfold (today_year : Z) (fuel : nat) (c0 : ascii) (t : string) :
  EntriesCollection___init__ today_year fuel (Some (String c0 t))
  = match init_from_str today_year fuel (String c0 t)
            (set_synchronized false EntriesCollection_blank) with
    | Some (s', r) => Some (set_synchronized true s', r)
    | None => None
    end.
Proof.
  unfold EntriesCollection___init__, try_finally, mbind, M_bind, modify. simpl.
  destruct (init_from_str _ _ _ _) as [[s' r]|]; reflexivity.
Qed.

Lemma init_falsy (today_year : Z) (fuel : nat) (entries : option string) :
  truthy entries = false ->
  EntriesCollection___init__ today_year fuel entries
  = Some (EntriesCollection_blank, Ok tt).
Proof.
  intros H. unfold EntriesCollection___init__, mbind, M_bind, modify. simpl.
  rewrite H. reflexivity.
Qed.

Lemma init_from_str_raise (today_year : Z) (fuel : nat) (text : string)
    (s : EntriesCollection) (e : exn) :
  TimesheetParser.parse today_year text = Raise e ->
  init_from_str today_year fuel text s = Some (s, Raise e).
Proof.
  intros H. unfold init_from_str, mbind, M_bind, lift. now rewrite H.
Qed.

Lemma Forall2_evolved_refl (h : list Line) : Forall2 evolved h h.
Proof. induction h; constructor; auto. now left. Qed.

Lemma parse_length (today_year : Z) (text : string) (parsed : list Line) :
  TimesheetParser.parse today_year text = Ok parsed ->
  length parsed = length (Py.splitlines text).
Proof.
  intros H. apply parser_from_spec in H as [H _].
  apply (f_equal length) in H. now rewrite !length_map in H.
Qed.

(** The load of a text the parser accepts, begun on the blank collection
    with the flag cleared. *)
Lemma init_from_str_ok (today_year : Z) (text : string) (parsed : list Line) :
  TimesheetParser.parse today_year text = Ok parsed ->
  exists s',
    (forall fuel, length parsed < fuel ->
       init_from_str today_year fuel text
         (set_synchronized false EntriesCollection_blank) = Some (s', Ok tt))
    /\ synchronized s' = false
    /\ lines s' = seq 0 (length parsed)
    /\ Forall2 evolved parsed (heap s').
Proof.
  intros Hparse.
  set (s1 := set_lines (seq 0 (length parsed))
               (set_heap parsed (set_synchronized false EntriesCollection_blank))).
  destruct (loop_unsync parsed (S (length parsed)) 0 None s1)
    as (s' & Hloop & Hsync & Hlines & Hev); auto.
  - apply Forall2_evolved_refl.
  - apply parser_from_spec in Hparse as [_ Hd]. exact Hd.
  - lia.
  - exists s'. repeat split; auto.
    intros fuel Hfuel. unfold init_from_str.
    erewrite bind_ok by (unfold lift; rewrite Hparse; reflexivity).
    erewrite bind_ok by apply new_lines_run.
    erewrite bind_ok by reflexivity.
    simpl. eapply loop_fuel_mono; [| exact Hloop]. lia.
Qed.

(** C4: the flag is set when [__init__] begins.  A bulk load runs with
    the flag cleared: it starts from the blank collection with the flag
    off, nothing in it changes the flag, and the flag is set again when it
    is over, whether the load returned or the parser raised.  With enough
    fuel for one step per line the constructor ends.  After a load that
    returned, the document holds the lines the parser produced and no
    other: the insertions of [add_date] and [add_entry] were skipped. *)
Theorem synchronized_flag_around_bulk_load (today_year : Z)
    (entries : option string) :
  exists c r,
    (forall fuel, length (Py.splitlines (default "" entries)) < fuel ->
       EntriesCollection___init__ today_year fuel entries = Some (c, r))
    /\ synchronized c = true
    /\ (truthy entries = false -> r = Ok tt /\ c = EntriesCollection_blank)
    /\ (truthy entries = true ->
        exists s',
          (forall fuel, length (Py.splitlines (default "" entries)) < fuel ->
             init_from_str today_year fuel (default "" entries)
               (set_synchronized false EntriesCollection_blank) = Some (s', r))
          /\ synchronized s' = false
          /\ c = set_synchronized true s'
          /\ match TimesheetParser.parse today_year (default "" entries) with
             | Raise e => r = Raise e /\ lines c = [] /\ heap c = []
             | Ok parsed =>
                 r = Ok tt /\ lines c = seq 0 (length parsed)
                 /\ length (heap c) = length parsed
             end)
    /\ (forall fuel text, keeps_flag (init_from_str today_year fuel text)).
Proof.
  destruct (truthy entries) eqn:Htruthy.
  - destruct entries as [[|c0 t]|]; try discriminate. simpl default.
    destruct (TimesheetParser.parse today_year (String c0 t)) as [parsed|e] eqn:Hp.
    + destruct (init_from_str_ok today_year _ parsed Hp)
        as (s' & Hrun & Hsync & Hlines & Hev).
      pose proof (parse_length _ _ _ Hp) as Hlen.
      exists (set_synchronized true s'), (Ok tt).
      split; [| split; [reflexivity | split; [discriminate | split]]].
      * intros fuel Hfuel. rewrite init_unfold, Hrun by lia. reflexivity.
      * intros _. exists s'. split; [| split; [exact Hsync | split; [reflexivity |]]].
        -- intros fuel Hfuel. apply Hrun. lia.
        -- split; [reflexivity |]. split; [exact Hlines |].
           simpl. symmetry. eapply Forall2_length. exact Hev.
      * intros fuel text. apply keeps_init_from_str.
    + exists EntriesCollection_blank, (Raise e).
      split; [| split; [reflexivity | split; [discriminate | split]]].
      * intros fuel _. rewrite init_unfold.
        rewrite (init_from_str_raise _ _ _ _ e Hp). reflexivity.
      * intros _. exists (set_synchronized false EntriesCollection_blank).
        split; [| split; [reflexivity | split; [reflexivity |]]].
        -- intros fuel _. now apply init_from_str_raise.
        -- auto.
      * intros fuel text. apply keeps_init_from_str.
  - exists EntriesCollection_blank, (Ok tt).
    split; [| split; [reflexivity | split; [auto | split; [discriminate |]]]].
    + intros fuel _. now apply init_falsy.
    + intros fuel text. apply keeps_init_from_str.
Qed.

Lemma synchronized_flag_around_bulk_load_witness :
  exists c,
    EntriesCollection___init__ 2012 2 (Some "foo 1 bar")
    = Some (c, Raise (ParseError "Entries must be defined inside a date section"))
    /\ synchronized c = true.
Proof.
  destruct (synchronized_flag_around_bulk_load 2012 (Some "foo 1 bar"))
    as (c & r & Hrun & Hsync & _).
  exists c. split; [| exact Hsync].
  rewrite (Hrun 2) by (vm_compute; lia).
  specialize (Hrun 2 ltac:(vm_compute; lia)).
  vm_compute in Hrun. injection Hrun as <- <-. reflexivity.
Defined.

Lemma map_deref_seq (h : list Line) : map (deref h) (seq 0 (length h)) = h.
Proof.
  apply list_eq. intros i. rewrite list_lookup_fmap.
  destruct (h !! i) as [x|] eqn:E.
  - rewrite lookup_seq_lt by (eapply lookup_lt_Some; exact E). simpl.
    f_equal. now apply deref_lookup.
  - rewrite lookup_seq_ge by (now apply lookup_ge_None). reflexivity.
Qed.

(** The texts of the lines after the load, when every line still has one:
    the texts the parser stored. *)
Lemma texts_of_evolved (p h : list Line) :
  Forall2 evolved p h ->
  forall ts ls,
    mapM text h = Some ts ->
    map text p = map (fun l => Some (Py.strip l)) ls ->
    ts = map Py.strip ls.
Proof.
  induction 1 as [|x y p h Hxy Hev IH]; intros ts ls Hm Ht.
  - destruct ls; [| discriminate]. simpl in Hm. now injection Hm as <-.
  - destruct ls as [|l ls]; [discriminate |].
    simpl in Ht. injection Ht as Hx Ht.
    apply mapM_Some in Hm. inversion Hm as [|? t ? ts' Hy Hm']; subst.
    apply mapM_Some in Hm'. simpl. f_equal; [| now apply IH].
    destruct Hxy as [-> | (_ & _ & Hnone)]; congruence.
Qed.

Lemma unevolved (p h : list Line) :
  Forall (fun l => open_start l = false) p -> Forall2 evolved p h -> h = p.
Proof.
  intros Hp Hev. induction Hev as [|x y p h Hxy Hev IH]; [reflexivity |].
  apply Forall_cons in Hp as [Hx Hp]. f_equal; [| now apply IH].
  destruct Hxy as [-> | (Ho & _)]; congruence.
Qed.

Lemma mapM_text_parsed (p : list Line) (ls : list string) :
  map text p = map (fun l => Some (Py.strip l)) ls ->
  mapM text p = Some (map Py.strip ls).
Proof.
  intros H. apply mapM_Some. revert ls H.
  induction p as [|x p IH]; intros [|l ls] H; try discriminate; [constructor |].
  simpl in H. injection H as Hx H. constructor; auto.
Qed.

(** A counterexample to C1: the load of [indented_text] serializes to
    [unindented_text]; the two spaces before the entry are gone. *)
Lemma bulk_load_strips_lines_example :
  exists c,
    EntriesCollection___init__ 2012 3 (Some indented_text) = Some (c, Ok tt)
    /\ serialize c = Some unindented_text
    /\ unindented_text <> indented_text.
Proof.
  eexists. split; [vm_compute; reflexivity |]. split; [vm_compute; reflexivity |].
  vm_compute. discriminate.
Qed.

(** C1, amended: the bulk load of a text the parser accepts returns, given
    fuel for one step per line, and whenever the lines of the resulting
    document can be joined (each still has its text) the result is the
    text with each of its lines stripped of the whitespace around it and
    the lines joined by single newlines.  They can be joined when no entry
    line has a range without a start.  So the original text comes back
    exactly when it already has that form. *)
Theorem bulk_load_round_trip (today_year : Z) (entries : string)
    (parsed : list Line) :
  TimesheetParser.parse today_year entries = Ok parsed ->
  let stripped :=
    Py.join (String Py.LF "") (map Py.strip (Py.splitlines entries)) in
  exists c,
    (forall fuel, length (Py.splitlines entries) < fuel ->
       EntriesCollection___init__ today_year fuel (Some entries) = Some (c, Ok tt))
    /\ (forall s, serialize c = Some s -> s = stripped)
    /\ (Forall (fun l => open_start l = false) parsed ->
        serialize c = Some stripped)
    /\ (forall s, serialize c = Some s -> stripped = entries -> s = entries).
Proof.
  intros Hp stripped.
  assert (Hmain : exists c,
    (forall fuel, length (Py.splitlines entries) < fuel ->
       EntriesCollection___init__ today_year fuel (Some entries) = Some (c, Ok tt))
    /\ length (heap c) = length parsed
    /\ lines c = seq 0 (length parsed)
    /\ Forall2 evolved parsed (heap c)).
  { destruct entries as [|c0 t].
    - vm_compute in Hp. injection Hp as <-.
      exists EntriesCollection_blank. repeat split; auto.
    - destruct (init_from_str_ok today_year _ parsed Hp)
        as (s' & Hrun & Hsync & Hlines & Hev).
      pose proof (parse_length _ _ _ Hp) as Hlen.
      exists (set_synchronized true s'). repeat split; auto.
      + intros fuel Hfuel. rewrite init_unfold, Hrun by lia. reflexivity.
      + simpl. symmetry. eapply Forall2_length. exact Hev. }
  destruct Hmain as (c & Hrun & Hlen & Hlines & Hev).
  pose proof (parser_from_spec _ _ _ _ Hp) as [Htexts _].
  assert (Hdoc : document c = heap c).
  { unfold document. rewrite Hlines, <- Hlen. apply map_deref_seq. }
  assert (Hser : forall s, serialize c = Some s -> s = stripped).
  { intros s. unfold serialize. rewrite Hdoc.
    destruct (mapM text (heap c)) as [ts|] eqn:Hm; simpl; [| discriminate].
    intros [= <-]. unfold stripped. f_equal.
    eapply texts_of_evolved; eauto. }
  exists c. split; [exact Hrun |]. split; [exact Hser |]. split.
  - intros Hclosed. unfold serialize. rewrite Hdoc.
    rewrite (unevolved _ _ Hclosed Hev).
    rewrite (mapM_text_parsed _ _ Htexts). reflexivity.
  - intros s Hs Heq. rewrite <- Heq. now apply Hser.
Qed.

Lemma bulk_load_round_trip_witness :
  exists c,
    EntriesCollection___init__ 2012 4 (Some one_entry_text) = Some (c, Ok tt)
    /\ serialize c = Some one_entry_text.
Proof.
  destruct (bulk_load_round_trip 2012 one_entry_text
              [DateLine (datetime.mk_date 2010 1 1) "01.01.2010"; TextLine "";
               EntryLine_ (EntryLine___init__ "foo" (Hours (Py.Finite 1)) "bar"
                             (Some "foo 1 bar"))])
    as (c & Hrun & _ & Hser & _).
  - vm_compute. reflexivity.
  - exists c. split.
    + apply Hrun. vm_compute. lia.
    + rewrite Hser by (repeat constructor). vm_compute. reflexivity.
Defined.

End Init.

(** * Further properties of the parser, the entries and the collection *)

(** ** What [parse_time] returns and raises *)

Module ParseTimeMore.
Import Re ReSem ReFacts TimesheetParser.

Lemma time__ok (h m : Z) (t : datetime.time) :
  datetime.time_ h m = Ok t -> t = datetime.mk_time h m 0 0 /\ valid_time t.
Proof.
  unfold datetime.time_, valid_time.
  destruct (0 <=? h)%Z eqn:E1; destruct (h <=? 23)%Z eqn:E2; simpl; try discriminate;
    destruct (0 <=? m)%Z eqn:E3; destruct (m <=? 59)%Z eqn:E4; simpl; try discriminate.
  intros [= <-]. simpl. split; [reflexivity | lia].
Qed.

Lemma time__raises (h m : Z) (e : exn) :
  datetime.time_ h m = Raise e -> exists msg, e = ValueError msg.
Proof.
  unfold datetime.time_.
  destruct (negb _); [intros [= <-]; eauto |].
  destruct (negb _); [intros [= <-]; eauto | discriminate].
Qed.

Lemma float_raises (s : string) (e : exn) :
  Py.float s = Raise e -> exists msg, e = ValueError msg.
Proof.
  unfold Py.float. destruct (Py.split_sign (Py.strip s)) as [neg body].
  destruct (_ || _); [discriminate |].
  destruct (String.eqb _ _); [discriminate |].
  destruct (Py.float_decimal body); [discriminate |].
  intros [= <-]. eauto.
Qed.

Lemma hm_groups_len (n1 n2 : nat) (p : string) (g g' : groups) :
  matches (hm n1 n2) p g g' ->
  exists a b,
    g' = <[n2 := b]> (<[n1 := a]> g)
    /\ digits a /\ 0 < String.length a /\ digits b /\ 0 < String.length b.
Proof.
  unfold hm. intros H.
  inversion H as [ | | | ? ? p1 p23 ? g1 ? H1 H23 | | | | | | | ]; subst; clear H.
  inversion H23 as [ | | | ? ? p2 p3 ? g2 ? H2 H3 | | | | | | | ]; subst; clear H23.
  inversion H1 as [ | | | | | | | | | | ? ? ? ? g1' H1' ]; subst; clear H1.
  inversion H3 as [ | | | | | | | | | | ? ? ? ? g3' H3' ]; subst; clear H3.
  apply digits_range_1_2 in H1' as (-> & D1 & L1).
  apply ParseTimeRange.opt_colon_groups in H2 as ->.
  apply digits_range_1_2 in H3' as (-> & D3 & L3).
  exists p1, p3. repeat split; auto; lia.
Qed.

(** The groups of a match of the time pattern: the two of the start are set
    together, and so are the two of the end; a group that is set holds
    digits. *)
Lemma time_re_groups (p : string) (m : groups) :
  matches time_re p ∅ m ->
  ((exists a b, m !! 1 = Some a /\ m !! 2 = Some b
                /\ digits a /\ 0 < String.length a
                /\ digits b /\ 0 < String.length b)
   \/ (m !! 1 = None /\ m !! 2 = None))
  /\ ((exists c d, m !! 3 = Some c /\ m !! 4 = Some d
                   /\ digits c /\ 0 < String.length c
                   /\ digits d /\ 0 < String.length d)
      \/ (m !! 3 = None /\ m !! 4 = None)).
Proof.
  rewrite ParseTimeRange.time_re_hm. intros H.
  inversion H as [ | | | ? ? p1 p2 ? g1 ? H1 H2 | | | | | | | ]; subst; clear H.
  inversion H2 as [ | | | ? ? p3 p4 ? g2 ? H3 H4 | | | | | | | ]; subst; clear H2.
  inversion H3; subst; clear H3.
  inversion H1; subst; clear H1; inversion H4; subst; clear H4;
    repeat match goal with
      | H : matches (hm _ _) _ _ _ |- _ =>
          apply hm_groups_len in H as (? & ? & -> & ? & ? & ? & ?)
      | H : matches (Char _) _ _ _ |- _ => inversion H; subst; clear H
      end;
    (split; [first [left; do 2 eexists; repeat split; eauto; by simplify_map_eq
                   | right; split; by simplify_map_eq]
            | first [left; do 2 eexists; repeat split; eauto; by simplify_map_eq
                    | right; split; by simplify_map_eq]]).
Qed.

Lemma int_opt_digits (a : string) :
  digits a -> 0 < String.length a -> Py.int_opt (Some a) = Ok (Py.digits_val 0 a).
Proof. intros. simpl. now apply ExtractDate.int_digits. Qed.

Lemma parse_time_end_outcome (m : groups) :
  ((exists c d, m !! 3 = Some c /\ m !! 4 = Some d
                /\ digits c /\ 0 < String.length c
                /\ digits d /\ 0 < String.length d)
   \/ (m !! 3 = None /\ m !! 4 = None)) ->
  (exists t, parse_time_end m = Ok t)
  \/ (exists msg, parse_time_end m = Raise (ValueError msg)).
Proof.
  unfold parse_time_end, group.
  intros [(c & d & -> & -> & Dc & Lc & Dd & Ld) | [-> ->]]; simpl.
  - rewrite (ExtractDate.int_digits c Dc Lc), (ExtractDate.int_digits d Dd Ld). simpl.
    destruct (datetime.time_ _ _) as [t|e] eqn:E; simpl; [eauto |].
    apply time__raises in E as [msg ->]. eauto.
  - eauto.
Qed.

Lemma parse_time_outcome (s : string) :
  (exists d, parse_time s = Ok d)
  \/ (exists msg, parse_time s = Raise (ParseError msg)).
Proof.
  unfold parse_time. destruct (re_match time_re s) as [m|] eqn:E.
  - apply re_match_sound in E as (p & s' & -> & M).
    apply time_re_groups in M as [Hstart Hend].
    pose proof (parse_time_end_outcome m Hend) as Hend'.
    unfold group.
    destruct Hstart as [(a & b & Ha & Hb & Da & La & Db & Lb) | [Ha Hb]];
      rewrite Ha, Hb; simpl.
    + rewrite (ExtractDate.int_digits a Da La), (ExtractDate.int_digits b Db Lb).
      simpl.
      destruct (datetime.time_ _ _) as [t|e] eqn:Et; simpl.
      * destruct Hend' as [[t' ->] | [msg ->]]; simpl; eauto.
      * apply time__raises in Et as [msg ->]. eauto.
    + destruct Hend' as [[t ->] | [msg ->]]; simpl; eauto.
  - destruct (Py.float s) as [h|e] eqn:E'; [eauto |].
    apply float_raises in E' as [msg ->]. eauto.
Qed.

(** X1: Whatever the token, [parse_time] returns a duration or raises
    [ParseError]: the [ValueError]s of [datetime.time] and of [float] are
    all converted, and no group is read that did not take part in the
    match. *)
Theorem parse_time_raises_only_ParseError (s : string) :
  (exists d, parse_time s = Ok d)
  \/ (exists msg, parse_time s = Raise (ParseError msg)).
Proof. apply parse_time_outcome. Qed.

Lemma parse_time_end_valid (m : groups) (t : datetime.time) :
  parse_time_end m = Ok (Some t) ->
  valid_time t /\ datetime.second t = 0%Z /\ datetime.microsecond t = 0%Z.
Proof.
  unfold parse_time_end. destruct (_ && _); [| intros [=]].
  destruct (Py.int_opt (group m 3)) as [h|]; simpl; [| discriminate].
  destruct (Py.int_opt (group m 4)) as [mi|]; simpl; [| discriminate].
  destruct (datetime.time_ h mi) as [t'|] eqn:E; simpl; [| discriminate].
  intros [= <-]. apply time__ok in E as [-> Hv]. auto.
Qed.

(** X2: Every time in a range that [parse_time] returns is a time of day:
    the hour is at most 23, the minute at most 59, and seconds and
    microseconds are zero. *)
Theorem parse_time_range_valid (s : string) (start stop : option datetime.time)
    (t : datetime.time) :
  parse_time s = Ok (Range start stop) ->
  start = Some t \/ stop = Some t ->
  valid_time t /\ datetime.second t = 0%Z /\ datetime.microsecond t = 0%Z.
Proof.
  unfold parse_time. destruct (re_match time_re s) as [m|].
  - destruct (_ && _).
    + destruct (parse_time_end m) as [e|err] eqn:Ee; simpl;
        [| destruct err; discriminate].
      intros [= <- <-] [? | ->]; [discriminate |].
      now apply (parse_time_end_valid m).
    + destruct (Py.int_opt (group m 1)) as [h|err]; simpl;
        [| destruct err; discriminate].
      destruct (Py.int_opt (group m 2)) as [mi|err]; simpl;
        [| destruct err; discriminate].
      destruct (datetime.time_ h mi) as [t0|err] eqn:E0; simpl;
        [| destruct err; discriminate].
      destruct (parse_time_end m) as [e|err] eqn:Ee; simpl;
        [| destruct err; discriminate].
      intros [= <- <-] [[= <-] | ->].
      * apply time__ok in E0 as [-> Hv]. auto.
      * now apply (parse_time_end_valid m).
  - destruct (Py.float s) as [h|[]]; discriminate.
Qed.

Lemma parse_time_range_valid_witness :
  valid_time (at_ 9 0).
Proof.
  apply (parse_time_range_valid "09:00-?" (Some (at_ 9 0)) None (at_ 9 0)).
  - vm_compute. reflexivity.
  - left. reflexivity.
Defined.

End ParseTimeMore.

(** ** What [extract_date] returns and raises *)

Module ExtractDateMore.
Import Re ReSem ReFacts TimesheetParser ExtractDate.

Lemma date__ok (y m d : Z) (x : datetime.date) :
  datetime.date_ y m d = Ok x -> valid_date x.
Proof.
  unfold datetime.date_, valid_date.
  destruct (1 <=? y)%Z eqn:E1; destruct (y <=? 9999)%Z eqn:E2; simpl; try discriminate.
  destruct (1 <=? m)%Z eqn:E3; destruct (m <=? 12)%Z eqn:E4; simpl; try discriminate.
  destruct (1 <=? d)%Z eqn:E5;
    destruct (d <=? datetime.days_in_month y m)%Z eqn:E6; simpl; try discriminate.
  intros [= <-]. simpl. lia.
Qed.

Lemma date__raises (y m d : Z) (e : exn) :
  datetime.date_ y m d = Raise e -> exists msg, e = ValueError msg.
Proof.
  unfold datetime.date_.
  destruct (negb _); [intros [= <-]; eauto |].
  destruct (negb _); [intros [= <-]; eauto |].
  destruct (negb _); [intros [= <-]; eauto | discriminate].
Qed.

(** [extract_date] either finds no date or builds one from three
    numbers. *)
Lemma extract_date_cases (today_year : Z) (line : string) :
  extract_date today_year line
  = Raise (ValueError "No date could be extracted from the given value")
  \/ exists y m d, extract_date today_year line = datetime.date_ y m d.
Proof.
  unfold extract_date.
  destruct (re_match date_re_dmy line) as [m|] eqn:E1; simpl.
  - right. apply re_match_sound in E1 as (p & s' & -> & M).
    apply dmy_groups in M as (d & mo & y & -> & Dd & Ld & Dmo & Lmo & Dy & Ly).
    unfold group.
    repeat (rewrite lookup_insert_eq || rewrite lookup_insert_ne by done).
    simpl.
    replace (Nat.eqb (String.length d) 4) with false
      by (destruct Ld as [-> | ->]; reflexivity).
    rewrite (int_digits y Dy) by lia.
    rewrite (int_digits mo Dmo) by lia.
    rewrite (int_digits d Dd) by lia.
    destruct (Nat.eqb (String.length y) 2); simpl; eauto.
  - destruct (re_match date_re_ymd line) as [m|] eqn:E2; [| now left].
    right. apply re_match_sound in E2 as (p & s' & -> & M).
    apply ymd_groups in M as (y & mo & d & -> & Dy & Ly & Dmo & Lmo & Dd & Ld).
    unfold group.
    repeat (rewrite lookup_insert_eq || rewrite lookup_insert_ne by done).
    simpl. rewrite Ly. simpl.
    rewrite (int_digits y Dy) by lia.
    rewrite (int_digits mo Dmo) by lia.
    rewrite (int_digits d Dd) by lia.
    simpl. eauto.
Qed.

Lemma extract_date_cases_raise (today_year : Z) (line : string) :
  (forall d, extract_date today_year line = Ok d -> valid_date d)
  /\ (forall e, extract_date today_year line = Raise e ->
        exists msg, e = ValueError msg).
Proof.
  destruct (extract_date_cases today_year line) as [-> | (y & m & d & ->)].
  - split; [discriminate |]. intros e [= <-]. eauto.
  - split; [intros x; apply date__ok | intros e; apply date__raises].
Qed.

(** X3: A date that [extract_date] returns is a date of the calendar, and all
    it raises is [ValueError]: for a line without a date and for digits
    that name no day of the calendar alike. *)
Theorem extract_date_outcome (today_year : Z) (line : string) :
  (forall d, extract_date today_year line = Ok d -> valid_date d)
  /\ (forall e, extract_date today_year line = Raise e ->
        exists msg, e = ValueError msg).
Proof. apply extract_date_cases_raise. Qed.

Lemma extract_date_outcome_witness :
  valid_date (datetime.mk_date 2012 8 5).
Proof.
  apply (proj1 (extract_date_outcome 2012 "05/08/12")).
  vm_compute. reflexivity.
Defined.

Lemma digits_length_1 (s : string) :
  String.length s = 1 -> exists a, s = String a "".
Proof. destruct s as [|a [|]]; try discriminate. eauto. Qed.

Lemma digits_length_2 (s : string) :
  String.length s = 2 -> exists a b, s = String a (String b "").
Proof. destruct s as [|a [|b [|]]]; try discriminate. eauto. Qed.

(** A match of the day/month/year pattern begins with one or two digits
    and a character that is no digit. *)
Lemma dmy_prefix (p : string) (g m : groups) :
  matches date_re_dmy p g m ->
  exists d c rest,
    p = d +:+ String c rest /\ digits d
    /\ (String.length d = 1 \/ String.length d = 2) /\ Py.isdigit c = false.
Proof.
  unfold date_re_dmy. intros H.
  inversion H as [ | | | ? ? p1 q1 ? g1 ? H1 K1 | | | | | | | ]; subst; clear H.
  inversion K1 as [ | | | ? ? p2 q2 ? g2 ? H2 K2 | | | | | | | ]; subst; clear K1.
  inversion H1 as [ | | | | | | | | | | ? ? ? ? ? H1' ]; subst; clear H1.
  inversion H2; subst; clear H2.
  apply digits_range_1_2 in H1' as (_ & D1 & L1).
  exists p1, c, q2. rewrite append_cons, append_nil_l. auto.
Qed.

(** A match of the year/month/day pattern begins with four digits. *)
Lemma ymd_prefix (p : string) (g m : groups) :
  matches date_re_ymd p g m ->
  exists y rest, p = y +:+ rest /\ digits y /\ String.length y = 4.
Proof.
  unfold date_re_ymd. intros H.
  inversion H as [ | | | ? ? p1 q1 ? g1 ? H1 K1 | | | | | | | ]; subst; clear H.
  inversion H1 as [ | | | | | | | | | | ? ? ? ? ? H1' ]; subst; clear H1.
  apply digits_exactly_4 in H1' as (_ & D1 & L1).
  eauto.
Qed.

(** X4: No line matches both date patterns: the first asks for a character
    that is no digit in second or third place, the second for a digit
    there.  The order in which [extract_date] tries them decides
    nothing. *)
Theorem date_patterns_exclusive (line : string) (m : groups) :
  re_match date_re_dmy line = Some m -> re_match date_re_ymd line = None.
Proof.
  intros E1. destruct (re_match date_re_ymd line) as [m'|] eqn:E2; [| reflexivity].
  exfalso.
  apply re_match_sound in E1 as (p & s1 & Hl1 & M1).
  apply re_match_sound in E2 as (p' & s2 & Hl2 & M2).
  apply dmy_prefix in M1 as (d & c & rest & -> & Dd & Ld & Hc).
  apply ymd_prefix in M2 as (y & rest' & -> & Dy & Ly).
  rewrite Hl1 in Hl2. clear Hl1.
  destruct y as [|y1 [|y2 [|y3 [|y4 [|]]]]]; try discriminate.
  simpl in Dy. destruct Dy as (D1 & D2 & D3 & D4 & _).
  destruct Ld as [Ld | Ld].
  - apply digits_length_1 in Ld as [a ->].
    autorewrite with str in Hl2. injection Hl2 as _ -> _. congruence.
  - apply digits_length_2 in Ld as (a & b & ->).
    autorewrite with str in Hl2. injection Hl2 as _ _ -> _. congruence.
Qed.

Lemma date_patterns_exclusive_witness :
  re_match date_re_ymd "05/08/12" = None.
Proof.
  apply (date_patterns_exclusive "05/08/12"
           (<[3 := "12"]> (<[2 := "08"]> (<[1 := "05"]> ∅)))).
  vm_compute. reflexivity.
Defined.

End ExtractDateMore.

(** ** What the parser returns and when it raises *)

Section ParserShape.
Import TimesheetParser.

Lemma parser_from_lines (today_year : Z) (ls : list string) :
  forall cd out,
    parser_from today_year cd ls = Ok out ->
    Forall2
      (fun src l =>
         text l = Some (Py.strip src)
         /\ (blank_or_comment src = true <->
             is_EntryLine l = false /\ is_DateLine l = false)
         /\ (forall d t, l = DateLine d t -> extract_date today_year t = Ok d))
      ls out.
Proof.
  induction ls as [|l ls IH]; intros cd out H; simpl in H.
  - injection H as <-. constructor.
  - fold (blank_or_comment l) in H.
    destruct (blank_or_comment l) eqn:Eb.
    + destruct (parser_from today_year cd ls) as [rest|] eqn:E; simpl in H;
        [| discriminate].
      injection H as <-. constructor; [| eapply IH; eauto].
      split; [reflexivity | split; [split; auto | discriminate]].
    + destruct (extract_date today_year (Py.strip l)) as [d|[]] eqn:Ed;
        try discriminate.
      * destruct (parser_from today_year (Some d) ls) as [rest|] eqn:E;
          simpl in H; [| discriminate].
        injection H as <-. constructor; [| eapply IH; eauto].
        split; [reflexivity | split; [split |]].
        -- intros Hb. congruence.
        -- intros [_ Hf]. discriminate Hf.
        -- intros d' t [= <- <-]. exact Ed.
      * destruct cd as [d0|]; simpl in H; [| discriminate].
        destruct (_parse_entry_line (Py.strip l)) as [x|] eqn:Ex; simpl in H;
          [| discriminate].
        destruct (parser_from today_year (Some d0) ls) as [rest|] eqn:E;
          simpl in H; [| discriminate].
        injection H as <-. constructor; [| eapply IH; eauto].
        apply parse_entry_line_kind in Ex as (e & -> & He).
        split; [exact He | split; [split |]].
        -- intros Hb. congruence.
        -- intros [Hf _]. discriminate Hf.
        -- discriminate.
Qed.

(** X5: [parse] returns one line object for each line of the text, in order.
    Each carries the stripped line as its text; it is a plain text line
    exactly when the stripped line is empty or begins with [#]; the date of
    a date line is the one [extract_date] reads in its text; and no entry
    line comes before the first date line. *)
Theorem parse_shape (today_year : Z) (source : string) (out : list Line) :
  parse today_year source = Ok out ->
  Forall2
    (fun src l =>
       text l = Some (Py.strip src)
       /\ (blank_or_comment src = true <->
           is_EntryLine l = false /\ is_DateLine l = false)
       /\ (forall d t, l = DateLine d t -> extract_date today_year t = Ok d))
    (Py.splitlines source) out
  /\ dated false out.
Proof.
  intros H. split.
  - eapply parser_from_lines. exact H.
  - apply parser_from_spec in H as [_ Hd]. exact Hd.
Qed.

Lemma parse_shape_witness :
  dated false
    [DateLine (datetime.mk_date 2010 1 1) "01.01.2010"; TextLine "";
     EntryLine_ (EntryLine___init__ "foo" (Hours (Py.Finite 1)) "bar"
                   (Some "foo 1 bar"))].
Proof.
  apply (parse_shape 2012 one_entry_text). vm_compute. reflexivity.
Defined.

(** X6: A text whose first line that is neither blank nor a comment holds no
    date is refused, whatever follows: [parser] raises [ParseError], also
    when the line looks like a date that the calendar does not have. *)
Theorem parser_entry_before_date (today_year : Z) (pre rest : list string)
    (l msg : string) :
  Forall (fun src => blank_or_comment src = true) pre ->
  blank_or_comment l = false ->
  extract_date today_year (Py.strip l) = Raise (ValueError msg) ->
  parser today_year (pre ++ l :: rest)
  = Raise (ParseError "Entries must be defined inside a date section").
Proof.
  intros Hpre Hl Hd. unfold parser.
  induction Hpre as [|x pre Hx Hpre IH]; simpl.
  - fold (blank_or_comment l). rewrite Hl, Hd. reflexivity.
  - fold (blank_or_comment x). rewrite Hx, IH. reflexivity.
Qed.

Lemma parser_entry_before_date_witness :
  parser 2012 ["# notes"; ""; "31.02.2010 foo bar"; "01.01.2010"]
  = Raise (ParseError "Entries must be defined inside a date section").
Proof.
  apply (parser_entry_before_date 2012 ["# notes"; ""] ["01.01.2010"]
           "31.02.2010 foo bar" "day is out of range for month").
  - repeat constructor.
  - reflexivity.
  - vm_compute. reflexivity.
Defined.

(** X7: The [alias] property never shows a question mark.  After
    [line.alias = v] the attribute [_alias] holds [v] as written, and what
    is read through the property is [v] without its question marks. *)
Theorem alias_property (self : EntryLine) (v : string) :
  _alias (EntryLine___setattr__ self (set_alias v)) = v
  /\ el_alias (EntryLine___setattr__ self (set_alias v)) = remove_char "?" v
  /\ remove_char "?" (el_alias self) = el_alias self.
Proof.
  split; [reflexivity |]. split; [reflexivity |].
  unfold el_alias. induction (_alias self) as [|c s IH]; simpl; [reflexivity |].
  destruct (Ascii.eqb c "?") eqn:E; [exact IH |].
  simpl. rewrite E, IH. reflexivity.
Qed.

End ParserShape.

(** ** The text of a range is read back as the range *)

Module GenerateTextFacts.
Import Re TimesheetParser.

Lemma pad2_check :
  forallb
    (fun n =>
       match pad2 n with
       | String c1 (String c2 EmptyString) =>
           Py.isdigit c1 && Py.isdigit c2 && (Py.digits_val 0 (pad2 n) =? n)%Z
       | _ => false
       end)
    (map Z.of_nat (seq 0 60)) = true.
Proof. vm_compute. reflexivity. Qed.

(** [%H] and [%M] write two digits that read back as the number. *)
Lemma pad2_two_digits (n : Z) :
  (0 <= n <= 59)%Z ->
  exists c1 c2,
    pad2 n = String c1 (String c2 "")
    /\ Py.isdigit c1 = true /\ Py.isdigit c2 = true
    /\ Py.digits_val 0 (String c1 (String c2 "")) = n.
Proof.
  intros Hn. pose proof pad2_check as H.
  rewrite forallb_forall in H. specialize (H n).
  assert (Hin : In n (map Z.of_nat (seq 0 60))).
  { apply in_map_iff. exists (Z.to_nat n). split; [lia |]. apply in_seq. lia. }
  specialize (H Hin).
  destruct (pad2 n) as [|c1 [|c2 [|]]]; try discriminate.
  apply andb_true_iff in H as [H H3]. apply andb_true_iff in H as [H1 H2].
  exists c1, c2. repeat split; auto. now apply Z.eqb_eq.
Qed.

Lemma time__valid (h m : Z) :
  (0 <= h <= 23)%Z -> (0 <= m <= 59)%Z ->
  datetime.time_ h m = Ok (datetime.mk_time h m 0 0).
Proof.
  intros Hh Hm. unfold datetime.time_.
  destruct (Z.leb_spec 0 h); [| lia]. destruct (Z.leb_spec h 23); [| lia].
  destruct (Z.leb_spec 0 m); [| lia]. destruct (Z.leb_spec m 59); [| lia].
  reflexivity.
Qed.

(** The shape of [strftime('%H:%M')] on a time of the clock. *)
Lemma strftime_HM_shape (t : datetime.time) :
  whole_minute t ->
  exists c1 c2 c3 c4,
    strftime_HM t = String c1 (String c2 (String ":" (String c3 (String c4 ""))))
    /\ Py.isdigit c1 = true /\ Py.isdigit c2 = true
    /\ Py.isdigit c3 = true /\ Py.isdigit c4 = true
    /\ Py.int (String c1 (String c2 "")) = Ok (datetime.hour t)
    /\ Py.int (String c3 (String c4 "")) = Ok (datetime.minute t)
    /\ datetime.time_ (datetime.hour t) (datetime.minute t) = Ok t.
Proof.
  intros [[Hh Hm] [Hs Hu]].
  destruct (pad2_two_digits (datetime.hour t)) as (c1 & c2 & E1 & D1 & D2 & V1); [lia |].
  destruct (pad2_two_digits (datetime.minute t)) as (c3 & c4 & E2 & D3 & D4 & V2); [lia |].
  exists c1, c2, c3, c4. unfold strftime_HM. rewrite E1, E2.
  split; [reflexivity |]. do 4 (split; [assumption |]).
  split; [| split].
  - rewrite ExtractDate.int_digits; [now rewrite V1 | simpl; auto | simpl; lia].
  - rewrite ExtractDate.int_digits; [now rewrite V2 | simpl; auto | simpl; lia].
  - rewrite (time__valid _ _ Hh Hm). destruct t; simpl in *. now subst.
Qed.


Ltac digit_step :=
  repeat match goal with
  | H : Py.isdigit ?c = true |- context [Py.isdigit ?c] => rewrite H; simpl
  end.

Ltac int_step :=
  repeat match goal with
  | H : Py.int ?s = Ok _ |- context [Py.int ?s] => rewrite H; simpl
  | H : datetime.time_ ?h ?m = Ok _ |- context [datetime.time_ ?h ?m] =>
      rewrite H; simpl
  end.

Ltac shape t :=
  let E := fresh "E" in
  destruct (strftime_HM_shape t) as (? & ? & ? & ? & E & ? & ? & ? & ? & ? & ? & ?);
  [auto | rewrite E].

Ltac read_back :=
  cbv beta iota zeta delta [String.append];
  unfold parse_time, re_match, time_re; simpl; digit_step;
  unfold consumed, group; simpl; simplify_map_eq;
  int_step; unfold parse_time_end, group; simplify_map_eq; int_step;
  reflexivity.

(** [parse_time] on the text of a range. *)
Lemma parse_time_duration_text (float_text : Py.pyfloat -> string)
    (d : Duration) :
  clock_range d -> parse_time (duration_text float_text d) = Ok d.
Proof.
  destruct d as [h | start stop]; [intros [] |].
  intros Hd. simpl in Hd.
  destruct start as [t1|], stop as [t2|]; simpl.
  - shape t1. shape t2. read_back.
  - shape t1. read_back.
  - shape t2. read_back.
  - read_back.
Qed.

End GenerateTextFacts.

Module GenerateTextRoundTrip.
Import Re TimesheetParser.

(** X8: The duration text that [generate_text] writes for a range, of times
    on the clock without seconds, is read back by [parse_time] as that
    range: both times, an open start, an open end (written [?]) or both. *)
Theorem duration_text_round_trip (float_text : Py.pyfloat -> string)
    (d : Duration) :
  clock_range d -> TimesheetParser.parse_time (duration_text float_text d) = Ok d.
Proof. apply GenerateTextFacts.parse_time_duration_text. Qed.

Lemma duration_text_round_trip_witness :
  TimesheetParser.parse_time
    (duration_text (fun _ => "") (Range (Some (datetime.mk_time 9 5 0 0)) None))
  = Ok (Range (Some (datetime.mk_time 9 5 0 0)) None).
Proof.
  apply (duration_text_round_trip (fun _ => "")
           (Range (Some (datetime.mk_time 9 5 0 0)) None)).
  intros t [H | H]; [| discriminate].
  injection H as <-. unfold whole_minute, valid_time. simpl. lia.
Defined.

End GenerateTextRoundTrip.

Module EntryLineRoundTrip.
Import Re TimesheetParser GenerateTextFacts ReFacts.

Lemma no_space_head (w r : string) :
  no_space w = true -> w <> "" ->
  exists c s, w +:+ r = String c s /\ Py.isspace c = false.
Proof.
  destruct w as [|c w]; [congruence |]. simpl. intros H _.
  apply andb_true_iff in H as [H _]. apply negb_true_iff in H.
  exists c, (w +:+ r). split; [apply append_cons | exact H].
Qed.

Lemma take_word_no_space (w r : string) :
  no_space w = true ->
  Py.take_word (w +:+ String " " r) = (w, String " " r).
Proof.
  induction w as [|c w IH]; intros H.
  - reflexivity.
  - simpl in H. apply andb_true_iff in H as [Hc Hw]. apply negb_true_iff in Hc.
    rewrite append_cons. simpl. rewrite Hc, (IH Hw). reflexivity.
Qed.

(** A word followed by a blank is the first chunk of [split]. *)
Lemma split_word (w r : string) (n : nat) :
  no_space w = true -> w <> "" ->
  Py.split (w +:+ String " " r) (S n) = w :: Py.split r n.
Proof.
  intros Hw Hne.
  destruct (no_space_head w (String " " r) Hw Hne) as (c & s & E & Hc).
  pose proof (take_word_no_space w r Hw) as Ht.
  rewrite E in Ht |- *.
  assert (Hl : Py.lstrip (String c s) = String c s).
  { simpl. now rewrite Hc. }
  transitivity (w :: Py.split (String " " r) n).
  - change (Py.split (String c s) (S n))
      with (match Py.lstrip (String c s) with
            | EmptyString => []
            | s1 => let '(w, r) := Py.take_word s1 in w :: Py.split r n
            end).
    rewrite Hl, Ht. reflexivity.
  - destruct n; reflexivity.
Qed.

Lemma split_rest (d : string) :
  Py.lstrip d = d -> d <> "" -> Py.split d 0 = [d].
Proof.
  intros Hl Hne. unfold Py.split. rewrite Hl.
  destruct d; [congruence | reflexivity].
Qed.

Lemma no_space_app (a b : string) :
  no_space a = true -> no_space b = true -> no_space (a +:+ b) = true.
Proof.
  induction a as [|c a IH]; intros Ha Hb; [exact Hb |].
  rewrite append_cons. simpl in *.
  apply andb_true_iff in Ha as [Hc Ha]. rewrite Hc. simpl. auto.
Qed.

Lemma app_not_empty (a b : string) : a <> "" -> a +:+ b <> "".
Proof. destruct a; [congruence |]. rewrite append_cons. discriminate. Qed.

(** The text of a range holds no whitespace. *)
Lemma duration_text_word (float_text : Py.pyfloat -> string) (d : Duration) :
  clock_range d ->
  no_space (duration_text float_text d) = true
  /\ duration_text float_text d <> "".
Proof.
  destruct d as [h | start stop]; [intros [] |].
  intros Hd. simpl in Hd.
  assert (Hs : forall t, whole_minute t ->
             no_space (strftime_HM t) = true).
  { intros t Ht.
    destruct (strftime_HM_shape t Ht)
      as (c1 & c2 & c3 & c4 & E & D1 & D2 & D3 & D4 & _).
    rewrite E. simpl.
    rewrite !ExtractDate.isdigit_not_space by assumption. reflexivity. }
  split.
  - simpl. apply no_space_app; [| apply no_space_app].
    + destruct start; [apply Hs; auto | reflexivity].
    + reflexivity.
    + destruct stop; [apply Hs; auto | reflexivity].
  - simpl. intros H.
    apply (f_equal String.length) in H. rewrite !length_append in H.
    simpl in H. lia.
Qed.

Lemma remove_char_idem (a : ascii) (s : string) :
  remove_char a (remove_char a s) = remove_char a s.
Proof.
  induction s as [|c s IH]; simpl; [reflexivity |].
  destruct (Ascii.eqb c a) eqn:E; [exact IH |].
  simpl. rewrite E, IH. reflexivity.
Qed.

Lemma remove_char_app (a : ascii) (s t : string) :
  remove_char a (s +:+ t) = remove_char a s +:+ remove_char a t.
Proof.
  induction s as [|c s IH]; [reflexivity |].
  rewrite append_cons. simpl. destruct (Ascii.eqb c a); [exact IH |].
  rewrite append_cons, IH. reflexivity.
Qed.

(** X9: An entry line that is not commented, whose alias is a word, whose
    duration is a range of times on the clock and whose description is not
    empty and does not begin with whitespace: the text [generate_text]
    builds for it is split by [_parse_entry_line] into the same three
    parts.  The line read back has the same alias (an ignored line writes
    [alias?], which the [alias] property undoes), the same duration and the
    same description, and keeps the generated text as its text. *)
Theorem generate_text_round_trip (float_text : Py.pyfloat -> string)
    (self : EntryLine) :
  el_commented self = false ->
  clock_range (el_duration self) ->
  no_space (el_alias self) = true -> el_alias self <> "" ->
  Py.lstrip (el_description self) = el_description self ->
  el_description self <> "" ->
  exists line,
    _parse_entry_line (generate_text float_text self) = Ok (EntryLine_ line)
    /\ el_alias line = el_alias self
    /\ el_duration line = el_duration self
    /\ el_description line = el_description self
    /\ el_text line = Some (generate_text float_text self).
Proof.
  intros Hc Hd Ha Hane Hl Hdne.
  destruct (duration_text_word float_text _ Hd) as [Hw Hwne].
  pose proof (parse_time_duration_text float_text _ Hd) as Hp.
  set (alias := if el_ignored self then el_alias self +:+ "?" else el_alias self).
  assert (Hal : no_space alias = true /\ alias <> ""
                /\ remove_char "?" alias = el_alias self).
  { unfold alias. destruct (el_ignored self).
    - split; [apply no_space_app; auto |].
      split; [now apply app_not_empty |].
      unfold el_alias. rewrite remove_char_app, remove_char_idem. simpl.
      apply append_nil_r.
    - split; [assumption | split; [assumption |]].
      unfold el_alias. apply remove_char_idem. }
  destruct Hal as (Hal1 & Hal2 & Hal3).
  exists (EntryLine___init__ alias (el_duration self) (el_description self)
            (Some (generate_text float_text self))).
  split; [| split; [exact Hal3 | repeat split]].
  unfold _parse_entry_line.
  assert (Hs : Py.split (generate_text float_text self) 2
               = [alias; duration_text float_text (el_duration self);
                  el_description self]).
  { unfold generate_text. rewrite Hc. fold alias. rewrite append_nil_l.
    assert (Hsp : forall x, " " +:+ x = String " " x) by reflexivity.
    rewrite !Hsp.
    rewrite (split_word alias _ 1 Hal1 Hal2).
    rewrite (split_word _ _ 0 Hw Hwne).
    rewrite (split_rest _ Hl Hdne). reflexivity. }
  rewrite Hs, Hp. reflexivity.
Qed.

Lemma generate_text_round_trip_witness :
  exists line,
    _parse_entry_line
      (generate_text (fun _ => "")
         (mk_EntryLine "foo?"
            (Range (Some (datetime.mk_time 9 5 0 0)) (Some (datetime.mk_time 10 30 0 0)))
            "bar baz" false true None))
    = Ok (EntryLine_ line)
    /\ el_alias line = "foo"
    /\ el_duration line
       = Range (Some (datetime.mk_time 9 5 0 0)) (Some (datetime.mk_time 10 30 0 0))
    /\ el_description line = "bar baz"
    /\ el_text line = Some "foo? 09:05-10:30 bar baz".
Proof.
  apply (generate_text_round_trip (fun _ => "")
           (mk_EntryLine "foo?"
              (Range (Some (datetime.mk_time 9 5 0 0))
                 (Some (datetime.mk_time 10 30 0 0)))
              "bar baz" false true None)).
  - reflexivity.
  - intros t [H | H]; injection H as <-;
      unfold whole_minute, valid_time; simpl; lia.
  - reflexivity.
  - discriminate.
  - reflexivity.
  - discriminate.
Defined.

End EntryLineRoundTrip.

(** ** The text of a date line is read back as its date *)

Module DateLineRoundTrip.
Import Re TimesheetParser GenerateTextFacts.

Lemma pretty_year_check :
  forallb
    (fun n =>
       match pretty n with
       | String c1 (String c2 (String c3 (String c4 EmptyString))) =>
           Py.isdigit c1 && Py.isdigit c2 && Py.isdigit c3 && Py.isdigit c4
           && (Py.digits_val 0 (pretty n) =? n)%Z
       | _ => false
       end)
    (seqZ 1000 9000) = true.
Proof. vm_compute. reflexivity. Qed.

(** [%Y] writes four digits that read back as the year. *)
Lemma pretty_year (y : Z) :
  (1000 <= y <= 9999)%Z ->
  exists c1 c2 c3 c4,
    pretty y = String c1 (String c2 (String c3 (String c4 "")))
    /\ Py.isdigit c1 = true /\ Py.isdigit c2 = true
    /\ Py.isdigit c3 = true /\ Py.isdigit c4 = true
    /\ Py.int (pretty y) = Ok y.
Proof.
  intros Hy. pose proof pretty_year_check as H.
  rewrite forallb_forall in H. specialize (H y).
  assert (Hin : In y (seqZ 1000 9000)).
  { apply list_elem_of_In, elem_of_seqZ. lia. }
  specialize (H Hin).
  destruct (pretty y) as [|c1 [|c2 [|c3 [|c4 [|]]]]]; try discriminate.
  apply andb_true_iff in H as [H H5]. apply andb_true_iff in H as [H H4].
  apply andb_true_iff in H as [H H3]. apply andb_true_iff in H as [H1 H2].
  exists c1, c2, c3, c4. repeat split; auto.
  rewrite ExtractDate.int_digits; [| simpl; auto | simpl; lia].
  f_equal. now apply Z.eqb_eq.
Qed.

Lemma date__valid (d : datetime.date) :
  valid_date d ->
  datetime.date_ (datetime.year d) (datetime.month d) (datetime.day d) = Ok d.
Proof.
  intros (Hy & Hm & Hd). unfold datetime.date_.
  destruct (Z.leb_spec 1 (datetime.year d)); [| lia].
  destruct (Z.leb_spec (datetime.year d) 9999); [| lia].
  destruct (Z.leb_spec 1 (datetime.month d)); [| lia].
  destruct (Z.leb_spec (datetime.month d) 12); [| lia].
  destruct (Z.leb_spec 1 (datetime.day d)); [| lia].
  destruct (Z.leb_spec (datetime.day d)
              (datetime.days_in_month (datetime.year d) (datetime.month d)));
    [| lia].
  simpl. now destruct d.
Qed.

Lemma days_in_month_bound (y m : Z) : (datetime.days_in_month y m <= 31)%Z.
Proof.
  unfold datetime.days_in_month.
  repeat match goal with
         | |- context [if ?b then _ else _] => destruct b
         end; lia.
Qed.

(** X10: A date line made without a text ([DateLine(date)], as [add_date]
    makes it) gets the date written as [%d.%m.%Y], and [extract_date] reads
    that text back as the same date, whatever the current year: the year
    is written with four digits. *)
Theorem date_line_round_trip (today_year : Z) (d : datetime.date) :
  valid_date d -> (1900 <= datetime.year d)%Z ->
  exists t,
    DateLine___init__ d None = DateLine d t
    /\ extract_date today_year t = Ok d.
Proof.
  intros Hv Hy. pose proof Hv as (Hyr & Hm & Hd).
  pose proof (days_in_month_bound (datetime.year d) (datetime.month d)) as Hdim.
  exists (unicode_strftime d). split; [reflexivity |].
  destruct (pad2_two_digits (datetime.day d)) as (a1 & a2 & Ea & A1 & A2 & Va); [lia |].
  destruct (pad2_two_digits (datetime.month d)) as (b1 & b2 & Eb & B1 & B2 & Vb); [lia |].
  destruct (pretty_year (datetime.year d)) as (y1 & y2 & y3 & y4 & Ey & Y1 & Y2 & Y3 & Y4 & Vy);
    [lia |].
  assert (Ia : Py.int (String a1 (String a2 "")) = Ok (datetime.day d)).
  { rewrite ExtractDate.int_digits; [now rewrite Va | simpl; auto | simpl; lia]. }
  assert (Ib : Py.int (String b1 (String b2 "")) = Ok (datetime.month d)).
  { rewrite ExtractDate.int_digits; [now rewrite Vb | simpl; auto | simpl; lia]. }
  rewrite Ey in Vy.
  unfold unicode_strftime. rewrite Ea, Eb, Ey.
  cbv beta iota zeta delta [String.append].
  unfold extract_date, re_match, date_re_dmy. simpl. digit_step.
  unfold consumed, group; simpl; simplify_map_eq.
  rewrite Vy, Ib, Ia. simpl. apply date__valid. exact Hv.
Qed.

Lemma date_line_round_trip_witness :
  exists t,
    DateLine___init__ (datetime.mk_date 2010 1 31) None
    = DateLine (datetime.mk_date 2010 1 31) t
    /\ extract_date 2012 t = Ok (datetime.mk_date 2010 1 31).
Proof.
  apply (date_line_round_trip 2012 (datetime.mk_date 2010 1 31)).
  - unfold valid_date. repeat split; apply Z.leb_le; reflexivity.
  - apply Z.leb_le. reflexivity.
Defined.

End DateLineRoundTrip.

(** ** Entries: ignored entries, and what an assignment does to the line *)

Section EntryMore.
Local Open Scope Z_scope.

Lemma Qeq_bool_hours (n : Z) :
  0 <= n < 1440 ->
  Qeq_bool (Qred (Qmake (n * 60) 3600)) 0%Q = (n =? 0).
Proof.
  intros Hn.
  destruct (Z.eqb_spec n 0) as [-> | Hne].
  - reflexivity.
  - apply not_true_is_false. intros H. apply Qeq_bool_iff in H.
    rewrite Qred_correct in H. unfold Qeq in H. simpl in H. lia.
Qed.

(** X11: [is_ignored]: an entry with a range that lacks its start or its
    end counts no hours and is always ignored; an entry with a range of two
    times of the clock is ignored when it is flagged or when the two times
    are the same minute of the day; an entry with a number of hours is
    ignored when it is flagged or the number is zero. *)
Theorem is_ignored_cases (now : datetime_) (self : TimesheetEntry) :
  match duration self with
  | Hours h => is_ignored now self = ignored self || pyfloat_is_zero h
  | Range (Some t0) (Some t1) =>
      valid_time t0 -> valid_time t1 ->
      is_ignored now self
      = ignored self || (minute_of_day t0 =? minute_of_day t1)
  | Range _ _ => is_ignored now self = true
  end.
Proof.
  unfold is_ignored, hours.
  destruct (duration self) as [h | [t0|] [t1|]]; try reflexivity;
    try (simpl; apply orb_true_r).
  intros [Hh0 Hm0] [Hh1 Hm1]. f_equal.
  rewrite seconds_of_sub. fold (minute_of_day t1). fold (minute_of_day t0).
  assert (H0 : 0 <= minute_of_day t0 < 1440) by (unfold minute_of_day; lia).
  assert (H1 : 0 <= minute_of_day t1 < 1440) by (unfold minute_of_day; lia).
  set (a := minute_of_day t0) in *. set (b := minute_of_day t1) in *.
  unfold pyfloat_is_zero.
  rewrite Qeq_bool_hours by (apply Z.mod_pos_bound; lia).
  destruct (Z.eqb_spec a b) as [-> | Hne].
  - rewrite Z.sub_diag. reflexivity.
  - apply Z.eqb_neq. intros H.
    destruct (Z.lt_ge_cases b a).
    + replace ((b - a) mod 1440) with (b - a + 1440) in H
        by (apply Z.mod_unique with (q := -1); lia). lia.
    + rewrite Z.mod_small in H by lia. lia.
Qed.

Lemma is_ignored_cases_witness :
  is_ignored (mk_datetime 733773 10 30 12 5)
    (TimesheetEntry___init__ "foo"
       (Range (Some (datetime.mk_time 9 0 0 0)) (Some (datetime.mk_time 9 0 0 0)))
       "bar")
  = true.
Proof.
  apply (is_ignored_cases (mk_datetime 733773 10 30 12 5)
           (TimesheetEntry___init__ "foo"
              (Range (Some (datetime.mk_time 9 0 0 0))
                 (Some (datetime.mk_time 9 0 0 0))) "bar"));
    unfold valid_time; simpl; lia.
Defined.

End EntryMore.

Section EntryMirror.

Lemma EntryLine_setattr_mirrored (e : EntryLine) (a : TimesheetEntry_assign)
    (la : EntryLine_assign) :
  mirrored a = Some la ->
  let e' := EntryLine___setattr__ e la in
  line_shows e' a /\ el_text e' = None /\ line_keeps e e' a.
Proof.
  destruct a; simpl; intros [= <-]; unfold line_keeps;
    (split; [reflexivity | split; [reflexivity |]]);
    repeat split; intros Hv; try reflexivity; exfalso; eapply Hv; reflexivity.
Qed.

(** X12: [TimesheetEntry.__setattr__] stores the value in the entry.  When
    the entry is bound to an entry line and the name is one the line has
    (every name but [line]), the line gets the value too: it shows it under
    the same name (the alias without question marks), loses its text, and
    keeps its other attributes; no other line object changes.  Binding the
    entry ([line]) changes no line object, and neither does an assignment to
    an entry that is not bound. *)
Theorem entry_setattr_mirror (h : list Line) (self : TimesheetEntry)
    (a : TimesheetEntry_assign) :
  let '(h', self') := TimesheetEntry___setattr__ h self a in
  self' = TimesheetEntry_store self a
  /\ match a with
     | set_e_line _ => h' = h
     | _ =>
         match line self with
         | None => h' = h
         | Some l =>
             forall e, h !! l = Some (EntryLine_ e) ->
               exists e',
                 h' = <[l := EntryLine_ e']> h
                 /\ line_shows e' a /\ el_text e' = None /\ line_keeps e e' a
         end
     end.
Proof.
  destruct a as [v | v | v | v | v | v];
    [rewrite setattr_line; split; reflexivity | ..];
    unfold TimesheetEntry___setattr__; simpl;
    (destruct (line self) as [l|]; [| split; reflexivity]);
    (destruct (h !! l) as [[| e0 |]|] eqn:Eh;
     (split; [reflexivity |]); intros e He; try discriminate He;
     injection He as <-; eexists; (split; [reflexivity |]);
     match goal with
     | |- _ /\ _ /\ line_keeps _ (EntryLine___setattr__ _ ?la) ?a =>
         exact (EntryLine_setattr_mirrored e0 a la eq_refl)
     end).
Qed.

Lemma entry_setattr_mirror_witness :
  exists e',
    fst (TimesheetEntry___setattr__ (heap one_entry_collection)
           (mk_TimesheetEntry (Some 2) false false "foo" "bar" (Hours (Py.Finite 1)))
           (set_e_description "baz"))
    = <[2 := EntryLine_ e']> (heap one_entry_collection)
    /\ el_description e' = "baz" /\ el_text e' = None.
Proof.
  pose proof (entry_setattr_mirror (heap one_entry_collection)
                (mk_TimesheetEntry (Some 2) false false "foo" "bar"
                   (Hours (Py.Finite 1)))
                (set_e_description "baz")) as H.
  destruct (TimesheetEntry___setattr__ _ _ _) as [h' self'].
  destruct H as [_ H]. simpl in H.
  destruct (H _ eq_refl) as (e' & -> & Hs & Ht & _).
  exists e'. auto.
Defined.

End EntryMirror.

(** ** What no method changes *)

Section Leaves.

Context {B : Type} (f : EntriesCollection -> B).
Hypothesis f_heap : forall h s, f (set_heap h s) = f s.
Hypothesis f_dict : forall d s, f (set_dict d s) = f s.
Hypothesis f_lines : forall ls s, f (set_lines ls s) = f s.

Lemma leaves_ret {A} (a : A) : leaves f (mret a : M A).
Proof. intros s s' r [= <- _]. reflexivity. Qed.

Lemma leaves_bind {A C} (m : M A) (k : A -> M C) :
  leaves f m -> (forall a, leaves f (k a)) -> leaves f (m ≫= k).
Proof.
  intros Hm Hk s s' r. unfold mbind, M_bind.
  destruct (m s) as [[s1 [a|e]]|] eqn:E; [| | discriminate].
  - intros H. rewrite (Hk a _ _ _ H). exact (Hm _ _ _ E).
  - intros [= <- _]. exact (Hm _ _ _ E).
Qed.

Lemma leaves_get {A} (g : EntriesCollection -> A) : leaves f (get g).
Proof. intros s s' r [= <- _]. reflexivity. Qed.

Lemma leaves_raise {A} (e : exn) : leaves f (raise e : M A).
Proof. intros s s' r [= <- _]. reflexivity. Qed.

Lemma leaves_lift {A} (x : result A) : leaves f (lift x).
Proof. intros s s' r [= <- _]. reflexivity. Qed.

Lemma leaves_modify (g : EntriesCollection -> EntriesCollection) :
  (forall s, f (g s) = f s) -> leaves f (modify g).
Proof. intros Hg s s' r [= <- _]. apply Hg. Qed.

Lemma leaves_new_line (x : Line) : leaves f (new_line x).
Proof. intros s s' r [= <- _]. apply f_heap. Qed.

Lemma leaves_entry_setattr (e : TimesheetEntry) (a : TimesheetEntry_assign) :
  leaves f (entry_setattr e a).
Proof.
  intros s s' r. unfold entry_setattr.
  destruct (TimesheetEntry___setattr__ (heap s) e a). intros [= <- _].
  apply f_heap.
Qed.

Lemma leaves_synchronized_ {A} (dflt : A) (m : M A) :
  leaves f m -> leaves f (synchronized_ dflt m).
Proof.
  intros Hm. unfold synchronized_. apply leaves_bind; [apply leaves_get |].
  intros []; [exact Hm | apply leaves_ret].
Qed.

Create HintDb leaves.
#[local] Hint Resolve leaves_ret leaves_get leaves_raise leaves_lift
  leaves_new_line leaves_entry_setattr : leaves.

(** Steps through a method built from the operations above. *)
Ltac leaves :=
  repeat first
    [ apply leaves_synchronized_
    | apply leaves_bind; [| intros ?]
    | apply leaves_modify; intros ?;
      first [apply f_lines | apply f_dict | apply f_heap]
    | solve [auto with leaves]
    | match goal with
      | |- leaves _ (match ?x with _ => _ end) => destruct x
      | |- leaves _ (if ?x then _ else _) => destruct x
      end ].

Lemma leaves_add_entry_call (d : datetime.date) (e : TimesheetEntry) :
  leaves f (add_entry_call d e).
Proof. unfold add_entry_call. leaves. Qed.

Lemma leaves_add_entry (d : datetime.date) (e : TimesheetEntry) :
  leaves f (add_entry d e).
Proof. unfold add_entry. leaves; try apply leaves_add_entry_call. Qed.

Lemma leaves_trim : leaves f trim.
Proof. unfold trim. leaves. Qed.

Lemma leaves_delete_entries (es : list TimesheetEntry) :
  leaves f (delete_entries es).
Proof. unfold delete_entries. leaves; try apply leaves_trim. Qed.

Lemma leaves_delete_date (d : datetime.date) : leaves f (delete_date d).
Proof. unfold delete_date. leaves; try apply leaves_trim. Qed.

Lemma leaves_add_date (d : datetime.date) : leaves f (add_date d).
Proof. unfold add_date. leaves. Qed.

Lemma leaves___missing__ (d : datetime.date) : leaves f (__missing__ d).
Proof. unfold __missing__. leaves; try apply leaves_add_date. Qed.

Lemma leaves___getitem__ (d : datetime.date) : leaves f (__getitem__ d).
Proof. unfold __getitem__. leaves; try apply leaves___missing__. Qed.

Lemma leaves___delitem__ (d : datetime.date) :
  leaves f (EntriesCollection___delitem__ d).
Proof.
  unfold EntriesCollection___delitem__.
  leaves; try apply leaves___getitem__; try apply leaves_delete_entries;
    try apply leaves_delete_date.
Qed.

Lemma leaves_append (d : datetime.date) (x : TimesheetEntry) :
  leaves f (EntriesList_append d x).
Proof.
  unfold EntriesList_append, the_list, put_items. leaves;
    try apply leaves_add_entry_call.
Qed.

Lemma leaves_list___delitem__ (d : datetime.date) (key : Z) :
  leaves f (EntriesList___delitem__ d key).
Proof.
  unfold EntriesList___delitem__, the_list, put_items, delete_entry.
  leaves; try apply leaves_delete_entries; try apply leaves_delete_date.
Qed.

Lemma leaves_new_lines (xs : list Line) : leaves f (new_lines xs).
Proof. induction xs as [|x xs IH]; simpl; leaves; try exact IH. Qed.

Lemma leaves_loop (fuel : nat) :
  forall i cd, leaves f (init_from_str_loop fuel i cd).
Proof.
  induction fuel as [|fuel IH]; intros i cd; simpl.
  - intros s s' r [=].
  - leaves; try apply IH; try apply leaves___getitem__; try apply leaves_append.
Qed.

Lemma leaves_init_from_str (today_year : Z) (fuel : nat) (entries : string) :
  leaves f (init_from_str today_year fuel entries).
Proof.
  unfold init_from_str. leaves; try apply leaves_new_lines; try apply leaves_loop.
Qed.

Lemma leaves_method {A} (m : M A) : method A m -> leaves f m.
Proof.
  intros [].
  - apply leaves_add_entry.
  - apply leaves_delete_entries.
  - apply leaves_delete_entries.
  - apply leaves_delete_date.
  - apply leaves_trim.
  - apply leaves_add_date.
  - apply leaves___missing__.
  - apply leaves___getitem__.
  - apply leaves___delitem__.
  - apply leaves_append.
  - apply leaves_list___delitem__.
  - apply leaves_init_from_str.
Qed.

End Leaves.

(** X13: No method of the collection or of its lists changes the
    [synchronized] flag or the [add_date_to_bottom] setting, whether it
    returns or raises: only [__init__] assigns them. *)
Theorem methods_leave_settings {A} (m : M A) :
  method A m -> leaves synchronized m /\ leaves add_date_to_bottom m.
Proof.
  intros Hm. split; apply leaves_method; auto.
Qed.

Lemma methods_leave_settings_witness :
  leaves synchronized (delete_date (datetime.mk_date 2010 1 1))
  /\ leaves add_date_to_bottom (delete_date (datetime.mk_date 2010 1 1)).
Proof.
  apply (methods_leave_settings (delete_date (datetime.mk_date 2010 1 1))).
  exact (method_delete_date (datetime.mk_date 2010 1 1)).
Defined.

(** ** Calls made while the collection is not synchronized *)

Section Unsynchronized.

Context {B : Type} (f : EntriesCollection -> B).
Hypothesis f_dict : forall d s, f (set_dict d s) = f s.

Lemma quiet_ret {A} (a : A) : unsynchronized_leaves f (mret a : M A).
Proof. intros s s' r Hs [= <- _]. auto. Qed.

Lemma quiet_bind {A C} (m : M A) (k : A -> M C) :
  unsynchronized_leaves f m -> (forall a, unsynchronized_leaves f (k a)) ->
  unsynchronized_leaves f (m ≫= k).
Proof.
  intros Hm Hk s s' r Hs. unfold mbind, M_bind.
  destruct (m s) as [[s1 [a|e]]|] eqn:E; [| | discriminate].
  - intros H. destruct (Hm _ _ _ Hs E) as [Hs1 Hf1].
    destruct (Hk a _ _ _ Hs1 H) as [Hs2 Hf2]. split; congruence.
  - intros [= <- _]. exact (Hm _ _ _ Hs E).
Qed.

Lemma quiet_get {A} (g : EntriesCollection -> A) : unsynchronized_leaves f (get g).
Proof. intros s s' r Hs [= <- _]. auto. Qed.

Lemma quiet_raise {A} (e : exn) : unsynchronized_leaves f (raise e : M A).
Proof. intros s s' r Hs [= <- _]. auto. Qed.

Lemma quiet_lift {A} (x : result A) : unsynchronized_leaves f (lift x).
Proof. intros s s' r Hs [= <- _]. auto. Qed.

Lemma quiet_set_dict (g : EntriesCollection -> gmap datetime.date EntriesList) :
  unsynchronized_leaves f (modify (fun s => set_dict (g s) s)).
Proof. intros s s' r Hs [= <- _]. split; [exact Hs | apply f_dict]. Qed.

(** The decorator: the body does not run. *)
Lemma quiet_synchronized_ {A} (dflt : A) (m : M A) :
  unsynchronized_leaves f (synchronized_ dflt m).
Proof.
  intros s s' r Hs. unfold synchronized_, mbind, M_bind, get. rewrite Hs.
  intros [= <- _]. auto.
Qed.

Lemma quiet_add_entry (date : datetime.date) (entry : TimesheetEntry) :
  unsynchronized_leaves f (add_entry date entry).
Proof.
  unfold add_entry.
  apply quiet_bind; [apply quiet_synchronized_ | intros [e r]].
  apply quiet_bind; [apply quiet_lift | intros _]. apply quiet_ret.
Qed.

(** [if self.synchronized: ...] *)
Lemma quiet_if_synchronized {A} (m1 m2 : M A) :
  unsynchronized_leaves f m2 ->
  unsynchronized_leaves f (b ← get synchronized; if b : bool then m1 else m2).
Proof.
  intros H2 s s' r Hs. unfold mbind at 1, M_bind at 1, get. rewrite Hs.
  apply H2. exact Hs.
Qed.

Lemma quiet_the_list (key : datetime.date) : unsynchronized_leaves f (the_list key).
Proof.
  unfold the_list. apply quiet_bind; [apply quiet_get |].
  intros d. destruct (d !! key); [apply quiet_ret | apply quiet_raise].
Qed.

Lemma quiet_put_items (key : datetime.date) (its : list TimesheetEntry) :
  unsynchronized_leaves f (put_items key its).
Proof. unfold put_items. apply quiet_set_dict. Qed.

Lemma quiet___missing__ (key : datetime.date) :
  unsynchronized_leaves f (__missing__ key).
Proof.
  unfold __missing__. apply quiet_bind; [apply quiet_set_dict | intros _].
  apply quiet_if_synchronized, quiet_ret.
Qed.

Lemma quiet___getitem__ (key : datetime.date) :
  unsynchronized_leaves f (__getitem__ key).
Proof.
  unfold __getitem__. apply quiet_bind; [apply quiet_get |].
  intros d. destruct (d !! key); [apply quiet_ret | apply quiet___missing__].
Qed.

Lemma quiet___delitem__ (key : datetime.date) :
  unsynchronized_leaves f (EntriesCollection___delitem__ key).
Proof.
  unfold EntriesCollection___delitem__.
  apply quiet_bind; [apply quiet_get | intros b].
  apply quiet_bind.
  - destruct b; [| apply quiet_ret].
    apply quiet_bind; [apply quiet___getitem__ | intros _].
    apply quiet_bind; [apply quiet_get | intros entries].
    apply quiet_bind; [apply quiet_synchronized_ | intros _].
    apply quiet_synchronized_.
  - intros _. apply quiet_bind; [apply quiet_get |].
    intros d. destruct (d !! key); [apply quiet_set_dict | apply quiet_raise].
Qed.

Lemma quiet_list___delitem__ (date : datetime.date) (key : Z) :
  unsynchronized_leaves f (EntriesList___delitem__ date key).
Proof.
  unfold EntriesList___delitem__.
  apply quiet_bind; [apply quiet_the_list | intros self].
  destruct (list_index (items self) key) as [i|]; [| apply quiet_raise].
  destruct (items self !! i) as [entry|]; [| apply quiet_raise].
  apply quiet_bind.
  - destruct (entries_collection self); [apply quiet_synchronized_ | apply quiet_ret].
  - intros _. apply quiet_bind; [apply quiet_put_items | intros _].
    destruct (_ && _); [apply quiet_synchronized_ | apply quiet_ret].
Qed.

Hypothesis f_heap : forall h s, f (set_heap h s) = f s.

Lemma quiet_entry_setattr (e : TimesheetEntry) (a : TimesheetEntry_assign) :
  unsynchronized_leaves f (entry_setattr e a).
Proof.
  intros s s' r Hs. unfold entry_setattr.
  destruct (TimesheetEntry___setattr__ (heap s) e a). intros [= <- _].
  split; [exact Hs | apply f_heap].
Qed.

Lemma quiet_append (key : datetime.date) (x : TimesheetEntry) :
  unsynchronized_leaves f (EntriesList_append key x).
Proof.
  unfold EntriesList_append.
  apply quiet_bind; [apply quiet_the_list | intros self].
  apply quiet_bind; [apply quiet_put_items | intros _].
  apply quiet_bind.
  - destruct (chained _ x); [| apply quiet_ret].
    apply quiet_bind; [apply quiet_entry_setattr | intros x'].
    apply quiet_bind; [apply quiet_put_items | intros _]. apply quiet_ret.
  - intros x'. destruct (entries_collection self); [| apply quiet_ret].
    apply quiet_bind; [apply quiet_synchronized_ | intros [x'' r]].
    apply quiet_bind; [apply quiet_put_items | intros _].
    apply quiet_bind; [apply quiet_lift | intros _]. apply quiet_ret.
Qed.

End Unsynchronized.

(** X14: While the collection is not synchronized, none of the methods
    that edit the document does: [add_entry], [delete_entry],
    [delete_entries], [delete_date] and [add_date] are behind the decorator,
    and [__missing__], [__getitem__], the two [__delitem__] and [append]
    reach the document only through them.  The list of lines is left as it
    is, and so is every line object, except that [append] assigns to the
    entry it is given, which shows in the line the entry is bound to. *)
Theorem unsynchronized_leaves_document (mirrors : bool) {A} (m : M A) :
  guarded mirrors A m ->
  unsynchronized_leaves lines m
  /\ (mirrors = false -> unsynchronized_leaves heap m).
Proof.
  intros [].
  all: try (split; [| intros _]; apply quiet_synchronized_).
  - split; [| intros _]; apply quiet_add_entry.
  - split; [| intros _]; apply quiet___missing__; reflexivity.
  - split; [| intros _]; apply quiet___getitem__; reflexivity.
  - split; [| intros _]; apply quiet___delitem__; reflexivity.
  - split; [| discriminate]. apply quiet_append; reflexivity.
  - split; [| intros _]; apply quiet_list___delitem__; reflexivity.
Qed.

Lemma unsynchronized_leaves_document_witness :
  unsynchronized_leaves lines (delete_date (datetime.mk_date 2010 1 1))
  /\ (false = false ->
      unsynchronized_leaves heap (delete_date (datetime.mk_date 2010 1 1))).
Proof.
  apply (unsynchronized_leaves_document false).
  exact (guarded_delete_date (datetime.mk_date 2010 1 1)).
Defined.

(** ** More on [trim] *)

Section TrimMore.

Lemma is_blank_raises (x : Line) (e : exn) :
  is_blank x = Raise e ->
  is_EntryLine x = true /\ text x = None
  /\ e = AttributeError "'NoneType' object has no attribute 'strip'".
Proof.
  unfold is_blank. destruct x as [t | el | d t]; simpl; try discriminate.
  destruct (el_text el); [discriminate |]. intros [= <-]. auto.
Qed.

Lemma trim_scan_raises (h : list Line) (ls : list loc) :
  forall n found e,
    trim_scan h ls n found = Raise e ->
    exists l, l ∈ ls /\ is_blank (deref h l) = Raise e.
Proof.
  induction ls as [|l ls IH]; intros n found e H; simpl in H; [discriminate |].
  destruct (is_blank (deref h l)) as [[|]|e'] eqn:E; simpl in H.
  - apply IH in H as (l' & Hin & Hl'). exists l'. split; [now right | exact Hl'].
  - discriminate.
  - injection H as <-. exists l. split; [now left | exact E].
Qed.

(** X15: [trim] always comes to an end.  It raises only [AttributeError],
    and only when the document holds an entry line without a text (the
    line whose [text.strip()] it called); the document is then as it was,
    since the lines are cut only after the two loops are over. *)
Theorem trim_raises_unchanged (c : EntriesCollection) :
  exists c' r,
    trim c = Some (c', r)
    /\ forall e, r = Raise e ->
         c' = c
         /\ e = AttributeError "'NoneType' object has no attribute 'strip'"
         /\ exists l, l ∈ lines c
              /\ is_EntryLine (deref (heap c) l) = true
              /\ text (deref (heap c) l) = None.
Proof.
  rewrite trim_unfold.
  destruct (trim_scan (heap c) (lines c) 0 None) as [r1|e1] eqn:E1.
  - destruct (trim_scan (heap c) (reverse (lines c)) 0 None) as [r2|e2] eqn:E2.
    + eexists _, _. split; [reflexivity | discriminate].
    + eexists _, _. split; [reflexivity |]. intros e [= <-].
      apply trim_scan_raises in E2 as (l & Hin & Hl).
      apply is_blank_raises in Hl as (He & Ht & ->).
      split; [reflexivity | split; [reflexivity |]].
      exists l. rewrite elem_of_reverse in Hin. auto.
  - eexists _, _. split; [reflexivity |]. intros e [= <-].
    apply trim_scan_raises in E1 as (l & Hin & Hl).
    apply is_blank_raises in Hl as (He & Ht & ->).
    split; [reflexivity | split; [reflexivity |]].
    exists l. auto.
Qed.

(** What [trim] leaves when it returns: the lines without the blank lines
    at the two ends. *)
Lemma trim_result (c c' : EntriesCollection) :
  trim c = Some (c', Ok tt) ->
  exists top mid bottom,
    lines c = top ++ mid ++ bottom
    /\ c' = set_lines mid c
    /\ Forall (blank_at (heap c)) top
    /\ Forall (blank_at (heap c)) bottom
    /\ (forall l, head mid = Some l -> not_blank_at (heap c) l)
    /\ (forall l, last mid = Some l -> not_blank_at (heap c) l).
Proof.
  intros H. rewrite trim_unfold in H.
  destruct (trim_scan (heap c) (lines c) 0 None) as [r1|] eqn:E1;
    [| discriminate].
  destruct (trim_scan (heap c) (reverse (lines c)) 0 None) as [r2|] eqn:E2;
    [| discriminate].
  apply trim_scan_spec in E1 as (top & rest & Hls & Htop & Hrest & ->).
  apply trim_scan_spec in E2 as (topr & restr & Hrev & Htopr & Hrestr & ->).
  assert (Hls' : lines c = reverse restr ++ reverse topr).
  { rewrite <- reverse_app, <- Hrev. symmetry. apply reverse_involutive. }
  assert (Hbot : Forall (blank_at (heap c)) (reverse topr))
    by now apply Forall_reverse.
  assert (Hlast : forall l, last (reverse restr) = Some l -> not_blank_at (heap c) l).
  { intros l. rewrite last_reverse. apply Hrestr. }
  simpl in H.
  assert (Hc1 : match match top with [] => None | _ :: _ => Some (length top - 1) end with
                | Some t => set_lines (drop (t + 1) (lines c)) c
                | None => c
                end = set_lines rest c).
  { destruct top as [|t0 top].
    - simpl in Hls. rewrite <- Hls. symmetry. apply set_lines_same.
    - rewrite Hls. f_equal.
      replace (length (t0 :: top) - 1 + 1) with (length (t0 :: top))
        by (simpl; lia).
      apply drop_app_length. }
  rewrite Hc1 in H. clear Hc1.
  destruct topr as [|b0 topr].
  - injection H as <-. exists top, rest, []. rewrite app_nil_r.
    repeat split; auto.
    intros l Hl. apply Hlast. simpl in Hls'. rewrite app_nil_r in Hls'.
    rewrite <- Hls', Hls, last_app, Hl. reflexivity.
  - simpl in H. injection H as <-.
    destruct rest as [|x rest].
    + rewrite slice_to_nil. exists top, [], []. rewrite !app_nil_r in *.
      repeat split; auto; intros l [=].
    + rewrite Hls in Hls'.
      apply app_eq_inv in Hls' as [(k & Hk1 & Hk2) | (k & Hk1 & Hk2)].
      * exfalso. rewrite Hk2 in Hbot. apply Forall_app in Hbot as [_ Hx].
        apply Forall_cons in Hx as [Hx _].
        specialize (Hrest x eq_refl). unfold blank_at, not_blank_at in *.
        congruence.
      * exists top, k, (reverse (b0 :: topr)). rewrite Hk2.
        rewrite slice_to_app by (rewrite length_reverse; simpl; lia).
        repeat split; auto.
        -- rewrite Hls, Hk2. reflexivity.
        -- intros l Hl. apply Hrest. rewrite Hk2.
           destruct k; [discriminate | exact Hl].
        -- intros l Hl. apply Hlast. rewrite Hk1, last_app, Hl. reflexivity.
Qed.

(** [trim] comes to an end, and raises nothing but [AttributeError], with
    the collection as it was. *)
Lemma trim_outcome (c : EntriesCollection) :
  (exists c', trim c = Some (c', Ok tt))
  \/ trim c = Some (c, Raise (AttributeError "'NoneType' object has no attribute 'strip'")).
Proof.
  rewrite trim_unfold.
  destruct (trim_scan (heap c) (lines c) 0 None) as [r1|e1] eqn:E1.
  - destruct (trim_scan (heap c) (reverse (lines c)) 0 None) as [r2|e2] eqn:E2.
    + left. eauto.
    + right. apply trim_scan_raises in E2 as (l & _ & Hl).
      apply is_blank_raises in Hl as (_ & _ & ->). reflexivity.
  - right. apply trim_scan_raises in E1 as (l & _ & Hl).
    apply is_blank_raises in Hl as (_ & _ & ->). reflexivity.
Qed.

Lemma trim_scan_stops (h : list Line) (ls : list loc) (n : nat) :
  (forall l, head ls = Some l -> not_blank_at h l) ->
  trim_scan h ls n None = Ok None.
Proof.
  destruct ls as [|l ls]; intros H; simpl; [reflexivity |].
  rewrite (H l eq_refl). reflexivity.
Qed.

(** X16: [trim] is idempotent: on a document it has trimmed it returns
    again and changes nothing. *)
Theorem trim_idempotent (c c' : EntriesCollection) :
  trim c = Some (c', Ok tt) -> trim c' = Some (c', Ok tt).
Proof.
  intros H. apply trim_result in H as (top & mid & bottom & _ & -> & _ & _ & Hhead & Hlast).
  rewrite trim_unfold. simpl.
  rewrite (trim_scan_stops _ mid 0 Hhead).
  rewrite trim_scan_stops; [reflexivity |].
  intros l Hl. apply Hlast. rewrite <- head_reverse, Hl. reflexivity.
Qed.

Lemma trim_idempotent_witness :
  trim (set_lines [2; 3; 4; 5] blank_edged_document)
  = Some (set_lines [2; 3; 4; 5] blank_edged_document, Ok tt).
Proof.
  apply (trim_idempotent blank_edged_document). vm_compute. reflexivity.
Defined.

End TrimMore.

(** ** When [add_entry] returns *)

Section AddEntryOutcome.

Variable h : list Line.
Variable date : datetime.date.

Lemma scan_some (ls : list loc) :
  forall n in_date a,
    exists i, add_entry_scan h date ls n in_date (Some a) = Some i.
Proof.
  induction ls as [|l ls IH]; intros n in_date a; simpl; [eauto |].
  destruct (is_date_line_of date (deref h l)); [apply IH |].
  destruct in_date; [| apply IH].
  destruct (is_EntryLine (deref h l)); [apply IH |].
  destruct (is_DateLine (deref h l)); [eauto | apply IH].
Qed.

Lemma scan_found (ls : list loc) :
  Exists (fun l => is_date_line_of date (deref h l) = true) ls ->
  forall n, exists i, add_entry_scan h date ls n false None = Some i.
Proof.
  induction ls as [|l ls IH]; intros H n; [inversion H |]. simpl.
  destruct (is_date_line_of date (deref h l)) eqn:E; [apply scan_some |].
  apply IH. inversion H; subst; [congruence | assumption].
Qed.

Lemma scan_none (ls : list loc) :
  Forall (fun l => is_date_line_of date (deref h l) = false) ls ->
  forall n, add_entry_scan h date ls n false None = None.
Proof.
  induction 1 as [|l ls Hl Hls IH]; intros n; simpl; [reflexivity |].
  rewrite Hl. apply IH.
Qed.

(** [insert_at] is the number of a line. *)
Lemma scan_bound (ls : list loc) :
  forall n in_date acc i,
    add_entry_scan h date ls n in_date acc = Some i ->
    acc = Some i \/ n <= i < n + length ls.
Proof.
  induction ls as [|l ls IH]; intros n in_date acc i H; simpl in H; [now left |].
  assert (Hstep : forall b acc',
            add_entry_scan h date ls (S n) b acc' = Some i ->
            acc' = acc \/ acc' = Some n ->
            acc = Some i \/ n <= i < n + length (l :: ls)).
  { intros b acc' H' Hacc. apply IH in H' as [-> | H'].
    - destruct Hacc as [-> | [= <-]]; [now left | right; simpl; lia].
    - right. simpl. lia. }
  destruct (is_date_line_of date (deref h l)); [eapply Hstep; eauto |].
  destruct in_date; [| eapply Hstep; eauto].
  destruct (is_EntryLine (deref h l)); [eapply Hstep; eauto |].
  destruct (is_DateLine (deref h l)); [now left | eapply Hstep; eauto].
Qed.

End AddEntryOutcome.

Section AddEntryOutcomeTheorem.

(** [add_entry] in synchronized mode, when the loop has found no date line
    of the date: the entry is bound to the new line, and [insert_at + 1]
    raises. *)
Lemma add_entry_call_raise (c : EntriesCollection) (date : datetime.date)
    (entry : TimesheetEntry) :
  synchronized c = true ->
  add_entry_scan (heap c) date (lines c) 0 false None = None ->
  add_entry_call date entry c
  = Some (set_heap
            (heap c ++ [EntryLine_ (EntryLine___init__ (alias entry)
                                      (duration entry) (description entry) None)])
            c,
          Ok (TimesheetEntry_store entry (set_e_line (Some (length (heap c)))),
              Raise (TypeError "unsupported operand type(s) for +: 'NoneType' and 'int'"))).
Proof.
  intros Hs Hscan.
  unfold add_entry_call, synchronized_, mbind, M_bind, get, new_line, alloc,
    entry_setattr.
  rewrite Hs, Hscan. simpl. rewrite setattr_line. reflexivity.
Qed.

(** X17: In synchronized mode [add_entry] returns exactly when the
    document holds a date line of the date.  It then binds the entry to a
    new line object, which it puts in the document, with or without a
    blank line before it, and the lines that were there stay in their
    order.  When there is no such date line, [insert_at] is still [None]
    and [insert_at + 1] raises [TypeError]: the list of lines is left as it
    is, but the entry has been bound by then, to a new entry line that is
    not in the document. *)
Theorem add_entry_outcome (c : EntriesCollection) (date : datetime.date)
    (entry : TimesheetEntry) :
  synchronized c = true ->
  (Exists (fun l => is_date_line_of date (deref (heap c) l) = true) (lines c) ->
   exists c' entry',
     add_entry_call date entry c = Some (c', Ok (entry', Ok tt))
     /\ add_entry date entry c = Some (c', Ok entry')
     /\ line entry' = Some (length (heap c))
     /\ length (heap c) ∈ lines c'
     /\ lines c `sublist_of` lines c'
     /\ length (lines c) < length (lines c') <= length (lines c) + 2)
  /\ (Forall (fun l => is_date_line_of date (deref (heap c) l) = false) (lines c) ->
      exists c' entry' msg,
        add_entry_call date entry c
        = Some (c', Ok (entry', Raise (TypeError msg)))
        /\ add_entry date entry c = Some (c', Raise (TypeError msg))
        /\ line entry' = Some (length (heap c))
        /\ is_EntryLine (deref (heap c') (length (heap c))) = true
        /\ lines c' = lines c
        /\ (wf c -> length (heap c) ∉ lines c')).
Proof.
  intros Hs. split.
  - intros Hex.
    destruct (scan_found (heap c) date (lines c) Hex 0) as [i Hi].
    pose proof (scan_bound _ _ _ _ _ _ _ Hi) as Hb.
    destruct Hb as [Hb | Hb]; [discriminate |].
    assert (Hlt : i < length (lines c)) by lia.
    destruct (lookup_lt_is_Some_2 (lines c) i Hlt) as [l0 Hl0].
    pose proof (add_entry_call_run c date entry i l0 Hs Hi Hl0) as Hrun.
    cbv zeta in Hrun.
    assert (Hsub : forall (x : loc) (ls : list loc) n,
              ls `sublist_of` list_insert_at n x ls).
    { intros x ls n. unfold list_insert_at.
      rewrite <- (take_drop n ls) at 1.
      apply sublist_app; [reflexivity |]. now apply sublist_cons. }
    assert (Hlen : forall (x : loc) (ls : list loc) n,
              length (list_insert_at n x ls) = S (length ls)).
    { intros x ls n. unfold list_insert_at.
      rewrite length_app. simpl. rewrite length_take, length_drop. lia. }
    assert (Hin : forall (x : loc) (ls : list loc) n,
              x ∈ list_insert_at n x ls).
    { intros x ls n. unfold list_insert_at.
      apply elem_of_app. right. apply elem_of_cons. now left. }
    match type of Hrun with
    | _ = if ?b then _ else _ => destruct b
    end.
    + eexists _, _. split; [exact Hrun |].
      split; [exact (add_entry_of_call _ _ _ _ _ _ Hrun) |]. simpl.
      split; [reflexivity |]. split; [apply Hin |]. split; [apply Hsub |].
      rewrite Hlen. lia.
    + eexists _, _. split; [exact Hrun |].
      split; [exact (add_entry_of_call _ _ _ _ _ _ Hrun) |]. simpl.
      split; [reflexivity |].
      split; [eapply elem_of_sublist; [apply Hin | apply Hsub] |].
      split; [etransitivity; apply Hsub |].
      rewrite !Hlen. lia.
  - intros Hall.
    pose proof (add_entry_call_raise c date entry Hs
                  (scan_none _ _ _ Hall 0)) as Hrun.
    eexists _, _, _. split; [exact Hrun |].
    split; [exact (add_entry_of_call _ _ _ _ _ _ Hrun) |]. simpl.
    split; [reflexivity |]. split; [now rewrite deref_new |].
    split; [reflexivity |].
    intros Hwf Hin. unfold wf in Hwf. rewrite Forall_forall in Hwf.
    specialize (Hwf _ Hin). lia.
Qed.

Lemma add_entry_outcome_witness :
  exists c' entry' msg,
    add_entry_call (datetime.mk_date 2011 2 2)
      (TimesheetEntry___init__ "zz" (Hours (Py.Finite 2)) "new")
      one_entry_collection
    = Some (c', Ok (entry', Raise (TypeError msg)))
    /\ add_entry (datetime.mk_date 2011 2 2)
         (TimesheetEntry___init__ "zz" (Hours (Py.Finite 2)) "new")
         one_entry_collection
       = Some (c', Raise (TypeError msg))
    /\ line entry' = Some 3
    /\ is_EntryLine (deref (heap c') 3) = true
    /\ lines c' = lines one_entry_collection
    /\ (wf one_entry_collection -> 3 ∉ lines c').
Proof.
  apply (add_entry_outcome one_entry_collection (datetime.mk_date 2011 2 2)
           (TimesheetEntry___init__ "zz" (Hours (Py.Finite 2)) "new")).
  - reflexivity.
  - repeat constructor.
Defined.

End AddEntryOutcomeTheorem.

(** ** A date that is asked for the first time *)

Section GetItem.

(** X18: [collection[key]] for a date that has a list returns and changes
    nothing.  For a date that has none, [__missing__] stores an empty list
    bound to the collection and to the date; in synchronized mode
    [add_date] also writes the date in the document: a date line at the
    very end when [add_date_to_bottom] is set, and otherwise a date line
    and a blank line at the very start.  The lines that were there are
    untouched. *)
Theorem getitem_document (c : EntriesCollection) (key : datetime.date) :
  wf c ->
  (is_Some (dict c !! key) -> __getitem__ key c = Some (c, Ok tt))
  /\ (dict c !! key = None ->
      exists c',
        __getitem__ key c = Some (c', Ok tt)
        /\ dict c' = <[key := mk_EntriesList true key []]> (dict c)
        /\ wf c'
        /\ document c'
           = if synchronized c then
               if add_date_to_bottom c
               then document c ++ [DateLine___init__ key None]
               else DateLine___init__ key None :: TextLine "" :: document c
             else document c).
Proof.
  intros Hwf. split.
  - intros [L HL]. unfold __getitem__, mbind, M_bind, get. rewrite HL.
    reflexivity.
  - intros Hnone. destruct c as [h d ls sy bo]. unfold wf in Hwf.
    simpl in Hnone, Hwf.
    unfold __getitem__, __missing__, add_date, synchronized_, mbind, M_bind,
      get, modify, new_line, alloc, mret, M_ret.
    simpl. rewrite Hnone. simpl.
    destruct sy; simpl; [destruct bo; simpl |].
    + eexists. split; [reflexivity |]. split; [reflexivity |]. split.
      * unfold wf. simpl. rewrite length_app. simpl.
        apply Forall_app. split.
        -- eapply Forall_impl; [exact Hwf |]. simpl. intros; lia.
        -- constructor; [lia | constructor].
      * unfold document. simpl. rewrite map_app. simpl.
        rewrite (map_deref_alloc _ _ _ Hwf).
        rewrite (deref_new h _ []). reflexivity.
    + eexists. split; [reflexivity |]. split; [reflexivity |]. split.
      * unfold wf, list_insert_at. simpl. rewrite !length_app. simpl.
        rewrite drop_0.
        constructor; [lia |]. constructor; [lia |].
        eapply Forall_impl; [exact Hwf |]. simpl. intros; lia.
      * unfold document, list_insert_at. simpl. rewrite drop_0.
        rewrite <- app_assoc. simpl.
        rewrite (map_deref_alloc _ _ _ Hwf).
        f_equal.
        -- replace (length (h ++ [TextLine ""])) with (length h + 1)
             by (rewrite length_app; reflexivity).
           unfold deref. rewrite lookup_app_r by lia.
           replace (length h + 1 - length h) with 1 by lia.
           reflexivity.
        -- f_equal. apply (deref_new h _ [_]).
    + eexists. split; [reflexivity |]. split; [reflexivity |].
      split; [exact Hwf | reflexivity].
Qed.

Lemma getitem_document_witness :
  __getitem__ (datetime.mk_date 2010 1 1) one_entry_collection
  = Some (one_entry_collection, Ok tt).
Proof.
  apply (getitem_document one_entry_collection (datetime.mk_date 2010 1 1)).
  - repeat constructor.
  - eexists. reflexivity.
Defined.

End GetItem.

(** ** The first entry of a new date *)

Section FirstEntry.

(** [append] on a list bound to the collection, when the range is not
    chained. *)
Lemma append_bound_run (s : EntriesCollection) (key : datetime.date)
    (x : TimesheetEntry) (L : EntriesList) :
  dict s !! key = Some L ->
  entries_collection L = true ->
  chained (items L ++ [x]) x = None ->
  EntriesList_append key x s
  = ('(x', r) ← add_entry_call (el_date L) x;
     put_items key (items L ++ [x']);;
     lift r;;
     mret x')
      (set_dict (alter (set_items (items L ++ [x])) key (dict s)) s).
Proof.
  intros HL Hb Hc. unfold EntriesList_append.
  rewrite (bind_ok _ _ _ _ _ (the_list_ok s key L HL)).
  rewrite (bind_ok _ _ _ _ _ (put_items_run s key _)).
  rewrite Hc, Hb.
  unfold mbind at 1, M_bind at 1, mret at 1, M_ret at 1. reflexivity.
Qed.

Lemma deref_app2 (h : list Line) (a b : Line) :
  deref ((h ++ [a]) ++ [b]) (length h) = a
  /\ deref ((h ++ [a]) ++ [b]) (S (length h)) = b.
Proof.
  rewrite <- app_assoc. simpl. split.
  - apply (deref_new h a [b]).
  - unfold deref. rewrite lookup_app_r by lia.
    replace (S (length h) - length h) with 1 by lia. reflexivity.
Qed.

(** X19: [collection[key].append(x)] in synchronized mode, with dates added
    at the top, for a date that has no list yet, when the document has no
    entry line and no date line before its first date line of another date.
    The date gets a list holding the entry, and the document gets four new
    lines at its start: the date line, a blank line, the line of the entry,
    to which the entry is bound, and the blank line that [add_date] put
    after the date line.  The lines that were there follow, untouched. *)
Theorem first_entry_of_new_date (c : EntriesCollection) (key : datetime.date)
    (x : TimesheetEntry) (others post : list loc) :
  wf c ->
  synchronized c = true ->
  add_date_to_bottom c = false ->
  dict c !! key = None ->
  lines c = others ++ post ->
  Forall (fun l => is_EntryLine (deref (heap c) l) = false
                   /\ is_DateLine (deref (heap c) l) = false) others ->
  (forall l, head post = Some l ->
     is_DateLine (deref (heap c) l) = true
     /\ is_date_line_of key (deref (heap c) l) = false) ->
  let obj := EntryLine_ (EntryLine___init__ (alias x) (duration x)
                           (description x) None) in
  exists c' x' new,
    (__getitem__ key;; EntriesList_append key x) c = Some (c', Ok x')
    /\ x' = TimesheetEntry_store x (set_e_line (Some new))
    /\ deref (heap c') new = obj
    /\ entries_of key c' = [x']
    /\ document c'
       = DateLine___init__ key None :: TextLine "" :: obj :: TextLine ""
           :: document c.
Proof.
  intros Hwf Hs Hb Hnone Hlines Hothers Hpost obj.
  destruct c as [h d ls sy bo]. unfold wf in Hwf. simpl in *. subst sy bo ls.
  set (n := length h).
  set (D := DateLine___init__ key None).
  set (h1 := (h ++ [TextLine ""]) ++ [D]).
  set (L0 := mk_EntriesList true key []).
  set (c1 := mk_EntriesCollection h1 (<[key := L0]> d)
               (S n :: n :: others ++ post) true false).
  assert (Hget : __getitem__ key (mk_EntriesCollection h d (others ++ post) true false)
                 = Some (c1, Ok tt)).
  { unfold __getitem__, __missing__, add_date, synchronized_, mbind, M_bind,
      get, modify, new_line, alloc, mret, M_ret.
    simpl. rewrite Hnone. simpl. unfold c1, h1, list_insert_at. simpl.
    rewrite drop_0, length_app. simpl.
    replace (length h + 1) with (S n) by (unfold n; lia). reflexivity. }
  unfold mbind at 1, M_bind at 1. rewrite Hget.
  assert (HL : dict c1 !! key = Some L0) by (simpl; apply lookup_insert_eq).
  rewrite (append_bound_run c1 key x L0 HL eq_refl eq_refl).
  simpl.
  set (c2 := set_dict _ c1).
  destruct (deref_app2 h (TextLine "") D) as [HdB HdD]. fold n h1 in HdB, HdD.
  assert (Hold : forall l, l < n -> deref h1 l = deref h l).
  { intros l Hl. unfold h1. rewrite <- app_assoc. now apply deref_alloc. }
  apply Forall_app in Hwf as [Hw1 Hw2].
  assert (Hscan : add_entry_scan (heap c2) key (lines c2) 0 false None = Some 0).
  { simpl.
    change (S n :: n :: others ++ post) with ([] ++ S n :: (n :: others) ++ post).
    apply (scan_general h1 key [] (n :: others) post [] (n :: others) (S n) (S n)).
    - constructor.
    - rewrite HdD. apply date_line_of_marker.
    - constructor.
      + rewrite HdB. discriminate.
      + rewrite Forall_forall in Hothers, Hw1 |- *. intros l Hl.
        rewrite Hold by (apply Hw1; exact Hl).
        destruct (Hothers l Hl) as [_ Hd]. congruence.
    - intros l Hl.
      assert (l < n).
      { destruct post as [|p post]; [discriminate |]. injection Hl as ->.
        now apply Forall_cons in Hw2 as [? _]. }
      rewrite Hold by assumption. now apply Hpost.
    - reflexivity.
    - right. rewrite HdD. reflexivity.
    - constructor.
      + rewrite HdB. split; reflexivity.
      + rewrite Forall_forall in Hothers, Hw1 |- *. intros l Hl.
        rewrite Hold by (apply Hw1; exact Hl). now apply Hothers. }
  pose proof (add_entry_call_run c2 key x 0 (S n) eq_refl Hscan eq_refl) as Hrun.
  simpl in Hrun. fold obj in Hrun.
  assert (HnotE : is_EntryLine (deref (h1 ++ [obj]) (S n)) = false).
  { rewrite deref_alloc by (unfold h1; rewrite !length_app; simpl; fold n; lia).
    rewrite HdD. reflexivity. }
  rewrite HnotE in Hrun.
  assert (Hlen1 : length h1 = S (S n))
    by (unfold h1; rewrite !length_app; simpl; fold n; lia).
  rewrite Hlen1 in Hrun.
  set (H := (h1 ++ [obj]) ++ [TextLine ""]) in *.
  assert (Hnew : forall l, l < S (S n) -> deref H l = deref h1 l).
  { intros l Hl. unfold H. rewrite <- app_assoc. apply deref_alloc. lia. }
  assert (Hobj : deref H (S (S n)) = obj).
  { unfold H. rewrite <- Hlen1, <- app_assoc. apply deref_new. }
  assert (Hblank : deref H (S (S (S n))) = TextLine "").
  { destruct (deref_app2 h1 obj (TextLine "")) as [_ Hb].
    rewrite Hlen1 in Hb. exact Hb. }
  assert (Hlines' : list_insert_at 1 (S (S (S n)))
                      (list_insert_at 1 (S (S n)) (S n :: n :: others ++ post))
                    = [S n; S (S (S n)); S (S n); n] ++ others ++ post)
    by reflexivity.
  rewrite Hlines' in Hrun. clear Hlines'. clearbody H.
  rewrite (bind_ok _ _ _ _ _ Hrun). cbv beta iota.
  rewrite (bind_ok _ _ _ _ _ (put_items_run _ key _)).
  eexists _, _, (S (S n)). split; [reflexivity |].
  split; [reflexivity |].
  split; [exact Hobj |]. split.
  - unfold entries_of. simpl.
    rewrite lookup_alter_eq, lookup_alter_eq, lookup_insert_eq. reflexivity.
  - unfold document.
    cbn [lines heap set_lines set_heap set_dict c2 c1].
    rewrite map_app. cbn [map app].
    rewrite Hblank, Hobj, (Hnew (S n)), (Hnew n), HdD, HdB by lia.
    do 4 f_equal.
    apply map_ext_Forall.
    assert (Hw : Forall (fun l => l < n) (others ++ post))
      by (apply Forall_app; split; assumption).
    eapply Forall_impl; [exact Hw |]. intros l Hl. simpl in Hl |- *.
    rewrite Hnew by lia. now apply Hold.
Qed.

Lemma first_entry_of_new_date_witness :
  exists c' x' new,
    (__getitem__ (datetime.mk_date 2010 1 1);;
     EntriesList_append (datetime.mk_date 2010 1 1)
       (TimesheetEntry___init__ "foo" (Hours (Py.Finite 1)) "bar"))
      EntriesCollection_blank
    = Some (c', Ok x')
    /\ x' = mk_TimesheetEntry (Some new) false false "foo" "bar" (Hours (Py.Finite 1))
    /\ deref (heap c') new
       = EntryLine_ (EntryLine___init__ "foo" (Hours (Py.Finite 1)) "bar" None)
    /\ entries_of (datetime.mk_date 2010 1 1) c' = [x']
    /\ document c'
       = [DateLine___init__ (datetime.mk_date 2010 1 1) None; TextLine "";
          EntryLine_ (EntryLine___init__ "foo" (Hours (Py.Finite 1)) "bar" None);
          TextLine ""].
Proof.
  apply (first_entry_of_new_date EntriesCollection_blank
           (datetime.mk_date 2010 1 1)
           (TimesheetEntry___init__ "foo" (Hours (Py.Finite 1)) "bar") [] []).
  - constructor.
  - reflexivity.
  - reflexivity.
  - reflexivity.
  - reflexivity.
  - constructor.
  - intros l Hl. discriminate Hl.
Defined.

End FirstEntry.

(** ** What the deletions remove *)

Section Deletions.

(** A filter of the lines followed by [trim]. *)
Lemma filter_trim (c c' : EntriesCollection) (keep : loc -> bool) :
  trim (set_lines (List.filter keep (lines c)) c) = Some (c', Ok tt) ->
  heap c' = heap c /\ dict c' = dict c
  /\ lines c' `sublist_of` lines c
  /\ Forall (fun l => keep l = true) (lines c')
  /\ (forall l, l ∈ lines c -> l ∉ lines c' ->
        keep l = false \/ blank_at (heap c) l)
  /\ (forall l, head (lines c') = Some l -> not_blank_at (heap c) l)
  /\ (forall l, last (lines c') = Some l -> not_blank_at (heap c) l)
  /\ synchronized c' = synchronized c.
Proof.
  intros H.
  apply trim_result in H
    as (top & mid & bottom & Hls & -> & Htop & Hbot & Hhead & Hlast).
  simpl in *.
  assert (Hsub : mid `sublist_of` List.filter keep (lines c)).
  { rewrite Hls. apply sublist_inserts_l, sublist_inserts_r. reflexivity. }
  split; [reflexivity |]. split; [reflexivity |]. split; [| split; [| split]].
  - etransitivity; [exact Hsub | apply sublist_List_filter].
  - pose proof (Forall_List_filter_true keep (lines c)) as Hall.
    rewrite Hls in Hall. apply Forall_app in Hall as [_ Hall].
    now apply Forall_app in Hall as [Hall _].
  - intros l Hin Hout.
    destruct (keep l) eqn:Ek; [right | now left].
    assert (Hin' : l ∈ List.filter keep (lines c)).
    { apply list_elem_of_In, filter_In. split; [now apply list_elem_of_In | exact Ek]. }
    rewrite Hls in Hin'.
    apply elem_of_app in Hin' as [Hin' | Hin'].
    + rewrite Forall_forall in Htop. now apply Htop.
    + apply elem_of_app in Hin' as [Hin' | Hin']; [contradiction |].
      rewrite Forall_forall in Hbot. now apply Hbot.
  - split; [assumption | split; [assumption | reflexivity]].
Qed.

(** X20: In synchronized mode, when [delete_entries] and [delete_date]
    return, no line object has changed and the dictionary is as it was; the
    lines that are left are lines that were there, in the same order.  A
    line that [delete_entries] has removed is an entry line to which one of
    the given entries is bound, and no such line is left; a line that
    [delete_date] has removed is a date line of the date, and no such line
    is left; or else, in both cases, it is a blank line, removed by the
    [trim] at the end. *)
Theorem deletions_remove (c c' : EntriesCollection) :
  synchronized c = true ->
  (forall entries,
     delete_entries entries c = Some (c', Ok tt) ->
     heap c' = heap c /\ dict c' = dict c
     /\ lines c' `sublist_of` lines c
     /\ Forall (fun l => ~ (is_EntryLine (deref (heap c) l) = true
                            /\ Some l ∈ map line entries)) (lines c')
     /\ (forall l, l ∈ lines c -> l ∉ lines c' ->
           (is_EntryLine (deref (heap c) l) = true /\ Some l ∈ map line entries)
           \/ blank_at (heap c) l))
  /\ (forall date,
        delete_date date c = Some (c', Ok tt) ->
        heap c' = heap c /\ dict c' = dict c
        /\ lines c' `sublist_of` lines c
        /\ Forall (fun l => is_date_line_of date (deref (heap c) l) = false)
             (lines c')
        /\ (forall l, l ∈ lines c -> l ∉ lines c' ->
              is_date_line_of date (deref (heap c) l) = true
              \/ blank_at (heap c) l)).
Proof.
  intros Hs. split.
  - intros entries H. rewrite (delete_entries_run c entries Hs) in H.
    apply filter_trim in H as (Hh & Hd & Hsub & Hkeep & Hrem & _).
    split; [exact Hh |]. split; [exact Hd |]. split; [exact Hsub |]. split.
    + eapply Forall_impl; [exact Hkeep |]. simpl. intros l Hl [He Hin].
      rewrite He in Hl. rewrite bool_decide_eq_true_2 in Hl by exact Hin.
      discriminate.
    + intros l Hin Hout. destruct (Hrem l Hin Hout) as [Hk | Hb]; [left | now right].
      apply orb_false_iff in Hk as [Hk1 Hk2].
      apply negb_false_iff in Hk1, Hk2.
      apply bool_decide_eq_true in Hk2. auto.
  - intros date H. rewrite (delete_date_run c date Hs) in H.
    apply filter_trim in H as (Hh & Hd & Hsub & Hkeep & Hrem & _).
    split; [exact Hh |]. split; [exact Hd |]. split; [exact Hsub |]. split.
    + eapply Forall_impl; [exact Hkeep |]. simpl. intros l Hl.
      now apply date_line_of_negb.
    + intros l Hin Hout. destruct (Hrem l Hin Hout) as [Hk | Hb]; [left | now right].
      apply orb_false_iff in Hk as [Hk1 Hk2].
      apply negb_false_iff in Hk1, Hk2.
      unfold is_date_line_of. now rewrite Hk1, Hk2.
Qed.

Lemma deletions_remove_witness :
  lines (set_lines [2] one_entry_collection) `sublist_of` lines one_entry_collection.
Proof.
  apply (proj2 (deletions_remove one_entry_collection
                  (set_lines [2] one_entry_collection) eq_refl)
           (datetime.mk_date 2010 1 1)).
  vm_compute. reflexivity.
Defined.

End Deletions.

(** ** Deleting a date from the collection *)

Section CollectionDelitem.

Lemma bind_raise {A C} (m : M A) (k : A -> M C) (s s1 : EntriesCollection)
    (e : exn) :
  m s = Some (s1, Raise e) -> (m ≫= k) s = Some (s1, Raise e).
Proof. intros H. unfold mbind, M_bind. now rewrite H. Qed.

(** [self[key]] always returns, and the key has a list afterwards. *)
Lemma getitem_run (c : EntriesCollection) (key : datetime.date) :
  exists c1,
    __getitem__ key c = Some (c1, Ok tt)
    /\ synchronized c1 = synchronized c
    /\ is_Some (dict c1 !! key)
    /\ delete key (dict c1) = delete key (dict c).
Proof.
  destruct c as [h d ls sy bo].
  unfold __getitem__, __missing__, add_date, synchronized_, mbind, M_bind,
    get, modify, new_line, alloc, mret, M_ret.
  simpl. destruct (d !! key) as [L|] eqn:E; simpl.
  - eexists. split; [reflexivity |]. simpl. rewrite E. eauto.
  - destruct sy; simpl; [destruct bo; simpl |];
      (eexists; split; [reflexivity |]; simpl;
       rewrite lookup_insert_eq, delete_insert_eq; eauto).
Qed.

(** A filter of the lines followed by [trim]: the outcome. *)
Lemma filter_trim_outcome (c : EntriesCollection) (ls : list loc) :
  (exists c', trim (set_lines ls c) = Some (c', Ok tt)
              /\ synchronized c' = synchronized c /\ dict c' = dict c)
  \/ (exists c' msg, trim (set_lines ls c) = Some (c', Raise (AttributeError msg))).
Proof.
  destruct (trim_outcome (set_lines ls c)) as [[c' H] | H].
  - left. exists c'. split; [exact H |].
    apply trim_result in H as (top & mid & bottom & _ & -> & _). auto.
  - right. eauto.
Qed.

(** X21: [del collection[key]].  While the collection is not synchronized
    this is the deletion of a dictionary: the key is removed, and a key
    that is not there raises [KeyError]; the document is not touched.  In
    synchronized mode [KeyError] is never raised, since [self[key]] gives a
    missing key an empty list first (and a date line, which [delete_date]
    takes away again): the call returns with the key removed, unless [trim]
    raises [AttributeError] on the way. *)
Theorem collection_delitem_outcome (c : EntriesCollection) (key : datetime.date) :
  (synchronized c = false ->
   (is_Some (dict c !! key) ->
    EntriesCollection___delitem__ key c
    = Some (set_dict (delete key (dict c)) c, Ok tt))
   /\ (dict c !! key = None ->
       exists msg,
         EntriesCollection___delitem__ key c = Some (c, Raise (KeyError msg))))
  /\ (synchronized c = true ->
      exists c' r,
        EntriesCollection___delitem__ key c = Some (c', r)
        /\ ((r = Ok tt /\ dict c' = delete key (dict c))
            \/ exists msg, r = Raise (AttributeError msg))).
Proof.
  split.
  - intros Hs.
    unfold EntriesCollection___delitem__, mbind, M_bind, get, mret, M_ret,
      modify, raise.
    rewrite Hs. split.
    + intros [L HL]. rewrite HL. reflexivity.
    + intros HL. rewrite HL. eauto.
  - intros Hs. unfold EntriesCollection___delitem__.
    assert (Hflag : get synchronized c = Some (c, Ok true))
      by (unfold get; now rewrite Hs).
    rewrite (bind_ok _ _ _ _ _ Hflag).
    destruct (getitem_run c key) as (c1 & Hget & Hs1 & [L HL] & Hdel).
    rewrite Hs in Hs1.
    assert (HA : exists c3 r,
              (__getitem__ key;;
               entries ← get (entries_of key);
               delete_entries entries;; delete_date key) c = Some (c3, r)
              /\ ((r = Ok tt /\ dict c3 = dict c1)
                  \/ exists msg, r = Raise (AttributeError msg))).
    { rewrite (bind_ok _ _ _ _ _ Hget).
      assert (Hent : get (entries_of key) c1 = Some (c1, Ok (entries_of key c1)))
        by reflexivity.
      rewrite (bind_ok _ _ _ _ _ Hent).
      pose proof (delete_entries_run c1 (entries_of key c1) Hs1) as Hde.
      match type of Hde with
      | _ = trim (set_lines ?ls c1) =>
          destruct (filter_trim_outcome c1 ls)
            as [(c2 & Ht & Hs2 & Hd2) | (c2 & msg & Ht)]
      end; rewrite Ht in Hde.
      2:{ rewrite (bind_raise _ _ _ _ _ Hde). eexists _, _.
          split; [reflexivity |]. right. eauto. }
      rewrite (bind_ok _ _ _ _ _ Hde).
      rewrite Hs1 in Hs2.
      pose proof (delete_date_run c2 key Hs2) as Hdd.
      match type of Hdd with
      | _ = trim (set_lines ?ls c2) =>
          destruct (filter_trim_outcome c2 ls)
            as [(c3 & Ht' & Hs3 & Hd3) | (c3 & msg & Ht')]
      end; rewrite Ht' in Hdd.
      2:{ eexists _, _. split; [exact Hdd |]. right. eauto. }
      eexists _, _. split; [exact Hdd |]. left.
      split; [reflexivity | congruence]. }
    destruct HA as (c3 & r & HA & [[-> Hd3] | [msg ->]]).
    + rewrite (bind_ok _ _ _ _ _ HA).
      unfold mbind, M_bind, get, modify.
      rewrite Hd3, HL. eexists _, _. split; [reflexivity |]. left.
      split; [reflexivity |]. simpl. rewrite Hd3. exact Hdel.
    + rewrite (bind_raise _ _ _ _ _ HA). eexists _, _.
      split; [reflexivity |]. right. eauto.
Qed.

Lemma collection_delitem_outcome_witness :
  EntriesCollection___delitem__ (datetime.mk_date 2010 1 1)
    (set_synchronized false one_entry_collection)
  = Some (set_dict (delete (datetime.mk_date 2010 1 1) (dict one_entry_collection))
            (set_synchronized false one_entry_collection), Ok tt).
Proof.
  apply (collection_delitem_outcome (set_synchronized false one_entry_collection)
           (datetime.mk_date 2010 1 1)).
  - reflexivity.
  - eexists. vm_compute. reflexivity.
Defined.

End CollectionDelitem.

(** ** Deleting an entry from its list in synchronized mode *)

Section ListDelitemSynchronized.

(** X28: [del entries[key]] in synchronized mode, on a list bound to the
    collection, for an index inside the list.  The call returns when every
    line of the document has a text.  Whenever it returns, the entry is
    gone from the list, which stays in the collection under its date also
    when it is empty; the other lists and all line objects are as they
    were; the lines left are lines that were there, in their order; no
    entry line to which the entry is bound is left, and when the list has
    become empty no date line of its date is left either.  A line that is
    gone is such an entry line, or such a date line when the list has
    become empty, or a blank line. *)
Theorem list_delitem_synchronized (c : EntriesCollection) (d : datetime.date)
    (key : Z) (L : EntriesList) (i : nat) (entry : TimesheetEntry) :
  synchronized c = true ->
  dict c !! d = Some L ->
  entries_collection L = true ->
  list_index (items L) key = Some i ->
  items L !! i = Some entry ->
  (Forall (has_text (heap c)) (lines c) ->
   exists c', EntriesList___delitem__ d key c = Some (c', Ok tt))
  /\ (forall c',
        EntriesList___delitem__ d key c = Some (c', Ok tt) ->
        heap c' = heap c
        /\ dict c' !! d = Some (set_items (delete i (items L)) L)
        /\ (forall k, k <> d -> dict c' !! k = dict c !! k)
        /\ lines c' `sublist_of` lines c
        /\ Forall (fun l => ~ (is_EntryLine (deref (heap c) l) = true
                               /\ line entry = Some l)) (lines c')
        /\ (delete i (items L) = [] ->
            Forall (fun l => is_date_line_of (el_date L) (deref (heap c) l) = false)
              (lines c'))
        /\ (forall l, l ∈ lines c -> l ∉ lines c' ->
              (is_EntryLine (deref (heap c) l) = true /\ line entry = Some l)
              \/ (delete i (items L) = []
                  /\ is_date_line_of (el_date L) (deref (heap c) l) = true)
              \/ blank_at (heap c) l)).
Proof.
  intros Hsync HL Hb Hidx Hentry.
  set (keep1 := fun l : loc =>
         negb (is_EntryLine (deref (heap c) l))
         || negb (bool_decide (Some l ∈ map line [entry]))).
  assert (Hkeep1 : forall l, keep1 l = false ->
            is_EntryLine (deref (heap c) l) = true /\ line entry = Some l).
  { intros l Hk. unfold keep1 in Hk.
    apply orb_false_iff in Hk as [Hk1 Hk2].
    apply negb_false_iff in Hk1, Hk2. apply bool_decide_eq_true in Hk2.
    simpl in Hk2. apply list_elem_of_singleton in Hk2. auto. }
  assert (Hkeep1' : forall l, keep1 l = true ->
            ~ (is_EntryLine (deref (heap c) l) = true /\ line entry = Some l)).
  { intros l Hk [He Hl]. unfold keep1 in Hk. rewrite He in Hk.
    rewrite bool_decide_eq_true_2 in Hk; [discriminate |].
    simpl. apply list_elem_of_singleton. now symmetry. }
  assert (Hunfold :
            EntriesList___delitem__ d key c
            = (delete_entries [entry];;
               put_items d (delete i (items L));;
               if Nat.eqb (length (delete i (items L))) 0 && true
               then delete_date (el_date L) else mret tt) c).
  { unfold EntriesList___delitem__.
    rewrite (bind_ok _ _ _ _ _ (the_list_ok c d L HL)).
    rewrite Hidx, Hentry, Hb. reflexivity. }
  rewrite Hunfold. clear Hunfold.
  pose proof (delete_entries_run c [entry] Hsync) as Hde. fold keep1 in Hde.
  split.
  - (* the call returns *)
    intros Htext.
    destruct (trim_returns (set_lines (List.filter keep1 (lines c)) c))
      as (n1 & k1 & Ht1).
    { simpl. now apply Forall_List_filter. }
    rewrite Ht1 in Hde. rewrite (bind_ok _ _ _ _ _ Hde).
    rewrite (bind_ok _ _ _ _ _ (put_items_run _ d _)).
    destruct (Nat.eqb (length (delete i (items L))) 0 && true);
      [| eexists; reflexivity].
    match goal with
    | |- exists c', delete_date _ ?cb = _ =>
        rewrite (delete_date_run cb (el_date L) Hsync);
        destruct (trim_returns
                    (set_lines
                       (List.filter
                          (fun l => negb (is_DateLine (deref (heap cb) l))
                                    || negb (bool_decide
                                               (line_date (deref (heap cb) l)
                                                = Some (el_date L))))
                          (lines cb)) cb)) as (n2 & k2 & Ht2)
    end.
    { simpl. apply Forall_List_filter, Forall_take, Forall_drop.
      now apply Forall_List_filter. }
    rewrite Ht2. eexists. reflexivity.
  - (* what it has done when it returns *)
    intros c' H.
    destruct (trim_outcome (set_lines (List.filter keep1 (lines c)) c))
      as [[ca Hta] | Hta]; rewrite Hta in Hde.
    2:{ rewrite (bind_raise _ _ _ _ _ Hde) in H. discriminate. }
    rewrite (bind_ok _ _ _ _ _ Hde) in H.
    rewrite (bind_ok _ _ _ _ _ (put_items_run _ d _)) in H.
    apply filter_trim in Hta
      as (Hha & Hda & Hsuba & Hkeepa & Hrema & _ & _ & Hsa).
    simpl in Hha, Hda, Hsuba, Hrema, Hsa.
    destruct (delete i (items L)) as [|y its'] eqn:Edel.
    + (* the list is empty now: the date line goes too *)
      simpl in H.
      match type of H with
      | delete_date _ ?cb = _ =>
          assert (Hsb : synchronized cb = true) by (simpl; congruence);
          rewrite (delete_date_run cb (el_date L) Hsb) in H;
          apply filter_trim in H
            as (Hhc & Hdc & Hsubc & Hkeepc & Hremc & _)
      end.
      simpl in Hhc, Hdc, Hsubc, Hkeepc, Hremc.
      split; [congruence |].
      split; [rewrite Hdc, lookup_alter_eq, Hda, HL; reflexivity |].
      split; [intros k Hk; rewrite Hdc, lookup_alter_ne by congruence;
              now rewrite Hda |].
      split; [etransitivity; eassumption |].
      split; [| split].
      * rewrite Forall_forall in Hkeepa |- *. intros l Hl.
        apply Hkeep1', Hkeepa. eapply elem_of_sublist; eassumption.
      * intros _. eapply Forall_impl; [exact Hkeepc |]. simpl. intros l Hl.
        rewrite Hha in Hl. now apply date_line_of_negb.
      * intros l Hin Hout.
        destruct (decide (l ∈ lines ca)) as [Hina | Hina].
        -- destruct (Hremc l Hina Hout) as [Hk | Hbl].
           ++ right. left. split; [reflexivity |].
              rewrite Hha in Hk.
              apply orb_false_iff in Hk as [Hk1 Hk2].
              apply negb_false_iff in Hk1, Hk2.
              unfold is_date_line_of. now rewrite Hk1, Hk2.
           ++ right. right. unfold blank_at in *. now rewrite Hha in Hbl.
        -- destruct (Hrema l Hin Hina) as [Hk | Hbl]; [left | right; right]; auto.
    + (* the list still has entries *)
      simpl in H. injection H as <-. simpl.
      split; [exact Hha |].
      split; [rewrite lookup_alter_eq, Hda, HL; reflexivity |].
      split; [intros k Hk; rewrite lookup_alter_ne by congruence;
              now rewrite Hda |].
      split; [exact Hsuba |].
      split; [| split].
      * eapply Forall_impl; [exact Hkeepa |]. intros l. apply Hkeep1'.
      * discriminate.
      * intros l Hin Hout.
        destruct (Hrema l Hin Hout) as [Hk | Hbl]; [left | right; right]; auto.
Qed.

Lemma list_delitem_synchronized_witness :
  exists c',
    EntriesList___delitem__ (datetime.mk_date 2010 1 1) 0 one_entry_collection
    = Some (c', Ok tt).
Proof.
  destruct (list_delitem_synchronized one_entry_collection
              (datetime.mk_date 2010 1 1) 0
              (mk_EntriesList true (datetime.mk_date 2010 1 1)
                 [mk_TimesheetEntry (Some 2) false false "foo" "bar"
                    (Hours (Py.Finite 1))])
              0
              (mk_TimesheetEntry (Some 2) false false "foo" "bar"
                 (Hours (Py.Finite 1))))
    as [H _].
  - reflexivity.
  - vm_compute. reflexivity.
  - reflexivity.
  - reflexivity.
  - reflexivity.
  - apply H. repeat constructor; eexists; reflexivity.
Defined.

End ListDelitemSynchronized.

(** ** Appending to a list whose date is not in the document *)

Section AppendWithoutDate.

(** An assignment to an entry changes no line into a line of another
    class, and creates none. *)
Lemma entry_setattr_kinds (s : EntriesCollection) (x : TimesheetEntry)
    (a : TimesheetEntry_assign) :
  exists h,
    entry_setattr x a s = Some (set_heap h s, Ok (TimesheetEntry_store x a))
    /\ length h = length (heap s)
    /\ forall l d,
         is_date_line_of d (deref h l) = is_date_line_of d (deref (heap s) l).
Proof.
  unfold entry_setattr, TimesheetEntry___setattr__.
  destruct (line (TimesheetEntry_store x a)) as [l0|];
    [| eexists; split; [reflexivity |]; split; [reflexivity | intros; reflexivity]].
  destruct (heap s !! l0) as [[t | e | d0 t]|] eqn:E;
    destruct (mirrored a) as [la|];
    try (eexists; split; [reflexivity |]; split;
         [reflexivity | intros; reflexivity]).
  eexists. split; [reflexivity |]. split; [apply length_insert |].
  intros l d. destruct (decide (l = l0)) as [-> | Hne].
  - unfold deref. rewrite E.
    rewrite list_lookup_insert_eq by (eapply lookup_lt_Some; exact E).
    reflexivity.
  - unfold deref. rewrite list_lookup_insert_ne by congruence. reflexivity.
Qed.

(** X22: In synchronized mode, [append] on a list that is bound to the
    collection, for a date of which the document has no date line (as
    after the last entry of the date was deleted, which removes the date
    line and keeps the list), raises [TypeError] from [add_entry].  The
    entry is in the list all the same, since it was appended before
    [add_entry] was called, and it is bound to the entry line that
    [add_entry] made for it, which is not in the document; the lines of
    the document are as they were. *)
Theorem append_without_date_line (c : EntriesCollection) (key : datetime.date)
    (x : TimesheetEntry) (L : EntriesList) :
  synchronized c = true ->
  wf c ->
  dict c !! key = Some L ->
  entries_collection L = true ->
  Forall (fun l => is_date_line_of (el_date L) (deref (heap c) l) = false)
    (lines c) ->
  exists c' x' msg,
    EntriesList_append key x c = Some (c', Raise (TypeError msg))
    /\ entries_of key c' = items L ++ [x']
    /\ line x' = Some (length (heap c))
    /\ is_EntryLine (deref (heap c') (length (heap c))) = true
    /\ (length (heap c) ∉ lines c')
    /\ alias x' = alias x /\ description x' = description x
    /\ lines c' = lines c.
Proof.
  intros Hsync Hwf HL Hb Hnone. unfold EntriesList_append.
  rewrite (bind_ok _ _ _ _ _ (the_list_ok c key L HL)).
  rewrite (bind_ok _ _ _ _ _ (put_items_run c key _)).
  rewrite Hb.
  assert (Hfresh : length (heap c) ∉ lines c).
  { intros Hin. unfold wf in Hwf. rewrite Forall_forall in Hwf.
    specialize (Hwf _ Hin). lia. }
  assert (Hfin : forall x0 c1,
            synchronized c1 = true -> lines c1 = lines c ->
            length (heap c1) = length (heap c) ->
            (forall l d, is_date_line_of d (deref (heap c1) l)
                         = is_date_line_of d (deref (heap c) l)) ->
            dict c1 !! key = Some (set_items (items L ++ [x0]) L) ->
            exists c' x' msg,
              ('(x1, r) ← add_entry_call (el_date L) x0;
               put_items key (items L ++ [x1]);; lift r;; mret x1) c1
              = Some (c', Raise (TypeError msg))
              /\ entries_of key c' = items L ++ [x']
              /\ line x' = Some (length (heap c))
              /\ is_EntryLine (deref (heap c') (length (heap c))) = true
              /\ (length (heap c) ∉ lines c')
              /\ alias x' = alias x0 /\ description x' = description x0
              /\ lines c' = lines c).
  { intros x0 c1 Hs1 Hl1 Hlen1 Hk1 Hd1.
    assert (Hscan : add_entry_scan (heap c1) (el_date L) (lines c1) 0 false None
                    = None).
    { apply scan_none. rewrite Hl1.
      eapply Forall_impl; [exact Hnone |]. intros l Hl. simpl in *.
      now rewrite Hk1. }
    rewrite (bind_ok _ _ _ _ _ (add_entry_call_raise c1 _ x0 Hs1 Hscan)).
    cbv beta iota.
    rewrite (bind_ok _ _ _ _ _ (put_items_run _ key _)).
    eexists _, _, _. split; [reflexivity |]. unfold entries_of. simpl.
    rewrite lookup_alter_eq, Hd1, Hlen1, Hl1. simpl.
    split; [reflexivity |]. split; [reflexivity |].
    split; [rewrite <- Hlen1; now rewrite deref_new |]. auto. }
  destruct (chained (items L ++ [x]) x) as [d|] eqn:Ec.
  - destruct (entry_setattr_kinds
                (set_dict (alter (set_items (items L ++ [x])) key (dict c)) c)
                x (set_e_duration d)) as (h & Hset & Hlen & Hkinds).
    erewrite bind_ok.
    2:{ rewrite (bind_ok _ _ _ _ _ Hset).
        rewrite (bind_ok _ _ _ _ _ (put_items_run _ key _)). reflexivity. }
    destruct (Hfin (TimesheetEntry_store x (set_e_duration d))
                (set_dict
                   (alter (set_items (items L ++ [TimesheetEntry_store x (set_e_duration d)]))
                      key (alter (set_items (items L ++ [x])) key (dict c)))
                   (set_heap h c)))
      as (c' & x' & msg & Hrun & He & Hrest); try reflexivity; try assumption.
    { simpl. rewrite !lookup_alter_eq, HL. reflexivity. }
    exists c', x', msg. split; [exact Hrun |]. split; [exact He |].
    destruct Hrest as (? & ? & ? & Ha & Hdsc & ?). repeat split; auto.
  - erewrite bind_ok by reflexivity.
    destruct (Hfin x (set_dict (alter (set_items (items L ++ [x])) key (dict c)) c))
      as (c' & x' & msg & Hrun & He & Hrest); try reflexivity; try assumption.
    { simpl. rewrite lookup_alter_eq, HL. reflexivity. }
    exists c', x', msg. split; [exact Hrun |]. split; [exact He |]. exact Hrest.
Qed.

Lemma append_without_date_line_witness :
  exists c' x' msg,
    EntriesList_append (datetime.mk_date 2010 1 1)
      (TimesheetEntry___init__ "foo" (Hours (Py.Finite 1)) "bar")
      (mk_EntriesCollection []
         {[ datetime.mk_date 2010 1 1 :=
              mk_EntriesList true (datetime.mk_date 2010 1 1) [] ]}
         [] true false)
    = Some (c', Raise (TypeError msg))
    /\ entries_of (datetime.mk_date 2010 1 1) c' = [] ++ [x']
    /\ line x' = Some 0
    /\ is_EntryLine (deref (heap c') 0) = true
    /\ (0 ∉ lines c')
    /\ alias x' = "foo" /\ description x' = "bar"
    /\ lines c' = [].
Proof.
  apply (append_without_date_line
           (mk_EntriesCollection []
              {[ datetime.mk_date 2010 1 1 :=
                   mk_EntriesList true (datetime.mk_date 2010 1 1) [] ]}
              [] true false)
           (datetime.mk_date 2010 1 1)
           (TimesheetEntry___init__ "foo" (Hours (Py.Finite 1)) "bar")
           (mk_EntriesList true (datetime.mk_date 2010 1 1) [])).
  - reflexivity.
  - constructor.
  - vm_compute. reflexivity.
  - reflexivity.
  - constructor.
Defined.

End AppendWithoutDate.

(** ** Deleting the entry that was appended last *)

Section AppendThenDelete.

Lemma entry_setattr_unbound (s : EntriesCollection) (x : TimesheetEntry)
    (a : TimesheetEntry_assign) :
  line x = None -> (forall v, a <> set_e_line v) ->
  entry_setattr x a s = Some (s, Ok (TimesheetEntry_store x a)).
Proof.
  intros Hl Ha. unfold entry_setattr, TimesheetEntry___setattr__.
  replace (line (TimesheetEntry_store x a)) with (@None loc).
  - now rewrite set_heap_same.
  - destruct a; try (symmetry; exact Hl). now contradiction (Ha v).
Qed.

Lemma filter_keep_all {A} (f : A -> bool) (l : list A) :
  Forall (fun x => f x = true) l -> List.filter f l = l.
Proof.
  induction 1 as [|x l Hx Hl IH]; simpl; [reflexivity |].
  now rewrite Hx, IH.
Qed.

(** [trim] on a document that neither begins nor ends with a blank line. *)
Lemma trim_nothing (c : EntriesCollection) :
  (forall l, head (lines c) = Some l -> not_blank_at (heap c) l) ->
  (forall l, last (lines c) = Some l -> not_blank_at (heap c) l) ->
  trim c = Some (c, Ok tt).
Proof.
  intros Hhead Hlast. rewrite trim_unfold.
  rewrite (trim_scan_stops _ _ 0 Hhead).
  rewrite trim_scan_stops; [reflexivity |].
  intros l Hl. apply Hlast. rewrite <- head_reverse, Hl. reflexivity.
Qed.

Lemma list_index_last {A} (l : list A) (x : A) :
  list_index (l ++ [x]) (-1) = Some (length l).
Proof.
  unfold list_index. rewrite length_app. simpl.
  replace (-1 + Z.of_nat (length l + 1))%Z with (Z.of_nat (length l)) by lia.
  replace ((0 <=? Z.of_nat (length l))%Z
           && (Z.of_nat (length l) <? Z.of_nat (length l + 1))%Z) with true
    by (symmetry; apply andb_true_iff; split;
        [apply Z.leb_le | apply Z.ltb_lt]; lia).
  now rewrite Nat2Z.id.
Qed.

(** X23: In synchronized mode, on a document whose first line and last
    line each have a text, and one that is not blank (an entry line whose
    text was cleared has none, and [trim] would raise on it), for a date
    that has entries in its list and an entry line under its date line:
    appending an entry that is not bound yet to the list of the date and
    then deleting the last item of that list returns, and leaves the
    document as it was before the two calls, line for line, and the list
    of the date with the items it had. *)
Theorem append_then_delete (c : EntriesCollection) (key : datetime.date)
    (x : TimesheetEntry) (L : EntriesList)
    (pre body post before after : list loc) (dl a : loc) :
  synchronized c = true ->
  wf c ->
  dict c !! key = Some L ->
  entries_collection L = true ->
  el_date L = key ->
  items L <> [] ->
  line x = None ->
  lines c = pre ++ dl :: body ++ post ->
  Forall (fun l => is_date_line_of key (deref (heap c) l) = false) pre ->
  is_date_line_of key (deref (heap c) dl) = true ->
  Forall (fun l => is_DateLine (deref (heap c) l) = true ->
                   is_date_line_of key (deref (heap c) l) = true) body ->
  (forall l, head post = Some l ->
     is_DateLine (deref (heap c) l) = true
     /\ is_date_line_of key (deref (heap c) l) = false) ->
  dl :: body = before ++ a :: after ->
  is_EntryLine (deref (heap c) a) = true ->
  Forall (fun l => is_EntryLine (deref (heap c) l) = false
                   /\ is_DateLine (deref (heap c) l) = false) after ->
  (forall l, head (lines c) = Some l -> not_blank_at (heap c) l) ->
  (forall l, last (lines c) = Some l -> not_blank_at (heap c) l) ->
  exists c1 x' c2,
    EntriesList_append key x c = Some (c1, Ok x')
    /\ EntriesList___delitem__ key (-1) c1 = Some (c2, Ok tt)
    /\ lines c2 = lines c
    /\ document c2 = document c
    /\ (forall k, dict c2 !! k = dict c !! k).
Proof.
  intros Hsync Hwf HL Hb Hdate Hne Hline Hlines Hpre Hdl Hbody Hpost Hsplit Ha
    Hafter Hhead Hlast.
  set (i := length pre + length before).
  assert (Hscan : add_entry_scan (heap c) key (lines c) 0 false None = Some i).
  { rewrite Hlines. eapply scan_general; eauto. }
  assert (Hlines' : lines c = (pre ++ before) ++ a :: after ++ post).
  { rewrite Hlines.
    change (pre ++ dl :: body ++ post) with (pre ++ (dl :: body) ++ post).
    rewrite Hsplit, <- !app_assoc. reflexivity. }
  assert (Hat : lines c !! i = Some a).
  { rewrite Hlines'. apply list_lookup_middle. unfold i. now rewrite length_app. }
  assert (Hwa : a < length (heap c)).
  { unfold wf in Hwf. rewrite Forall_forall in Hwf. apply Hwf.
    eapply list_elem_of_lookup_2. exact Hat. }
  (* the append *)
  assert (Happ : exists x1 c1,
            EntriesList_append key x c = Some (c1, Ok x1)
            /\ line x1 = Some (length (heap c))
            /\ synchronized c1 = true
            /\ heap c1 = heap c ++ [EntryLine_ (EntryLine___init__ (alias x1)
                                       (duration x1) (description x1) None)]
            /\ lines c1 = list_insert_at (i + 1) (length (heap c)) (lines c)
            /\ dict c1 !! key = Some (set_items (items L ++ [x1]) L)
            /\ (forall k, k <> key -> dict c1 !! k = dict c !! k)).
  { unfold EntriesList_append.
    rewrite (bind_ok _ _ _ _ _ (the_list_ok c key L HL)).
    rewrite (bind_ok _ _ _ _ _ (put_items_run c key _)).
    rewrite Hb, Hdate.
    assert (Hfin : forall x0 c0,
              synchronized c0 = true -> heap c0 = heap c -> lines c0 = lines c ->
              dict c0 !! key = Some (set_items (items L ++ [x0]) L) ->
              (forall k, k <> key -> dict c0 !! k = dict c !! k) ->
              exists x1 c1,
                ('(x2, r) ← add_entry_call key x0;
                 put_items key (items L ++ [x2]);; lift r;; mret x2) c0
                = Some (c1, Ok x1)
                /\ line x1 = Some (length (heap c))
                /\ synchronized c1 = true
                /\ heap c1 = heap c ++ [EntryLine_ (EntryLine___init__ (alias x1)
                                           (duration x1) (description x1) None)]
                /\ lines c1 = list_insert_at (i + 1) (length (heap c)) (lines c)
                /\ dict c1 !! key = Some (set_items (items L ++ [x1]) L)
                /\ (forall k, k <> key -> dict c1 !! k = dict c !! k)).
    { intros x0 c0 Hs0 Hh0 Hl0 Hd0 Hk0.
      assert (Hscan0 : add_entry_scan (heap c0) key (lines c0) 0 false None = Some i)
        by (rewrite Hh0, Hl0; exact Hscan).
      assert (Hat0 : lines c0 !! i = Some a) by (rewrite Hl0; exact Hat).
      pose proof (add_entry_call_run c0 key x0 i a Hs0 Hscan0 Hat0) as Hrun.
      simpl in Hrun. rewrite Hh0 in Hrun.
      rewrite deref_alloc, Ha in Hrun by exact Hwa.
      rewrite (bind_ok _ _ _ _ _ Hrun). cbv beta iota.
      rewrite (bind_ok _ _ _ _ _ (put_items_run _ key _)).
      eexists _, _. split; [reflexivity |]. simpl.
      split; [reflexivity |]. split; [exact Hs0 |]. split; [reflexivity |].
      split; [now rewrite Hl0 |]. split.
      - rewrite lookup_alter_eq, Hd0. reflexivity.
      - intros k Hk. rewrite lookup_alter_ne by congruence. now apply Hk0. }
    destruct (chained (items L ++ [x]) x) as [d|].
    - erewrite bind_ok.
      2:{ erewrite bind_ok
            by (apply entry_setattr_unbound; [exact Hline | discriminate]).
          rewrite (bind_ok _ _ _ _ _ (put_items_run _ key _)). reflexivity. }
      apply Hfin; try reflexivity; try exact Hsync.
      + simpl. rewrite !lookup_alter_eq, HL. reflexivity.
      + intros k Hk. simpl. now rewrite !lookup_alter_ne.
    - erewrite bind_ok by reflexivity.
      apply Hfin; try reflexivity; try exact Hsync.
      + simpl. rewrite lookup_alter_eq, HL. reflexivity.
      + intros k Hk. simpl. now rewrite lookup_alter_ne. }
  destruct Happ as (x1 & c1 & Happ & Hl1 & Hs1 & Hh1 & Hls1 & Hd1 & Hk1).
  set (new := length (heap c)) in *.
  set (obj := EntryLine_ (EntryLine___init__ (alias x1) (duration x1)
                            (description x1) None)) in *.
  (* the deletion *)
  assert (Hold : Forall (fun l => l < new) (lines c)) by exact Hwf.
  assert (Hfilter :
            List.filter
              (fun l => negb (is_EntryLine (deref (heap c1) l))
                        || negb (bool_decide (Some l ∈ map line [x1])))
              (lines c1) = lines c).
  { rewrite Hls1. unfold list_insert_at.
    rewrite List.filter_app. simpl.
    rewrite Hh1, deref_new. simpl. rewrite Hl1.
    rewrite bool_decide_eq_true_2 by (apply list_elem_of_singleton; reflexivity).
    simpl.
    rewrite !filter_keep_all; [apply take_drop | |].
    - apply Forall_drop. eapply Forall_impl; [exact Hold |]. intros l Hl. simpl in *.
      rewrite bool_decide_eq_false_2; [apply orb_true_r |].
      intros Hin. apply list_elem_of_singleton in Hin. injection Hin as ->. lia.
    - apply Forall_take. eapply Forall_impl; [exact Hold |]. intros l Hl. simpl in *.
      rewrite bool_decide_eq_false_2; [apply orb_true_r |].
      intros Hin. apply list_elem_of_singleton in Hin. injection Hin as ->. lia. }
  assert (Hderef : forall l, l < new -> deref (heap c1) l = deref (heap c) l).
  { intros l Hl. rewrite Hh1. now apply deref_alloc. }
  assert (Hin_lines : forall l, l ∈ lines c -> l < new).
  { intros l Hl. rewrite Forall_forall in Hold. now apply Hold. }
  assert (Htrim : trim (set_lines (lines c) c1) = Some (set_lines (lines c) c1, Ok tt)).
  { apply trim_nothing; simpl; intros l Hl; unfold not_blank_at.
    - rewrite Hderef; [now apply Hhead |].
      apply Hin_lines. destruct (lines c); [discriminate |].
      injection Hl as ->. now left.
    - rewrite Hderef; [now apply Hlast |].
      apply Hin_lines. now apply last_Some_elem_of. }
  assert (Hdel : EntriesList___delitem__ key (-1) c1
                 = Some (set_dict (alter (set_items (items L)) key (dict c1))
                           (set_lines (lines c) c1), Ok tt)).
  { unfold EntriesList___delitem__.
    rewrite (bind_ok _ _ _ _ _ (the_list_ok c1 key _ Hd1)).
    simpl. rewrite list_index_last.
    rewrite list_lookup_middle by reflexivity.
    rewrite Hb. unfold delete_entry.
    assert (Hde : delete_entries [x1] c1 = Some (set_lines (lines c) c1, Ok tt)).
    { rewrite (delete_entries_run c1 [x1] Hs1), Hfilter. exact Htrim. }
    rewrite (bind_ok _ _ _ _ _ Hde).
    rewrite (bind_ok _ _ _ _ _ (put_items_run _ key _)).
    rewrite delete_middle, app_nil_r.
    replace (Nat.eqb (length (items L)) 0) with false
      by (destruct (items L); [congruence | reflexivity]).
    reflexivity. }
  exists c1, x1, (set_dict (alter (set_items (items L)) key (dict c1))
                   (set_lines (lines c) c1)).
  split; [exact Happ |]. split; [exact Hdel |]. split; [reflexivity |]. split.
  - unfold document. simpl. rewrite Hh1. now apply map_deref_alloc.
  - intros k. simpl. destruct (decide (k = key)) as [-> | Hk].
    + rewrite lookup_alter_eq, Hd1, HL. simpl. now destruct L.
    + rewrite lookup_alter_ne by congruence. now apply Hk1.
Qed.

Lemma append_then_delete_witness :
  exists c1 x' c2,
    EntriesList_append (datetime.mk_date 2010 1 1)
      (TimesheetEntry___init__ "zz" (Hours (Py.Finite 2)) "new")
      one_entry_collection = Some (c1, Ok x')
    /\ EntriesList___delitem__ (datetime.mk_date 2010 1 1) (-1) c1
       = Some (c2, Ok tt)
    /\ lines c2 = lines one_entry_collection
    /\ document c2 = document one_entry_collection
    /\ (forall k, dict c2 !! k = dict one_entry_collection !! k).
Proof.
  apply (append_then_delete one_entry_collection (datetime.mk_date 2010 1 1)
           (TimesheetEntry___init__ "zz" (Hours (Py.Finite 2)) "new")
           (mk_EntriesList true (datetime.mk_date 2010 1 1)
              [mk_TimesheetEntry (Some 2) false false "foo" "bar"
                 (Hours (Py.Finite 1))])
           [] [1; 2] [] [0; 1] [] 0 2).
  - reflexivity.
  - unfold wf. simpl. repeat constructor.
  - vm_compute. reflexivity.
  - reflexivity.
  - reflexivity.
  - discriminate.
  - reflexivity.
  - reflexivity.
  - constructor.
  - reflexivity.
  - repeat constructor; discriminate.
  - intros l Hl. discriminate Hl.
  - reflexivity.
  - reflexivity.
  - constructor.
  - intros l Hl. injection Hl as <-. reflexivity.
  - intros l Hl. injection Hl as <-. reflexivity.
Defined.

End AppendThenDelete.

(** ** The entries of a loaded document *)

Section LoadedEntries.

Lemma date_after_app (h : list Line) (l1 l2 : list loc) :
  forall cd, date_after h cd (l1 ++ l2) = date_after h (date_after h cd l1) l2.
Proof. induction l1 as [|l l1 IH]; intros cd; simpl; [reflexivity | apply IH]. Qed.

Lemma entries_under_app (h : list Line) (key : datetime.date) (l1 l2 : list loc) :
  forall cd,
    entries_under h key cd (l1 ++ l2)
    = entries_under h key cd l1 ++ entries_under h key (date_after h cd l1) l2.
Proof.
  induction l1 as [|l l1 IH]; intros cd; simpl; [reflexivity |].
  destruct (deref h l); try apply IH.
  destruct (bool_decide _); simpl; now rewrite IH.
Qed.

(** Only the lines that are read matter. *)
Lemma date_after_ext (h h' : list Line) (ls : list loc) :
  Forall (fun l => deref h' l = deref h l) ls ->
  forall cd, date_after h' cd ls = date_after h cd ls.
Proof.
  induction 1 as [|l ls Hl Hls IH]; intros cd; simpl; [reflexivity |].
  rewrite Hl. apply IH.
Qed.

Lemma entries_under_ext (h h' : list Line) (key : datetime.date) (ls : list loc) :
  Forall (fun l => deref h' l = deref h l) ls ->
  forall cd, entries_under h' key cd ls = entries_under h key cd ls.
Proof.
  induction 1 as [|l ls Hl Hls IH]; intros cd; simpl; [reflexivity |].
  rewrite Hl. destruct (deref h l); try apply IH.
  destruct (bool_decide _); now rewrite IH.
Qed.

Lemma deref_insert_ne (h : list Line) (i : nat) (x : Line) (ls : list loc) :
  Forall (fun l => l <> i) ls ->
  Forall (fun l => deref (<[i := x]> h) l = deref h l) ls.
Proof.
  intros H. eapply Forall_impl; [exact H |]. intros l Hl. simpl in Hl.
  unfold deref. rewrite list_lookup_insert_ne by congruence. reflexivity.
Qed.

Lemma seq_below (i : nat) : Forall (fun l => l <> i) (seq 0 i).
Proof.
  apply Forall_forall. intros l Hl. apply elem_of_seq in Hl. lia.
Qed.

(** [self[key]] outside synchronized mode: the dictionary gets an empty
    list for a key it has not, and nothing else changes. *)
Lemma getitem_unsync_run (s : EntriesCollection) (key : datetime.date) :
  synchronized s = false ->
  exists L,
    __getitem__ key s
    = Some (set_dict (<[key := L]> (dict s)) s, Ok tt)
    /\ (dict s !! key = Some L
        \/ (dict s !! key = None /\ L = mk_EntriesList true key [])).
Proof.
  intros H. unfold __getitem__, __missing__, mbind, M_bind, get, modify, mret, M_ret.
  destruct (dict s !! key) as [L|] eqn:E.
  - exists L. split; [| now left].
    rewrite insert_id by exact E. now destruct s.
  - simpl. rewrite H. eexists. split; [reflexivity |]. now right.
Qed.

(** [append] outside synchronized mode, of an entry bound to an entry
    line: the entry joins its list, chained or not, and a chained range is
    written to the line. *)
Lemma append_unsync_run (s : EntriesCollection) (key : datetime.date)
    (x : TimesheetEntry) (l : loc) (e : EntryLine) (L : EntriesList) :
  synchronized s = false ->
  dict s !! key = Some L ->
  line x = Some l ->
  heap s !! l = Some (EntryLine_ e) ->
  exists s' x' e',
    EntriesList_append key x s = Some (s', Ok x')
    /\ synchronized s' = false
    /\ lines s' = lines s
    /\ heap s' = <[l := EntryLine_ e']> (heap s)
    /\ dict s' !! key = Some (set_items (items L ++ [x']) L)
    /\ (forall k, k <> key -> dict s' !! k = dict s !! k)
    /\ ((x' = x /\ e' = e)
        \/ exists d, x' = TimesheetEntry_store x (set_e_duration d)
                     /\ e' = EntryLine___setattr__ e (set_duration d)).
Proof.
  intros Hsync HL Hline Hl.
  unfold EntriesList_append.
  rewrite (bind_ok _ _ _ _ _ (the_list_ok s key L HL)).
  rewrite (bind_ok _ _ _ _ _ (put_items_run s key _)).
  destruct (chained (items L ++ [x]) x) as [d|] eqn:Ec.
  - erewrite bind_ok.
    2:{ erewrite bind_ok by (apply (entry_setattr_duration _ x d l e Hline); exact Hl).
        rewrite (bind_ok _ _ _ _ _ (put_items_run _ key _)). reflexivity. }
    assert (Hfin : exists s',
              (if entries_collection L
               then '(x0, r) ← add_entry_call (el_date L) (TimesheetEntry_store x (set_e_duration d));
                    put_items key (items L ++ [x0]);; lift r;; mret x0
               else mret (TimesheetEntry_store x (set_e_duration d)))
                (set_dict
                   (alter (set_items (items L ++ [TimesheetEntry_store x (set_e_duration d)]))
                      key (alter (set_items (items L ++ [x])) key (dict s)))
                   (set_heap (<[l := EntryLine_ (EntryLine___setattr__ e (set_duration d))]>
                                (heap s)) s))
              = Some (s', Ok (TimesheetEntry_store x (set_e_duration d)))
              /\ synchronized s' = false /\ lines s' = lines s
              /\ heap s' = <[l := EntryLine_ (EntryLine___setattr__ e (set_duration d))]> (heap s)
              /\ dict s' !! key
                 = Some (set_items (items L ++ [TimesheetEntry_store x (set_e_duration d)]) L)
              /\ (forall k, k <> key -> dict s' !! k = dict s !! k)).
    { destruct (entries_collection L).
      - erewrite bind_ok by (apply add_entry_call_unsync; exact Hsync).
        cbv beta iota.
        rewrite (bind_ok _ _ _ _ _ (put_items_run _ key _)).
        eexists. split; [reflexivity |]. simpl.
        repeat split; auto.
        + rewrite !lookup_alter_eq, HL. reflexivity.
        + intros k Hk. now rewrite !lookup_alter_ne.
      - eexists. split; [reflexivity |]. simpl.
        repeat split; auto.
        + rewrite !lookup_alter_eq, HL. reflexivity.
        + intros k Hk. now rewrite !lookup_alter_ne. }
    destruct Hfin as (s' & Hrun & H1 & H2 & H3 & H4 & H5).
    exists s', (TimesheetEntry_store x (set_e_duration d)),
      (EntryLine___setattr__ e (set_duration d)).
    split; [exact Hrun |]. repeat split; eauto.
  - erewrite bind_ok by reflexivity.
    assert (Hfin : exists s',
              (if entries_collection L
               then '(x0, r) ← add_entry_call (el_date L) x;
                    put_items key (items L ++ [x0]);; lift r;; mret x0
               else mret x)
                (set_dict (alter (set_items (items L ++ [x])) key (dict s)) s)
              = Some (s', Ok x)
              /\ synchronized s' = false /\ lines s' = lines s
              /\ heap s' = heap s
              /\ dict s' !! key = Some (set_items (items L ++ [x]) L)
              /\ (forall k, k <> key -> dict s' !! k = dict s !! k)).
    { destruct (entries_collection L).
      - erewrite bind_ok by (apply add_entry_call_unsync; exact Hsync).
        cbv beta iota.
        rewrite (bind_ok _ _ _ _ _ (put_items_run _ key _)).
        eexists. split; [reflexivity |]. simpl.
        repeat split; auto.
        + rewrite !lookup_alter_eq, HL. reflexivity.
        + intros k Hk. now rewrite !lookup_alter_ne.
      - eexists. split; [reflexivity |]. simpl.
        repeat split; auto.
        + rewrite !lookup_alter_eq, HL. reflexivity.
        + intros k Hk. now rewrite lookup_alter_ne. }
    destruct Hfin as (s' & Hrun & H1 & H2 & H3 & H4 & H5).
    exists s', x, e. split; [exact Hrun |]. repeat split; eauto.
    rewrite H3. symmetry. apply list_insert_id. exact Hl.
Qed.

Lemma deref_entry_lookup (h : list Line) (l : loc) (e : EntryLine) :
  deref h l = EntryLine_ e -> h !! l = Some (EntryLine_ e).
Proof.
  unfold deref. destruct (h !! l) as [x|]; simpl; [congruence | discriminate].
Qed.

Lemma deref_insert (h : list Line) (l : loc) (x y : Line) :
  h !! l = Some y -> deref (<[l := x]> h) l = x.
Proof.
  intros H. unfold deref.
  rewrite list_lookup_insert_eq by (eapply lookup_lt_Some; exact H).
  reflexivity.
Qed.

(** The loop of the bulk load files every entry line it passes under the
    date of the last date line before it. *)
Lemma loop_entries (n fuel : nat) :
  forall i cd s s',
    synchronized s = false ->
    lines s = seq 0 n ->
    i <= n ->
    (forall key, entries_of key s = entries_under (heap s) key None (seq 0 i)) ->
    date_after (heap s) None (seq 0 i) = cd ->
    (forall key L, dict s !! key = Some L ->
       entries_collection L = true /\ el_date L = key /\ items L <> []) ->
    init_from_str_loop fuel i cd s = Some (s', Ok tt) ->
    (forall key, entries_of key s' = entries_under (heap s') key None (lines s'))
    /\ (forall key L, dict s' !! key = Some L ->
          entries_collection L = true /\ el_date L = key /\ items L <> []).
Proof.
  induction fuel as [|fuel IH]; intros i cd s s' Hsync Hlines Hi Hent Hcd Hdict H;
    [discriminate |].
  simpl in H. erewrite bind_ok in H by reflexivity. rewrite Hlines in H.
  destruct (decide (i < n)) as [Hlt|Hge].
  2:{ rewrite lookup_seq_ge in H by lia. injection H as <-.
      replace n with i in Hlines by lia. rewrite Hlines. auto. }
  rewrite lookup_seq_lt in H by exact Hlt. simpl in H.
  erewrite bind_ok in H by reflexivity.
  assert (Hseq : seq 0 (S i) = seq 0 i ++ [i]) by (rewrite seq_S; reflexivity).
  destruct (deref (heap s) i) as [t|e|d t] eqn:Ed.
  - (* a text line *)
    assert (Hi' : S i <= n) by lia.
    apply (IH (S i) cd s s' Hsync Hlines Hi'); [| | exact Hdict | exact H].
    + intros key. rewrite Hseq, entries_under_app, <- Hent. simpl.
      rewrite Ed. now rewrite app_nil_r.
    + rewrite Hseq, date_after_app, Hcd. simpl. now rewrite Ed.
  - (* an entry line *)
    erewrite bind_ok in H by apply entry_setattr_line.
    destruct cd as [c0|]; [| discriminate].
    destruct (getitem_unsync_run s c0 Hsync) as (L & Hget & HL).
    erewrite bind_ok in H by exact Hget.
    apply deref_entry_lookup in Ed.
    set (x := TimesheetEntry_store
                (TimesheetEntry___init__ (el_alias e) (el_duration e) (el_description e))
                (set_e_line (Some i))) in *.
    destruct (append_unsync_run (set_dict (<[c0 := L]> (dict s)) s) c0 x i e L)
      as (s1 & x' & e' & Happ & Hs1 & Hl1 & Hh1 & Hd1 & Hk1 & Hx');
      [exact Hsync | apply lookup_insert_eq | reflexivity | exact Ed |].
    erewrite bind_ok in H by exact Happ.
    simpl in Hl1, Hh1, Hd1, Hk1.
    assert (Hx : x' = entry_of_line i e').
    { destruct Hx' as [[-> ->] | (d & -> & ->)]; reflexivity. }
    assert (Hitems : entries_of c0 s = items L).
    { unfold entries_of. destruct HL as [-> | [-> ->]]; reflexivity. }
    assert (HLok : entries_collection L = true /\ el_date L = c0).
    { destruct HL as [HL | [_ ->]]; [| now split].
      destruct (Hdict _ _ HL) as (? & ? & _). now split. }
    assert (Hpre : Forall (fun l => deref (heap s1) l = deref (heap s) l) (seq 0 i)).
    { rewrite Hh1. apply deref_insert_ne, seq_below. }
    assert (Hat : deref (heap s1) i = EntryLine_ e').
    { rewrite Hh1. eapply deref_insert. exact Ed. }
    assert (Hi' : S i <= n) by lia.
    assert (Hlines1 : lines s1 = seq 0 n) by congruence.
    apply (IH (S i) (Some c0) s1 s' Hs1 Hlines1 Hi'); [| | | exact H].
    + intros key. rewrite Hseq, entries_under_app.
      rewrite (entries_under_ext _ _ _ _ Hpre), (date_after_ext _ _ _ Hpre).
      rewrite <- Hent, Hcd. simpl. rewrite Hat.
      destruct (decide (key = c0)) as [-> | Hne].
      * rewrite bool_decide_eq_true_2 by reflexivity.
        rewrite Hitems. unfold entries_of at 1. rewrite Hd1. simpl.
        now rewrite Hx.
      * rewrite bool_decide_eq_false_2 by congruence.
        rewrite app_nil_r. unfold entries_of.
        rewrite (Hk1 key Hne), lookup_insert_ne by congruence. reflexivity.
    + rewrite Hseq, date_after_app, (date_after_ext _ _ _ Hpre), Hcd. simpl.
      now rewrite Hat.
    + intros key L' HL'. destruct (decide (key = c0)) as [-> | Hne].
      * rewrite Hd1 in HL'. injection HL' as <-. simpl.
        destruct HLok. repeat split; auto.
        intros Hnil. apply app_eq_nil in Hnil as [_ [=]].
      * rewrite (Hk1 key Hne), lookup_insert_ne in HL' by congruence.
        now apply Hdict.
  - (* a date line *)
    assert (Hi' : S i <= n) by lia.
    apply (IH (S i) (Some d) s s' Hsync Hlines Hi'); [| | exact Hdict | exact H].
    + intros key. rewrite Hseq, entries_under_app, <- Hent. simpl.
      rewrite Ed. now rewrite app_nil_r.
    + rewrite Hseq, date_after_app. simpl. now rewrite Ed.
Qed.

(** X24: What the constructor makes of a text the parser accepts.  It
    returns, and the entries it has filed under a date are the entry lines
    of the document that stand under a date line of that date (up to the
    next date line), in the order of the lines: each entry is bound to its
    line and has the line's alias, description and duration, also when
    [append] has chained its range to the entry before it; it is neither
    ignored nor commented.  A date has a list only if it has such a line,
    and the list is bound to the collection and to that date. *)
Theorem bulk_load_entries (today_year : Z) (c0 : ascii) (t : string)
    (parsed : list Line) :
  TimesheetParser.parse today_year (String c0 t) = Ok parsed ->
  exists c,
    (forall fuel, length parsed < fuel ->
       EntriesCollection___init__ today_year fuel (Some (String c0 t))
       = Some (c, Ok tt))
    /\ (forall key,
          entries_of key c = entries_under (heap c) key None (lines c))
    /\ (forall key L, dict c !! key = Some L ->
          entries_collection L = true /\ el_date L = key /\ items L <> []).
Proof.
  intros Hparse.
  destruct (init_from_str_ok today_year (String c0 t) parsed Hparse)
    as (s' & Hrun & Hs' & Hl' & _).
  exists (set_synchronized true s'). split.
  - intros fuel Hfuel. rewrite init_unfold, (Hrun fuel Hfuel). reflexivity.
  - specialize (Hrun (S (length parsed)) ltac:(lia)).
    unfold init_from_str in Hrun.
    assert (Hlift : lift (TimesheetParser.parse today_year (String c0 t))
                      (set_synchronized false EntriesCollection_blank)
                    = Some (set_synchronized false EntriesCollection_blank, Ok parsed))
      by (unfold lift; now rewrite Hparse).
    rewrite (bind_ok _ _ _ _ _ Hlift) in Hrun.
    rewrite (bind_ok _ _ _ _ _ (new_lines_run parsed _)) in Hrun.
    erewrite bind_ok in Hrun by reflexivity.
    apply (loop_entries (length parsed)) in Hrun; [exact Hrun | | | | | |].
    + reflexivity.
    + reflexivity.
    + lia.
    + intros key. reflexivity.
    + reflexivity.
    + intros key L HL. simpl in HL. rewrite lookup_empty in HL. discriminate.
Qed.

Lemma bulk_load_entries_witness :
  exists c,
    (forall fuel, 3 < fuel ->
       EntriesCollection___init__ 2012 fuel (Some one_entry_text) = Some (c, Ok tt))
    /\ (forall key,
          entries_of key c = entries_under (heap c) key None (lines c))
    /\ (forall key L, dict c !! key = Some L ->
          entries_collection L = true /\ el_date L = key /\ items L <> []).
Proof.
  apply (bulk_load_entries 2012 "0" _
           [DateLine (datetime.mk_date 2010 1 1) "01.01.2010"; TextLine "";
            EntryLine_ (EntryLine___init__ "foo" (Hours (Py.Finite 1)) "bar"
                          (Some "foo 1 bar"))]).
  vm_compute. reflexivity.
Defined.

End LoadedEntries.

(** ** The lists of entries *)

Section ListMethods.

Lemma setattr_entry_value (h : list Line) (x : TimesheetEntry)
    (a : TimesheetEntry_assign) :
  snd (TimesheetEntry___setattr__ h x a) = TimesheetEntry_store x a.
Proof.
  unfold TimesheetEntry___setattr__.
  destruct (line (TimesheetEntry_store x a)) as [l|]; [| reflexivity].
  destruct (h !! l) as [[| |]|]; destruct (mirrored a); reflexivity.
Qed.

Lemma entry_setattr_value (s : EntriesCollection) (x : TimesheetEntry)
    (a : TimesheetEntry_assign) :
  exists h, entry_setattr x a s = Some (set_heap h s, Ok (TimesheetEntry_store x a)).
Proof.
  unfold entry_setattr.
  pose proof (setattr_entry_value (heap s) x a) as H.
  destruct (TimesheetEntry___setattr__ (heap s) x a) as [h x']. simpl in H.
  subst x'. eauto.
Qed.

(** [self[-2]] once [x] is appended: the entry that was last. *)
Lemma item_m2_snoc (its : list TimesheetEntry) (prev x : TimesheetEntry) :
  item_m2 ((its ++ [prev]) ++ [x]) = Some prev.
Proof.
  unfold item_m2. rewrite !length_app. simpl.
  replace (length its + 1 + 1 - 2) with (length its) by lia.
  rewrite <- app_assoc. apply list_lookup_middle. reflexivity.
Qed.

(** X25: [append], while the collection is not synchronized: the entry
    becomes the last of its list.  When the list was not empty, the entry
    has a range without a start and the entry that was last has a range,
    the start of the new range becomes the end of that one; in every other
    case the duration stays.  The other attributes of the entry stay as
    they are. *)
Theorem append_chains (s : EntriesCollection) (key : datetime.date)
    (x : TimesheetEntry) (L : EntriesList) :
  synchronized s = false ->
  dict s !! key = Some L ->
  exists s' x',
    EntriesList_append key x s = Some (s', Ok x')
    /\ entries_of key s' = items L ++ [x']
    /\ (forall k, k <> key -> entries_of k s' = entries_of k s)
    /\ duration x'
       = match duration x, last (items L) with
         | Range None stop, Some prev =>
             match duration prev with
             | Range _ prev_stop => Range prev_stop stop
             | Hours _ => duration x
             end
         | _, _ => duration x
         end
    /\ TimesheetEntry_store x' (set_e_duration (duration x)) = x.
Proof.
  intros Hsync HL. unfold EntriesList_append.
  rewrite (bind_ok _ _ _ _ _ (the_list_ok s key L HL)).
  rewrite (bind_ok _ _ _ _ _ (put_items_run s key _)).
  assert (Hfin : forall x' s1,
            synchronized s1 = false ->
            dict s1 !! key = Some (set_items (items L ++ [x']) L) ->
            (forall k, k <> key -> dict s1 !! k = dict s !! k) ->
            exists s',
              (if entries_collection L
               then '(x0, r) ← add_entry_call (el_date L) x';
                    put_items key (items L ++ [x0]);; lift r;; mret x0
               else mret x') s1 = Some (s', Ok x')
              /\ entries_of key s' = items L ++ [x']
              /\ (forall k, k <> key -> entries_of k s' = entries_of k s)).
  { intros x' s1 Hs1 Hd1 Hk1. destruct (entries_collection L).
    - erewrite bind_ok by (apply add_entry_call_unsync; exact Hs1).
      cbv beta iota.
      rewrite (bind_ok _ _ _ _ _ (put_items_run _ key _)).
      eexists. split; [reflexivity |]. unfold entries_of. simpl. split.
      + rewrite lookup_alter_eq, Hd1. reflexivity.
      + intros k Hk. rewrite lookup_alter_ne by congruence.
        now rewrite (Hk1 k Hk).
    - eexists. split; [reflexivity |]. unfold entries_of. split.
      + rewrite Hd1. reflexivity.
      + intros k Hk. now rewrite (Hk1 k Hk). }
  destruct (chained (items L ++ [x]) x) as [d|] eqn:Ec.
  - destruct (entry_setattr_value
                (set_dict (alter (set_items (items L ++ [x])) key (dict s)) s)
                x (set_e_duration d)) as [h Hset].
    erewrite bind_ok.
    2:{ rewrite (bind_ok _ _ _ _ _ Hset).
        rewrite (bind_ok _ _ _ _ _ (put_items_run _ key _)). reflexivity. }
    destruct (Hfin (TimesheetEntry_store x (set_e_duration d))
                (set_dict
                   (alter (set_items (items L ++ [TimesheetEntry_store x (set_e_duration d)]))
                      key (alter (set_items (items L ++ [x])) key (dict s)))
                   (set_heap h s)))
      as (s' & Hrun & He & Hk).
    + exact Hsync.
    + simpl. rewrite !lookup_alter_eq, HL. reflexivity.
    + intros k Hk. simpl. now rewrite !lookup_alter_ne.
    + exists s', (TimesheetEntry_store x (set_e_duration d)).
      split; [exact Hrun |]. split; [exact He |]. split; [exact Hk |].
      split; [| now destruct x].
      unfold chained in Ec.
      destruct (Nat.ltb 1 (length (items L ++ [x]))) eqn:Elen; [| discriminate].
      destruct (items L) as [|i0 its] eqn:Eits using rev_ind;
        [discriminate |].
      clear IHits. rewrite item_m2_snoc in Ec. rewrite last_snoc. simpl.
      destruct (duration x) as [|[|] stop]; try discriminate.
      destruct (duration i0); congruence.
  - erewrite bind_ok by reflexivity.
    destruct (Hfin x (set_dict (alter (set_items (items L ++ [x])) key (dict s)) s))
      as (s' & Hrun & He & Hk).
    + exact Hsync.
    + simpl. rewrite lookup_alter_eq, HL. reflexivity.
    + intros k Hk. simpl. now rewrite lookup_alter_ne.
    + exists s', x. split; [exact Hrun |]. split; [exact He |].
      split; [exact Hk |]. split; [| now destruct x].
      unfold chained in Ec.
      destruct (items L) as [|i0 its] using rev_ind.
      * simpl. now destruct (duration x) as [|[|]].
      * clear IHits. rewrite last_snoc.
        replace (Nat.ltb 1 (length ((its ++ [i0]) ++ [x]))) with true in Ec
          by (symmetry; apply Nat.ltb_lt; rewrite !length_app; simpl; lia).
        rewrite item_m2_snoc in Ec.
        destruct (duration x) as [|[|] stop]; try reflexivity.
        destruct (duration i0); [reflexivity | discriminate].
Qed.

Lemma append_chains_witness :
  exists s' x',
    EntriesList_append (datetime.mk_date 2010 1 1)
      (TimesheetEntry___init__ "foo"
         (Range None (Some (datetime.mk_time 11 0 0 0))) "bar")
      (mk_EntriesCollection [] 
         {[ datetime.mk_date 2010 1 1 :=
              mk_EntriesList true (datetime.mk_date 2010 1 1)
                [TimesheetEntry___init__ "baz"
                   (Range (Some (datetime.mk_time 9 0 0 0))
                      (Some (datetime.mk_time 10 0 0 0))) "qux"] ]}
         [] false false)
    = Some (s', Ok x')
    /\ duration x'
       = Range (Some (datetime.mk_time 10 0 0 0)) (Some (datetime.mk_time 11 0 0 0)).
Proof.
  destruct (append_chains
              (mk_EntriesCollection []
                 {[ datetime.mk_date 2010 1 1 :=
                      mk_EntriesList true (datetime.mk_date 2010 1 1)
                        [TimesheetEntry___init__ "baz"
                           (Range (Some (datetime.mk_time 9 0 0 0))
                              (Some (datetime.mk_time 10 0 0 0))) "qux"] ]}
                 [] false false)
              (datetime.mk_date 2010 1 1)
              (TimesheetEntry___init__ "foo"
                 (Range None (Some (datetime.mk_time 11 0 0 0))) "bar")
              (mk_EntriesList true (datetime.mk_date 2010 1 1)
                 [TimesheetEntry___init__ "baz"
                    (Range (Some (datetime.mk_time 9 0 0 0))
                       (Some (datetime.mk_time 10 0 0 0))) "qux"]))
    as (s' & x' & Hrun & _ & _ & Hd & _).
  - reflexivity.
  - vm_compute. reflexivity.
  - exists s', x'. split; [exact Hrun | exact Hd].
Defined.

Lemma delete_entries_unsync (s : EntriesCollection) (es : list TimesheetEntry) :
  synchronized s = false -> delete_entries es s = Some (s, Ok tt).
Proof.
  intros H. unfold delete_entries, synchronized_, mbind, M_bind, get.
  now rewrite H.
Qed.

Lemma delete_date_unsync (s : EntriesCollection) (d : datetime.date) :
  synchronized s = false -> delete_date d s = Some (s, Ok tt).
Proof.
  intros H. unfold delete_date, synchronized_, mbind, M_bind, get.
  now rewrite H.
Qed.

(** X26: [del entries[key]] on the list of a date.  An index outside the
    list, from either end, raises [IndexError] and changes nothing, in
    either mode.  An index inside the list, a negative one counting from
    the end, removes that entry from the list; while the collection is not
    synchronized nothing else changes, and the list stays under its date
    also when it is empty. *)
Theorem list_delitem_index (s : EntriesCollection) (d : datetime.date)
    (key : Z) (L : EntriesList) :
  dict s !! d = Some L ->
  ((key < - Z.of_nat (length (items L)) \/ Z.of_nat (length (items L)) <= key)%Z ->
   exists msg,
     EntriesList___delitem__ d key s = Some (s, Raise (IndexError msg)))
  /\ ((- Z.of_nat (length (items L)) <= key < Z.of_nat (length (items L)))%Z ->
      synchronized s = false ->
      exists s',
        EntriesList___delitem__ d key s = Some (s', Ok tt)
        /\ dict s' !! d
           = Some (set_items
                     (delete (Z.to_nat (key mod Z.of_nat (length (items L))))
                        (items L)) L)
        /\ (forall k, k <> d -> dict s' !! k = dict s !! k)
        /\ lines s' = lines s /\ heap s' = heap s).
Proof.
  intros HL. unfold EntriesList___delitem__.
  rewrite (bind_ok _ _ _ _ _ (the_list_ok s d L HL)).
  set (n := Z.of_nat (length (items L))).
  split.
  - intros Hout. unfold list_index. fold n.
    replace ((0 <=? (if (key <? 0)%Z then (key + n)%Z else key))%Z
             && ((if (key <? 0)%Z then (key + n)%Z else key) <? n)%Z)
      with false; [eexists; reflexivity |].
    symmetry. apply andb_false_iff.
    destruct (Z.ltb_spec key 0);
      [destruct Hout; [left; apply Z.leb_gt | right; apply Z.ltb_ge]
      | right; apply Z.ltb_ge]; lia.
  - intros Hin Hsync. unfold list_index. fold n.
    assert (Hi : (if (key <? 0)%Z then (key + n)%Z else key) = (key mod n)%Z).
    { destruct (Z.ltb_spec key 0).
      - apply Z.mod_unique with (q := (-1)%Z); lia.
      - symmetry. apply Z.mod_small. lia. }
    rewrite Hi.
    assert (Hr : (0 <= key mod n < n)%Z) by (apply Z.mod_pos_bound; lia).
    replace ((0 <=? key mod n)%Z && (key mod n <? n)%Z) with true
      by (symmetry; apply andb_true_iff; split;
          [apply Z.leb_le | apply Z.ltb_lt]; lia).
    destruct (lookup_lt_is_Some_2 (items L) (Z.to_nat (key mod n)))
      as [entry Hentry]; [unfold n in *; lia |].
    rewrite Hentry.
    assert (Hdel : (if entries_collection L then delete_entry entry else mret tt) s
                   = Some (s, Ok tt)).
    { destruct (entries_collection L); [| reflexivity].
      now apply delete_entries_unsync. }
    rewrite (bind_ok _ _ _ _ _ Hdel).
    rewrite (bind_ok _ _ _ _ _ (put_items_run s d _)).
    match goal with
    | |- context [if ?b then delete_date _ else _] =>
        assert (Hdd : forall s1, synchronized s1 = false ->
                  (if b then delete_date (el_date L) else mret tt) s1
                  = Some (s1, Ok tt))
          by (intros s1 Hs1; destruct b;
              [now apply delete_date_unsync | reflexivity])
    end.
    rewrite Hdd by exact Hsync.
    eexists. split; [reflexivity |]. simpl.
    split; [rewrite lookup_alter_eq, HL; reflexivity |].
    split; [intros k Hk; now rewrite lookup_alter_ne | auto].
Qed.

Lemma list_delitem_index_witness :
  exists msg,
    EntriesList___delitem__ (datetime.mk_date 2010 1 1) (-2) one_entry_collection
    = Some (one_entry_collection, Raise (IndexError msg)).
Proof.
  apply (list_delitem_index one_entry_collection (datetime.mk_date 2010 1 1) (-2)
           (mk_EntriesList true (datetime.mk_date 2010 1 1)
              [mk_TimesheetEntry (Some 2) false false "foo" "bar"
                 (Hours (Py.Finite 1))])).
  - vm_compute. reflexivity.
  - left. simpl. lia.
Defined.

End ListMethods.

(** ** What the constructor raises *)

Section ConstructorOutcome.
Import TimesheetParser.

Lemma parse_entry_line_raises (line : string) (e : exn) :
  _parse_entry_line line = Raise e -> exists msg, e = ParseError msg.
Proof.
  unfold _parse_entry_line.
  destruct (Py.split line 2) as [|a [|tok [|desc [|]]]];
    try (intros [= <-]; eauto).
  destruct (ParseTimeMore.parse_time_outcome tok) as [[d ->] | [msg ->]]; simpl.
  - discriminate.
  - intros [= <-]. eauto.
Qed.

Lemma parser_from_raises (today_year : Z) (ls : list string) :
  forall cd e,
    parser_from today_year cd ls = Raise e -> exists msg, e = ParseError msg.
Proof.
  induction ls as [|l ls IH]; intros cd e H; simpl in H; [discriminate |].
  destruct (_ || _).
  - destruct (parser_from today_year cd ls) as [rest|e'] eqn:E; simpl in H;
      [discriminate |].
    injection H as <-. eapply IH. exact E.
  - destruct (extract_date today_year (Py.strip l)) as [d|e'] eqn:Ed.
    + destruct (parser_from today_year (Some d) ls) as [rest|e''] eqn:E;
        simpl in H; [discriminate |].
      injection H as <-. eapply IH. exact E.
    + destruct (proj2 (ExtractDateMore.extract_date_cases_raise today_year _) e' Ed)
        as [msg ->].
      destruct cd as [d0|]; simpl in H; [| injection H as <-; eauto].
      destruct (_parse_entry_line (Py.strip l)) as [x|e''] eqn:Ex; simpl in H.
      * destruct (parser_from today_year (Some d0) ls) as [rest|e3] eqn:E;
          simpl in H; [discriminate |].
        injection H as <-. eapply IH. exact E.
      * injection H as <-. eapply parse_entry_line_raises. exact Ex.
Qed.

(** X27: [EntriesCollection(entries)] returns, or raises [ParseError] and
    nothing else: no entry reaches the loop of [init_from_str] without a
    date before it, so [current_date] is always bound there.  Either way
    the collection is synchronized afterwards; when the text is refused
    the collection is empty. *)
Theorem constructor_outcome (today_year : Z) (entries : option string) :
  exists c r,
    (forall fuel,
       length (Py.splitlines (default "" entries)) < fuel ->
       EntriesCollection___init__ today_year fuel entries = Some (c, r))
    /\ synchronized c = true
    /\ (r = Ok tt
        \/ exists msg, r = Raise (ParseError msg) /\ lines c = [] /\ dict c = ∅).
Proof.
  destruct (truthy entries) eqn:Et.
  - destruct entries as [[|c0 t]|]; try discriminate. simpl.
    destruct (parse today_year (String c0 t)) as [parsed|e] eqn:Ep.
    + destruct (init_from_str_ok today_year (String c0 t) parsed Ep)
        as (s' & Hrun & _).
      exists (set_synchronized true s'), (Ok tt). split; [| split; [reflexivity | now left]].
      intros fuel Hfuel. rewrite init_unfold, (Hrun fuel); [reflexivity |].
      now rewrite (parse_length _ _ _ Ep).
    + pose proof (parser_from_raises _ _ _ _ Ep) as [msg ->].
      eexists _, _. split; [| split].
      * intros fuel _. rewrite init_unfold.
        rewrite (init_from_str_raise _ _ _ _ _ Ep). reflexivity.
      * reflexivity.
      * right. exists msg. auto.
  - exists EntriesCollection_blank, (Ok tt). split; [| split; [reflexivity | now left]].
    intros fuel _. now apply init_falsy.
Qed.

End ConstructorOutcome.
